(** * Thermostat control loop and MQTT bridge

    A shallow embedding of the backend of the thermostat:
    - [hardware/relay.ts]   the relay actuator,
    - [services/logic.ts]   the control loop (hysteresis decision, fault
                            counting, start / stop / reset, setpoint),
    - [services/mqtt.ts]    the bridge (publication of the state, command
                            handlers, connection events).

    The three modules share module-level mutable variables.  They are
    gathered in one record [World], and every function of the source is a
    computation in a reader-and-state monad [M]: the reader part [Env] holds
    what the outside world answers during one operation (the sensor reading,
    whether the GPIO write succeeds, the clock, the outcome of the database
    write and of the broker connection), the state part is [World].  Each
    exported function and each timer or client callback is one atomic
    operation, as on the single-threaded event loop that runs them.

    JavaScript numbers that hold temperatures are IEEE 754 doubles.  A
    finite double is a rational number: such numbers are values of [Q],
    their comparisons are the comparisons of [Q], and the result of an
    arithmetic operation is rounded to the nearest double ([double], ties
    to even).  Infinity and NaN are not modelled.  Counters and millisecond
    clocks are integers far below 2^53, on which the arithmetic of doubles
    is exact: they are values of [Z]. *)

From Stdlib Require Import ZArith QArith Qabs Qpower Bool List Ascii String Lia.
Import ListNotations.

Local Open Scope Z_scope.

(** ** Data model *)

(** Messages stored in [lastError].  The source builds them by string
    interpolation; the constructors keep the interpolated values. *)
Inductive ErrMsg : Type :=
| SensorMsg (m : string)      (* error.message of a failed getTemperature() *)
| TurnOffFailed               (* "Error al intentar apagar la calefacción" *)
| TurnOnFailed                (* "Error al intentar encender la calefacción" *)
| TargetOutOfRange (t : Q)    (* "Error al configurar temperatura objetivo: Temperatura fuera de rango ..." *)
| TargetStoreFailed (m : string) (* same prefix, message of the rejected database write *)
| HysteresisInvalid (h : Q).  (* "Error al configurar histéresis: ..." *)

(** Messages handed to the critical-error handlers. *)
Inductive CritMsg : Type :=
| TooManyErrors (n : Z)       (* "Demasiados errores consecutivos (n), apagando termostato por seguridad" *)
| SensorPaused.               (* "Sensor error: Se pausó el termostato ..." *)

(** interface ThermostatConfig *)
Record ThermostatConfig : Type := mkConfig {
  c_targetTemperature : Q;
  c_hysteresis : Q;
  checkIntervalMs : Z;
  maxConsecutiveErrors : Z
}.

(** Partial<ThermostatConfig>: a field is either present or absent. *)
Record PartialConfig : Type := mkPartial {
  p_targetTemperature : option Q;
  p_hysteresis : option Q;
  p_checkIntervalMs : option Z;
  p_maxConsecutiveErrors : option Z
}.

(** interface ThermostatState *)
Record ThermostatState : Type := mkState {
  currentTemperature : Q;
  targetTemperature : Q;
  hysteresis : Q;
  isHeating : bool;
  lastUpdated : Z;
  isRunning : bool;
  lastError : option ErrMsg;
  consecutiveErrors : Z
}.

(** interface MqttServiceState *)
Record MqttServiceState : Type := mkService {
  isConnected : bool;
  isEnabled : bool;
  lastPublishTime : option Z;
  mqtt_lastError : option string;
  reconnectAttempts : Z;
  maxReconnectAttempts : Z
}.

(** mqttConfig.topics *)
Inductive Topic : Type :=
| T_temperature | T_relay | T_setpoint | T_online | T_mode
| T_setpointSet | T_relaySet | T_modeSet.

(** The [value] field of a published payload. *)
Inductive PayloadValue : Type :=
| PNum (q : Q) | PBool (b : bool) | PStr (s : string).

(** What the program does to the outside world.  The events are kept, most
    recent first, in the ghost field [trace] of [World], each with the
    clock reading of the operation that produced it. *)
Inductive Event : Type :=
| RelayWrite (on : bool) (ok : bool)   (* relay.digitalWrite(RELAY_ON / RELAY_OFF); ok = it did not throw *)
| CriticalError (handler : nat) (msg : CritMsg) (* a registered handler is called *)
| TimerArmed (period : Z)              (* thermostatInterval = setInterval(...) *)
| TimerCleared                         (* clearInterval(thermostatInterval) *)
| Persisted (t : Q)                    (* SettingModel.updateOne succeeded *)
| Published (topic : Topic) (v : PayloadValue) (* mqttClient.publish, retained *)
| Subscribed (topic : Topic)           (* mqttClient.subscribe *)
| PublishTimerArmed | PublishTimerCleared
| ClientConnecting                     (* mqtt.connect(...) *)
| ClientEnded                          (* mqttClient.end(true, ...) *)
| TimeoutArmed (delay : Z).            (* setTimeout(..., delay) *)

(** The module-level variables of relay.ts, logic.ts and mqtt.ts. *)
Record World : Type := mkWorld {
  (* logic.ts *)
  thermostatState : ThermostatState;
  thermostatConfig : ThermostatConfig;
  thermostatInterval : option Z;   (* [Some period] while the interval is armed, [None] for null *)
  lastControlAction : Z;
  errorHandlers : list nat;        (* the registered handlers, by identifier *)
  (* relay.ts *)
  relayState : bool;
  (* mqtt.ts *)
  serviceState : MqttServiceState;
  mqttClient : bool;               (* [true] while mqttClient is not null *)
  publishInterval : bool;          (* [true] while the publish interval is armed *)
  (* ghost *)
  trace : list (Z * Event)
}.

(** Result of one call of getTemperature(): a value or a thrown Error. *)
Inductive SensorResult : Type :=
| Reading (t : Q)
| SensorError (m : string).

(** What the environment answers during one operation. *)
Record Env : Type := mkEnv {
  sensor : SensorResult;        (* getTemperature() *)
  gpioOk : bool;                (* relay.digitalWrite does not throw *)
  now : Z;                      (* Date.now() / new Date() *)
  dbError : option string;      (* [Some m]: SettingModel.updateOne rejects with message m *)
  connectError : option string  (* [Some m]: mqtt.connect throws an error that prints as m *)
}.

(** const DEFAULT_CONFIG *)
Definition DEFAULT_CONFIG : ThermostatConfig :=
  {| c_targetTemperature := 22;
     c_hysteresis := 3 # 2;
     checkIntervalMs := 3000;
     maxConsecutiveErrors := 5 |}.

(** Number comparisons of the source, on [Q]. *)
Definition Qltb (x y : Q) : bool := negb (Qle_bool y x).
Definition Qgeb (x y : Q) : bool := Qle_bool y x.

(** ** JavaScript numbers *)

(** The integer nearest to the quotient [n / d] (with [0 < d]); a quotient
    half-way between two integers goes to the even one. *)
Definition roundHalfEven (n d : Z) : Z :=
  let q := n / d in
  let r := n mod d in
  match 2 * r ?= d with
  | Lt => q
  | Gt => q + 1
  | Eq => if Z.even q then q else q + 1
  end.

Definition roundQ (y : Q) : Z := roundHalfEven (Qnum y) (Zpos (Qden y)).

(** The exponent [k] with [2^k <= |x| < 2^(k+1)], for [x] other than 0:
    the difference of the bit lengths of numerator and denominator, or one
    less. *)
Definition binade (x : Q) : Z :=
  let k := Z.log2 (Z.abs (Qnum x)) - Z.log2 (Zpos (Qden x)) in
  if Qle_bool (2 ^ k) (Qabs x) then k else k - 1.

(** The exponent of the unit in the last place of the doubles around [x]:
    53 bits are kept, and the exponent does not go below that of the
    subnormal numbers. *)
Definition ulp (x : Q) : Z := Z.max (binade x - 52) (-1074).

(** The double nearest to a rational: the nearest multiple of
    [2 ^ ulp x], in lowest terms. *)
Definition double (x : Q) : Q :=
  if Qnum x =? 0 then 0%Q
  else Qred (inject_Z (roundQ (x / 2 ^ ulp x)) * 2 ^ ulp x)%Q.

(** The rationals that are doubles. *)
Definition isDouble (t : Q) : Prop := (double t == t)%Q.

(** [x - y] and [x / y] on doubles. *)
Definition fsub (x y : Q) : Q := double (x - y).
Definition fdiv (x y : Q) : Q := double (x / y).

(** ** The monad *)

Definition M (A : Type) : Type := Env -> World -> A * World.

Definition ret {A} (a : A) : M A := fun _ w => (a, w).

Definition bind {A B} (m : M A) (k : A -> M B) : M B :=
  fun e w => let (a, w') := m e w in k a e w'.

Definition ask : M Env := fun e w => (e, w).
Definition get : M World := fun _ w => (w, w).
Definition modify (f : World -> World) : M unit := fun _ w => (tt, f w).

Declare Scope m_scope.
Delimit Scope m_scope with m.
Notation "x <- c1 ;; c2" := (bind c1 (fun x => c2))
  (at level 61, c1 at next level, right associativity) : m_scope.
Notation "c1 ;; c2" := (bind c1 (fun _ => c2))
  (at level 61, right associativity) : m_scope.
Local Open Scope m_scope.

(** The world after running [m], and its result. *)
Definition exec {A} (m : M A) (e : Env) (w : World) : World := snd (m e w).
Definition eval {A} (m : M A) (e : Env) (w : World) : A := fst (m e w).

(** ** Field updates *)

Definition set_state (f : ThermostatState -> ThermostatState) (w : World) : World :=
  mkWorld (f (thermostatState w)) (thermostatConfig w) (thermostatInterval w)
          (lastControlAction w) (errorHandlers w) (relayState w)
          (serviceState w) (mqttClient w) (publishInterval w) (trace w).

Definition set_config (f : ThermostatConfig -> ThermostatConfig) (w : World) : World :=
  mkWorld (thermostatState w) (f (thermostatConfig w)) (thermostatInterval w)
          (lastControlAction w) (errorHandlers w) (relayState w)
          (serviceState w) (mqttClient w) (publishInterval w) (trace w).

Definition set_thermostatInterval (t : option Z) (w : World) : World :=
  mkWorld (thermostatState w) (thermostatConfig w) t
          (lastControlAction w) (errorHandlers w) (relayState w)
          (serviceState w) (mqttClient w) (publishInterval w) (trace w).

Definition set_lastControlAction (t : Z) (w : World) : World :=
  mkWorld (thermostatState w) (thermostatConfig w) (thermostatInterval w)
          t (errorHandlers w) (relayState w)
          (serviceState w) (mqttClient w) (publishInterval w) (trace w).

Definition set_errorHandlers (l : list nat) (w : World) : World :=
  mkWorld (thermostatState w) (thermostatConfig w) (thermostatInterval w)
          (lastControlAction w) l (relayState w)
          (serviceState w) (mqttClient w) (publishInterval w) (trace w).

Definition set_relayState (b : bool) (w : World) : World :=
  mkWorld (thermostatState w) (thermostatConfig w) (thermostatInterval w)
          (lastControlAction w) (errorHandlers w) b
          (serviceState w) (mqttClient w) (publishInterval w) (trace w).

Definition set_service (f : MqttServiceState -> MqttServiceState) (w : World) : World :=
  mkWorld (thermostatState w) (thermostatConfig w) (thermostatInterval w)
          (lastControlAction w) (errorHandlers w) (relayState w)
          (f (serviceState w)) (mqttClient w) (publishInterval w) (trace w).

Definition set_mqttClient (b : bool) (w : World) : World :=
  mkWorld (thermostatState w) (thermostatConfig w) (thermostatInterval w)
          (lastControlAction w) (errorHandlers w) (relayState w)
          (serviceState w) b (publishInterval w) (trace w).

Definition set_publishInterval (b : bool) (w : World) : World :=
  mkWorld (thermostatState w) (thermostatConfig w) (thermostatInterval w)
          (lastControlAction w) (errorHandlers w) (relayState w)
          (serviceState w) (mqttClient w) b (trace w).

Definition set_trace (l : list (Z * Event)) (w : World) : World :=
  mkWorld (thermostatState w) (thermostatConfig w) (thermostatInterval w)
          (lastControlAction w) (errorHandlers w) (relayState w)
          (serviceState w) (mqttClient w) (publishInterval w) l.

(* thermostatState.<field> = v *)
Definition with_currentTemperature (v : Q) (s : ThermostatState) : ThermostatState :=
  mkState v (targetTemperature s) (hysteresis s) (isHeating s) (lastUpdated s)
          (isRunning s) (lastError s) (consecutiveErrors s).
Definition with_targetTemperature (v : Q) (s : ThermostatState) : ThermostatState :=
  mkState (currentTemperature s) v (hysteresis s) (isHeating s) (lastUpdated s)
          (isRunning s) (lastError s) (consecutiveErrors s).
Definition with_hysteresis (v : Q) (s : ThermostatState) : ThermostatState :=
  mkState (currentTemperature s) (targetTemperature s) v (isHeating s) (lastUpdated s)
          (isRunning s) (lastError s) (consecutiveErrors s).
Definition with_isHeating (v : bool) (s : ThermostatState) : ThermostatState :=
  mkState (currentTemperature s) (targetTemperature s) (hysteresis s) v (lastUpdated s)
          (isRunning s) (lastError s) (consecutiveErrors s).
Definition with_lastUpdated (v : Z) (s : ThermostatState) : ThermostatState :=
  mkState (currentTemperature s) (targetTemperature s) (hysteresis s) (isHeating s) v
          (isRunning s) (lastError s) (consecutiveErrors s).
Definition with_isRunning (v : bool) (s : ThermostatState) : ThermostatState :=
  mkState (currentTemperature s) (targetTemperature s) (hysteresis s) (isHeating s)
          (lastUpdated s) v (lastError s) (consecutiveErrors s).
Definition with_lastError (v : option ErrMsg) (s : ThermostatState) : ThermostatState :=
  mkState (currentTemperature s) (targetTemperature s) (hysteresis s) (isHeating s)
          (lastUpdated s) (isRunning s) v (consecutiveErrors s).
Definition with_consecutiveErrors (v : Z) (s : ThermostatState) : ThermostatState :=
  mkState (currentTemperature s) (targetTemperature s) (hysteresis s) (isHeating s)
          (lastUpdated s) (isRunning s) (lastError s) v.

(* thermostatConfig.<field> = v *)
Definition with_c_targetTemperature (v : Q) (c : ThermostatConfig) : ThermostatConfig :=
  mkConfig v (c_hysteresis c) (checkIntervalMs c) (maxConsecutiveErrors c).
Definition with_c_hysteresis (v : Q) (c : ThermostatConfig) : ThermostatConfig :=
  mkConfig (c_targetTemperature c) v (checkIntervalMs c) (maxConsecutiveErrors c).

(* serviceState.<field> = v *)
Definition with_isConnected (v : bool) (s : MqttServiceState) : MqttServiceState :=
  mkService v (isEnabled s) (lastPublishTime s) (mqtt_lastError s)
            (reconnectAttempts s) (maxReconnectAttempts s).
Definition with_isEnabled (v : bool) (s : MqttServiceState) : MqttServiceState :=
  mkService (isConnected s) v (lastPublishTime s) (mqtt_lastError s)
            (reconnectAttempts s) (maxReconnectAttempts s).
Definition with_lastPublishTime (v : option Z) (s : MqttServiceState) : MqttServiceState :=
  mkService (isConnected s) (isEnabled s) v (mqtt_lastError s)
            (reconnectAttempts s) (maxReconnectAttempts s).
Definition with_mqtt_lastError (v : option string) (s : MqttServiceState) : MqttServiceState :=
  mkService (isConnected s) (isEnabled s) (lastPublishTime s) v
            (reconnectAttempts s) (maxReconnectAttempts s).
Definition with_reconnectAttempts (v : Z) (s : MqttServiceState) : MqttServiceState :=
  mkService (isConnected s) (isEnabled s) (lastPublishTime s) (mqtt_lastError s)
            v (maxReconnectAttempts s).

(** Record an event, with the clock reading of the running operation. *)
Definition log (ev : Event) : M unit :=
  fun e w => (tt, set_trace ((now e, ev) :: trace w) w).

(** ** hardware/relay.ts *)

(** turnOnRelay(): the GPIO write may throw; then the state is kept and
    [false] is returned. *)
Definition turnOnRelay : M bool :=
  e <- ask ;;
  if gpioOk e
  then log (RelayWrite true true) ;; modify (set_relayState true) ;; ret true
  else log (RelayWrite true false) ;; ret false.

(** turnOffRelay() *)
Definition turnOffRelay : M bool :=
  e <- ask ;;
  if gpioOk e
  then log (RelayWrite false true) ;; modify (set_relayState false) ;; ret true
  else log (RelayWrite false false) ;; ret false.

(** getRelayState() *)
Definition getRelayState : M bool :=
  w <- get ;; ret (relayState w).

(** ** services/mqtt.ts: publication *)

(** publishMessage(topic, payload): silently dropped when there is no
    client or no connection.  The completion callback handed to the client
    runs in a later turn of the event loop: it is [onCompletion] below. *)
Definition publishMessage (topic : Topic) (v : PayloadValue) : M unit :=
  w <- get ;;
  if negb (mqttClient w) || negb (isConnected (serviceState w))
  then ret tt
  else log (Published topic v).

(** ['heat', 'off'].includes(mode) *)
Definition isMode (mode : string) : bool :=
  (String.eqb mode "heat" || String.eqb mode "off")%string.

(** The mode derived from the running flag:
    [thermostatState.isRunning ? 'heat' : 'off']. *)
Definition modeOf (running : bool) : string :=
  if running then "heat"%string else "off"%string.

(** publishThermostatStatus() *)
Definition publishThermostatStatus : M unit :=
  w <- get ;;
  if negb (isConnected (serviceState w)) then ret tt
  else
    let thermostatState := thermostatState w in   (* getThermostatState() *)
    relayState <- getRelayState ;;
    publishMessage T_temperature (PNum (currentTemperature thermostatState)) ;;
    publishMessage T_relay (PBool relayState) ;;
    publishMessage T_setpoint (PNum (targetTemperature thermostatState)) ;;
    publishMessage T_mode (PStr (modeOf (isRunning thermostatState))) ;;
    e <- ask ;;
    modify (set_service (with_lastPublishTime (Some (now e)))) ;;
    modify (set_service (with_mqtt_lastError None)).

(** publishSetpointUpdate(newSetpoint) *)
Definition publishSetpointUpdate (newSetpoint : Q) : M unit :=
  w <- get ;;
  if isConnected (serviceState w)
  then publishMessage T_setpoint (PNum newSetpoint)
  else ret tt.

(** publishModeUpdate(newMode) *)
Definition publishModeUpdate (newMode : string) : M unit :=
  w <- get ;;
  if isConnected (serviceState w) && isMode newMode
  then publishMessage T_mode (PStr newMode)
  else ret tt.

(** ** services/logic.ts *)

(** { ...DEFAULT_CONFIG, ...config } *)
Definition mergeConfig (base : ThermostatConfig) (config : PartialConfig) : ThermostatConfig :=
  {| c_targetTemperature :=
       match p_targetTemperature config with Some v => v | None => c_targetTemperature base end;
     c_hysteresis :=
       match p_hysteresis config with Some v => v | None => c_hysteresis base end;
     checkIntervalMs :=
       match p_checkIntervalMs config with Some v => v | None => checkIntervalMs base end;
     maxConsecutiveErrors :=
       match p_maxConsecutiveErrors config with Some v => v | None => maxConsecutiveErrors base end |}.

(** The empty object [{}], default argument of startThermostat. *)
Definition noConfig : PartialConfig := mkPartial None None None None.

(** validateTemperatureValue(temperature) *)
Definition validateTemperatureValue (temperature : Q) : bool :=
  Qgeb temperature 5 && Qle_bool temperature 30.

(** validateHysteresisValue(hysteresis) *)
Definition validateHysteresisValue (hysteresis : Q) : bool :=
  Qltb 0 hysteresis && Qle_bool hysteresis 5.

(** resetErrorCounter() *)
Definition resetErrorCounter : M unit :=
  modify (set_state (with_consecutiveErrors 0)).

(** thermostatState.consecutiveErrors++ *)
Definition incrConsecutiveErrors : M unit :=
  modify (set_state (fun s => with_consecutiveErrors (consecutiveErrors s + 1) s)).

(** notifyCriticalError(errorMessage): every registered handler is called,
    in registration order. *)
Fixpoint callHandlers (hs : list nat) (msg : CritMsg) : M unit :=
  match hs with
  | [] => ret tt
  | h :: hs' => log (CriticalError h msg) ;; callHandlers hs' msg
  end.

Definition notifyCriticalError (msg : CritMsg) : M unit :=
  w <- get ;; callHandlers (errorHandlers w) msg.

(** onCriticalError(handler) *)
Definition onCriticalError (handler : nat) : M unit :=
  modify (fun w => set_errorHandlers (errorHandlers w ++ [handler]) w).

(** if (thermostatInterval) { clearInterval(thermostatInterval); thermostatInterval = null; } *)
Definition clearThermostatInterval : M unit :=
  w <- get ;;
  match thermostatInterval w with
  | Some _ => log TimerCleared ;; modify (set_thermostatInterval None)
  | None => ret tt
  end.

(** handleSensorError(error) *)
Definition handleSensorError (m : string) : M unit :=
  incrConsecutiveErrors ;;
  modify (set_state (with_lastError (Some (SensorMsg m)))) ;;
  w <- get ;;
  if maxConsecutiveErrors (thermostatConfig w) <=? consecutiveErrors (thermostatState w)
  then
    modify (set_state (with_isRunning false)) ;;
    clearThermostatInterval ;;
    notifyCriticalError SensorPaused
  else ret tt.

(** updateCurrentState() *)
Definition updateCurrentState : M bool :=
  e <- ask ;;
  match sensor e with
  | Reading temperature =>
      resetErrorCounter ;;
      modify (set_state (with_currentTemperature temperature)) ;;
      r <- getRelayState ;;
      modify (set_state (with_isHeating r)) ;;
      modify (set_state (with_lastUpdated (now e))) ;;
      ret true
  | SensorError m =>
      handleSensorError m ;;
      ret false
  end.

(** const minActionInterval = 30000 *)
Definition minActionInterval : Z := 30000.

(** controlHeating() *)
Definition controlHeating : M unit :=
  w <- get ;;
  if negb (isRunning (thermostatState w)) then ret tt
  else
    let targetTemperature := c_targetTemperature (thermostatConfig w) in
    let hysteresis := c_hysteresis (thermostatConfig w) in
    let currentTemperature := currentTemperature (thermostatState w) in
    let isHeating := isHeating (thermostatState w) in
    e <- ask ;;
    let now := now e in
    let lowerLimit := fsub targetTemperature hysteresis in
    let upperLimit := targetTemperature in
    if now - lastControlAction w <? minActionInterval then ret tt
    else if isHeating then
      if Qgeb currentTemperature upperLimit then
        success <- turnOffRelay ;;
        if success then
          modify (set_state (with_isHeating false)) ;;
          modify (set_lastControlAction now)
        else
          modify (set_state (with_lastError (Some TurnOffFailed)))
      else ret tt
    else
      if Qltb currentTemperature lowerLimit then
        success <- turnOnRelay ;;
        if success then
          modify (set_state (with_isHeating true)) ;;
          modify (set_lastControlAction now)
        else
          modify (set_state (with_lastError (Some TurnOnFailed)))
      else ret tt.

(** stopThermostat() *)
Definition stopThermostat : M bool :=
  w <- get ;;
  match isRunning (thermostatState w), thermostatInterval w with
  | true, Some _ =>
      log TimerCleared ;;
      modify (set_thermostatInterval None) ;;
      relayTurnedOff <-
        (if isHeating (thermostatState w)
         then r <- turnOffRelay ;;
              modify (set_state (with_isHeating false)) ;;
              ret r
         else ret true) ;;
      modify (set_state (with_isRunning false)) ;;
      publishModeUpdate "off" ;;
      ret relayTurnedOff
  | _, _ => ret true
  end.

(** The callback given to setInterval in startThermostat. *)
Definition tickBody : M unit :=
  stateUpdateSuccess <- updateCurrentState ;;
  if stateUpdateSuccess then
    resetErrorCounter ;;
    controlHeating
  else
    incrConsecutiveErrors ;;
    w <- get ;;
    if maxConsecutiveErrors (thermostatConfig w) <=? consecutiveErrors (thermostatState w)
    then
      notifyCriticalError (TooManyErrors (consecutiveErrors (thermostatState w))) ;;
      stopThermostat ;;
      ret tt
    else ret tt.

(** One period of the interval timer: the callback runs only while the
    interval is armed (a cleared interval never fires again). *)
Definition tick : M unit :=
  w <- get ;;
  match thermostatInterval w with
  | Some _ => tickBody
  | None => ret tt
  end.

(** startThermostat(config = {}) *)
Definition startThermostat (config : PartialConfig) : M bool :=
  modify (set_config (fun _ => mergeConfig DEFAULT_CONFIG config)) ;;
  w <- get ;;
  if negb (isRunning (thermostatState w)) then
    modify (set_state (with_lastError None)) ;;
    modify (set_state (with_consecutiveErrors 0)) ;;
    updateCurrentState ;;
    w1 <- get ;;
    log (TimerArmed (checkIntervalMs (thermostatConfig w1))) ;;
    modify (set_thermostatInterval (Some (checkIntervalMs (thermostatConfig w1)))) ;;
    modify (set_state (with_isRunning true)) ;;
    publishModeUpdate "heat" ;;
    ret true
  else ret true.

(** setTargetTemperature(temperature).  The rejected promise of the
    database write is caught like the range error.  The function is run in
    one piece: the suspension at [await] is not a point where another
    operation is interleaved. *)
Definition setTargetTemperature (temperature : Q) : M bool :=
  if negb (validateTemperatureValue temperature) then
    modify (set_state (with_lastError (Some (TargetOutOfRange temperature)))) ;;
    ret false
  else
    modify (set_config (with_c_targetTemperature temperature)) ;;
    modify (set_state (with_targetTemperature temperature)) ;;
    e <- ask ;;
    match dbError e with
    | Some m =>
        modify (set_state (with_lastError (Some (TargetStoreFailed m)))) ;;
        ret false
    | None =>
        log (Persisted temperature) ;;
        w <- get ;;
        (if isRunning (thermostatState w)
         then updateCurrentState ;; controlHeating
         else ret tt) ;;
        publishSetpointUpdate temperature ;;
        ret true
    end.

(** setHysteresis(hysteresis) *)
Definition setHysteresis (hysteresis : Q) : M bool :=
  if negb (validateHysteresisValue hysteresis) then
    modify (set_state (with_lastError (Some (HysteresisInvalid hysteresis)))) ;;
    ret false
  else
    modify (set_config (with_c_hysteresis hysteresis)) ;;
    ret true.

(** resetThermostat() *)
Definition resetThermostat : M bool :=
  w <- get ;;
  let wasRunning := isRunning (thermostatState w) in
  let targetTemp := c_targetTemperature (thermostatConfig w) in
  let hysteresis := c_hysteresis (thermostatConfig w) in
  stopSuccess <- stopThermostat ;;
  if negb stopSuccess then ret false
  else
    resetErrorCounter ;;
    modify (set_state (with_lastError None)) ;;
    if wasRunning
    then startThermostat (mkPartial (Some targetTemp) (Some hysteresis) None None)
    else ret true.

(** The asynchronous block at the end of logic.ts: once
    getTargetTemperatureAndHysteresis() has answered (with the stored values
    or the defaults), they are copied into the state. *)
Definition loadStoredConfig (storedTarget storedHysteresis : Q) : M unit :=
  modify (set_state (with_targetTemperature storedTarget)) ;;
  modify (set_state (with_hysteresis storedHysteresis)).

(** ** Initial values of the module-level variables

    [t0] is the clock reading when the modules are loaded
    ([lastControlAction = Date.now()], [lastUpdated = new Date()]). *)
Definition initialThermostatState (t0 : Z) : ThermostatState :=
  {| currentTemperature := 0;
     targetTemperature := c_targetTemperature DEFAULT_CONFIG;
     hysteresis := c_hysteresis DEFAULT_CONFIG;
     isHeating := false;
     lastUpdated := t0;
     isRunning := false;
     lastError := None;
     consecutiveErrors := 0 |}.

Definition initialServiceState : MqttServiceState :=
  {| isConnected := false;
     isEnabled := false;
     lastPublishTime := None;
     mqtt_lastError := None;
     reconnectAttempts := 0;
     maxReconnectAttempts := 10 |}.

Definition initialWorld (t0 : Z) : World :=
  {| thermostatState := initialThermostatState t0;
     thermostatConfig := DEFAULT_CONFIG;
     thermostatInterval := None;
     lastControlAction := t0;
     errorHandlers := [];
     relayState := false;
     serviceState := initialServiceState;
     mqttClient := false;
     publishInterval := false;
     trace := [] |}.

(** ** services/mqtt.ts: commands and connection *)

(** A parsed JSON text (no induction principle is needed: the handlers
    only inspect the top level). *)
#[local] Unset Elimination Schemes.
Inductive Json : Type :=
| JNull
| JBool (b : bool)
| JNum (q : Q)
| JStr (s : string)
| JArr (items : list Json)
| JObj (fields : list (string * Json)).
#[local] Set Elimination Schemes.

(** payload[field] on the fields of an object. *)
Fixpoint lookupField (field : string) (fields : list (string * Json)) : option Json :=
  match fields with
  | [] => None
  | (k, v) :: rest => if String.eqb k field then Some v else lookupField field rest
  end.

(** [field in payload]: [None] stands for the TypeError thrown on a
    primitive.  An array owns "length" (its index keys are not modelled: no
    caller asks for one). *)
Definition inOperator (field : string) (payload : Json) : option bool :=
  match payload with
  | JObj fields =>
      Some (match lookupField field fields with Some _ => true | None => false end)
  | JArr _ => Some (String.eqb field "length")
  | _ => None
  end.

(** The loop over [expectedFields] in parseJsonPayload. *)
Fixpoint checkFields (expectedFields : list string) (payload : Json) : bool :=
  match expectedFields with
  | [] => true
  | field :: rest =>
      match inOperator field payload with
      | Some true => checkFields rest payload
      | _ => false
      end
  end.

(** parseJsonPayload(message, expectedFields).  [message] is the outcome of
    [JSON.parse(message.toString())]: [None] when it throws. *)
Definition parseJsonPayload (message : option Json) (expectedFields : list string) : option Json :=
  match message with
  | None => None
  | Some payload => if checkFields expectedFields payload then Some payload else None
  end.

(** const { value } = payload *)
Definition valueOf (payload : Json) : option Json :=
  match payload with
  | JObj fields => lookupField "value" fields
  | _ => None
  end.

(** handleSetpointCommand(message) *)
Definition handleSetpointCommand (message : option Json) : M unit :=
  match parseJsonPayload message ["value"%string] with
  | None => ret tt
  | Some payload =>
      match valueOf payload with
      | Some (JNum value) =>
          success <- setTargetTemperature value ;;
          if success then publishMessage T_setpoint (PNum value) else ret tt
      | _ => ret tt
      end
  end.

(** handleRelayCommand(message) *)
Definition handleRelayCommand (message : option Json) : M unit :=
  match parseJsonPayload message ["value"%string] with
  | None => ret tt
  | Some payload =>
      match valueOf payload with
      | Some (JBool value) =>
          (if value then turnOnRelay else turnOffRelay) ;;
          publishMessage T_relay (PBool value)
      | _ => ret tt
      end
  end.

(** handleModeCommand(message) *)
Definition handleModeCommand (message : option Json) : M unit :=
  match parseJsonPayload message ["value"%string] with
  | None => ret tt
  | Some payload =>
      match valueOf payload with
      | Some (JStr value) =>
          if negb (isMode value) then ret tt
          else
            (if String.eqb value "heat" then startThermostat noConfig ;; ret tt
             else if String.eqb value "off" then stopThermostat ;; ret tt
             else ret tt) ;;
            publishMessage T_mode (PStr value)
      | _ => ret tt
      end
  end.

(** The 'message' listener installed by setupSubscriptions: one call of
    the listener.  setupSubscriptions() runs at every 'connect' event and
    registers the listener once more each time, so that after several
    connections a message calls it as many times, one call after the
    other. *)
Definition onMessage (topic : Topic) (message : option Json) : M unit :=
  match topic with
  | T_setpointSet => handleSetpointCommand message
  | T_relaySet => handleRelayCommand message
  | T_modeSet => handleModeCommand message
  | _ => ret tt
  end.

(** setupSubscriptions(): the three subscriptions; the 'message' listener
    it installs is [onMessage], the callback of each subscription is
    [onCompletion]. *)
Definition setupSubscriptions : M unit :=
  w <- get ;;
  if negb (mqttClient w) then ret tt
  else
    log (Subscribed T_setpointSet) ;;
    log (Subscribed T_relaySet) ;;
    log (Subscribed T_modeSet).

(** stopMqtt() *)
Definition stopMqtt : M unit :=
  modify (set_service (with_isEnabled false)) ;;
  w <- get ;;
  (if publishInterval w
   then log PublishTimerCleared ;; modify (set_publishInterval false)
   else ret tt) ;;
  (if mqttClient w
   then
     (if isConnected (serviceState w)
      then publishMessage T_online (PBool false)
      else ret tt) ;;
     log ClientEnded ;;
     modify (set_mqttClient false)
   else ret tt) ;;
  modify (set_service (with_isConnected false)) ;;
  modify (set_service (with_lastPublishTime None)) ;;
  modify (set_service (with_reconnectAttempts 0)).

(** The events of the MQTT client. *)
Inductive ClientEvent : Type :=
| EvConnect
| EvDisconnect
| EvError (m : string)
| EvReconnect
| EvClose.

(** mqttClient.on('connect', ...) *)
Definition onConnect : M unit :=
  modify (set_service (with_isConnected true)) ;;
  modify (set_service (with_reconnectAttempts 0)) ;;
  modify (set_service (with_mqtt_lastError None)) ;;
  publishMessage T_online (PBool true) ;;
  setupSubscriptions ;;
  publishThermostatStatus ;;
  w <- get ;;
  (if publishInterval w then log PublishTimerCleared else ret tt) ;;
  log PublishTimerArmed ;;
  modify (set_publishInterval true).

(** mqttClient.on('reconnect', ...) *)
Definition onReconnect : M unit :=
  modify (set_service (fun s => with_reconnectAttempts (reconnectAttempts s + 1) s)) ;;
  w <- get ;;
  if maxReconnectAttempts (serviceState w) <=? reconnectAttempts (serviceState w)
  then stopMqtt
  else ret tt.

(** The listeners registered by initializeMqtt. *)
Definition handleClientEvent (ev : ClientEvent) : M unit :=
  match ev with
  | EvConnect => onConnect
  | EvDisconnect => modify (set_service (with_isConnected false))
  | EvError m =>
      modify (set_service (with_mqtt_lastError (Some m))) ;;
      modify (set_service (with_isConnected false))
  | EvReconnect => onReconnect
  | EvClose => modify (set_service (with_isConnected false))
  end.

(** Delivery of an event of an MQTT client.  The listeners are closures
    over the variables of the module, not over the client that calls them,
    and none of them looks at [mqttClient]: they run for an event of any
    client on which initializeMqtt() has registered them, be it the current
    one, one that stopMqtt() has ended or one that a later initializeMqtt()
    has replaced.  Which events the clients emit, and when, is decided by
    the MQTT library and the broker, not by the module. *)
Definition clientEvent (ev : ClientEvent) : M unit :=
  handleClientEvent ev.

(** The completion callback handed to mqttClient.publish and to
    mqttClient.subscribe, called by the client in a later turn of the event
    loop with the error of the operation, if any. *)
Definition onCompletion (error : option string) : M unit :=
  match error with
  | Some m => modify (set_service (with_mqtt_lastError (Some m)))
  | None => ret tt
  end.

(** The periodic publication: the callback of [publishInterval] runs only
    while that interval is armed. *)
Definition publishTick : M unit :=
  w <- get ;;
  if publishInterval w then publishThermostatStatus else ret tt.

(** initializeMqtt(): the topics and periods are the defaults (a custom
    configuration only changes names and periods).  mqtt.connect returns a
    new client, on which the listeners are registered and which is assigned
    to [mqttClient]; the client that the variable held before, if any, is
    not ended: it goes on with its listeners (see [clientEvent]).  When
    mqtt.connect throws, the variable keeps its value. *)
Definition initializeMqtt : M unit :=
  e <- ask ;;
  match connectError e with
  | None =>
      log ClientConnecting ;;
      modify (set_mqttClient true) ;;
      modify (set_service (with_isEnabled true))
  | Some m =>
      let errorMsg := ("Error al inicializar cliente MQTT: " ++ m)%string in
      modify (set_service (with_mqtt_lastError (Some errorMsg))) ;;
      modify (set_service (with_isEnabled false))
  end.

(** restartMqtt(): the service is stopped and a timeout of 2 s is armed. *)
Definition restartMqtt : M unit :=
  stopMqtt ;;
  log (TimeoutArmed 2000).

(** The callback of that timeout. *)
Definition restartTimeout : M unit :=
  initializeMqtt.

(** ** Runs and observations *)

(** The events that running [m] adds to the trace, most recent first. *)
Definition emitted {A} (m : M A) (e : Env) (w : World) : list (Z * Event) :=
  let w' := exec m e w in
  firstn (List.length (trace w') - List.length (trace w)) (trace w').

(** A sequence of periods of the interval timer, each with what the
    environment answers during that period. *)
Fixpoint runTicks (envs : list Env) (w : World) : World :=
  match envs with
  | [] => w
  | e :: rest => runTicks rest (exec tick e w)
  end.

(** The clock readings of the successful relay writes of a trace (the
    writes that reached the relay), most recent first. *)
Fixpoint toggleTimes (tr : list (Z * Event)) : list Z :=
  match tr with
  | [] => []
  | (t, RelayWrite _ true) :: rest => t :: toggleTimes rest
  | _ :: rest => toggleTimes rest
  end.


(** The public operations of the control loop and of the bridge, the timer
    callbacks and the listeners and callbacks called by the MQTT client, as
    one step function.  (The callback of the timeout of restartMqtt() is
    initializeMqtt() itself.) *)
Inductive Op : Type :=
| OpLoadStoredConfig (storedTarget storedHysteresis : Q)
| OpOnCriticalError (handler : nat)
| OpStart (config : PartialConfig)
| OpStop
| OpSetTarget (temperature : Q)
| OpSetHysteresis (h : Q)
| OpReset
| OpTick
| OpInitializeMqtt
| OpStopMqtt
| OpClientEvent (ev : ClientEvent)
| OpPublishTick
| OpMessage (topic : Topic) (message : option Json)
| OpRestartMqtt
| OpCompletion (error : option string).

Definition step (op : Op) : M unit :=
  match op with
  | OpLoadStoredConfig t h => loadStoredConfig t h
  | OpOnCriticalError h => onCriticalError h
  | OpStart config => startThermostat config ;; ret tt
  | OpStop => stopThermostat ;; ret tt
  | OpSetTarget t => setTargetTemperature t ;; ret tt
  | OpSetHysteresis h => setHysteresis h ;; ret tt
  | OpReset => resetThermostat ;; ret tt
  | OpTick => tick
  | OpInitializeMqtt => initializeMqtt
  | OpStopMqtt => stopMqtt
  | OpClientEvent ev => clientEvent ev
  | OpPublishTick => publishTick
  | OpMessage topic message => onMessage topic message
  | OpRestartMqtt => restartMqtt
  | OpCompletion error => onCompletion error
  end.

Fixpoint run (ops : list (Op * Env)) (w : World) : World :=
  match ops with
  | [] => w
  | (op, e) :: rest => run rest (exec (step op) e w)
  end.

(** The states the program can be in: those a sequence of operations
    reaches from the initial values of the variables. *)
Definition reachable (w : World) : Prop :=
  exists t0 ops, w = run ops (initialWorld t0).


(** ** Auxiliary notions *)

(** The events of one call of notifyCriticalError at clock [t], most
    recent first. *)
Definition handlerEvents (hs : list nat) (msg : CritMsg) (t : Z) : list (Z * Event) :=
  rev (map (fun h => (t, CriticalError h msg)) hs).




(** C3 as stated: stopThermostat() cancels the timer, always writes "off"
    to the relay, and leaves the loop stopped, not heating, relay off. *)
Definition stopAlwaysWritesOff (e : Env) (w : World) : Prop :=
  let w' := exec stopThermostat e w in
  thermostatInterval w' = None /\
  (exists ok, In (now e, RelayWrite false ok) (emitted stopThermostat e w)) /\
  isHeating (thermostatState w') = false /\
  isRunning (thermostatState w') = false /\
  relayState w' = false.

(** C7 as stated: on a running loop startThermostat(config) returns true
    and changes nothing. *)
Definition startIsNoOp (config : PartialConfig) (e : Env) (w : World) : Prop :=
  eval (startThermostat config) e w = true /\
  exec (startThermostat config) e w = w.

(** The variables right after setTargetTemperature(v) has assigned the
    target and the database write has succeeded. *)
Definition targetStored (v : Q) (e : Env) (w : World) : World :=
  set_trace ((now e, Persisted v) :: trace w)
    (set_state (with_targetTemperature v)
       (set_config (with_c_targetTemperature v) w)).

(** Whether the interval timer of the loop is armed. *)
Definition armed (w : World) : bool :=
  match thermostatInterval w with Some _ => true | None => false end.

(** [isRunning] holds exactly while the timer is armed. *)
Definition runningIffArmed (w : World) : Prop :=
  isRunning (thermostatState w) = armed w.

(** ** Scenarios *)

(** A period in which the sensor reads [t] at clock [n] and the hardware
    and the database answer. *)
Definition envReading (t : Q) (n : Z) : Env :=
  mkEnv (Reading t) true n None None.

(** A period in which the sensor cannot be read. *)
Definition envSensorDown (n : Z) : Env :=
  mkEnv (SensorError "Sensor DS18B20 no encontrado") true n None None.

(** The loop started with the default configuration at 19 degrees, one
    handler registered: running, relay off. *)
Definition idleWorld : World :=
  exec (startThermostat noConfig) (envReading 19 1000)
       (exec (onCriticalError 1%nat) (envReading 19 0) (initialWorld 0)).

(** ... after a first tick at 19 degrees, 31 s after loading: 19 < 20.5,
    the relay is switched on. *)
Definition heatingWorld : World :=
  exec tick (envReading 19 31000) idleWorld.

(** ... after three more ticks during which the sensor cannot be read. *)
Definition threeFailedReads : list Env :=
  [envSensorDown 34000; envSensorDown 37000; envSensorDown 40000].

Definition faultedWorld : World :=
  runTicks threeFailedReads heatingWorld.




(** The operations that lead from the initial values to [faultedWorld]. *)
Definition faultOps : list (Op * Env) :=
  [ (OpOnCriticalError 1%nat, envReading 19 0);
    (OpStart noConfig, envReading 19 1000);
    (OpTick, envReading 19 31000);
    (OpTick, envSensorDown 34000);
    (OpTick, envSensorDown 37000);
    (OpTick, envSensorDown 40000) ].

(** [idleWorld] after the setpoint was raised to 25 degrees. *)
Definition retargetedWorld : World :=
  exec (setTargetTemperature 25) (envReading 21 2000) idleWorld.

(** [idleWorld] with the bridge initialised and connected. *)
Definition connectedWorld : World :=
  exec (clientEvent EvConnect) (envReading 19 1500)
       (exec initializeMqtt (envReading 19 1200) idleWorld).


(** A relay command [{"value": true}]. *)
Definition relayOnMessage : option Json :=
  Some (JObj [("value"%string, JBool true)]).

(** ** Further functions of the sources *)

(** hardware/relay.ts: toggleRelay() *)
Definition toggleRelay : M bool :=
  w <- get ;;
  if relayState w then turnOffRelay else turnOnRelay.

(** services/logic.ts: getHysteresis() *)
Definition getHysteresis : M Q :=
  w <- get ;; ret (c_hysteresis (thermostatConfig w)).

(** services/logic.ts: getThermostatState(), a copy of the state. *)
Definition getThermostatState : M ThermostatState :=
  w <- get ;; ret (thermostatState w).

(** services/mqtt.ts: isMqttHealthy() *)
Definition isMqttHealthy : M bool :=
  w <- get ;;
  ret (isEnabled (serviceState w) && isConnected (serviceState w)
       && match mqtt_lastError (serviceState w) with None => true | Some _ => false end).

(** JavaScript truthiness of a number (NaN apart): everything but 0. *)
Definition truthy (x : Q) : bool := negb (Qeq_bool x 0).

(** The document [{ key: "targetTemperature" }] of the settings
    collection: [value] is required, [hysteresis] optional. *)
Record Setting : Type := mkSetting {
  setting_value : Q;
  setting_hysteresis : option Q
}.

(** Outcome of SettingModel.findOne(...).lean(): the query may reject, find
    no document, or find one. *)
Inductive FindResult : Type :=
| FindFails
| NotFound
| Found (record : Setting).

(** services/logic.ts: getTargetTemperatureAndHysteresis(), against the
    outcome of the query:
    [dbRecord?.value || DEFAULT_CONFIG.targetTemperature] and
    [dbRecord?.hysteresis || DEFAULT_CONFIG.hysteresis]. *)
Definition getTargetTemperatureAndHysteresis (found : FindResult) : Q * Q :=
  match found with
  | FindFails => (c_targetTemperature DEFAULT_CONFIG, c_hysteresis DEFAULT_CONFIG)
  | NotFound => (c_targetTemperature DEFAULT_CONFIG, c_hysteresis DEFAULT_CONFIG)
  | Found dbRecord =>
      (if truthy (setting_value dbRecord)
       then setting_value dbRecord else c_targetTemperature DEFAULT_CONFIG,
       match setting_hysteresis dbRecord with
       | Some h => if truthy h then h else c_hysteresis DEFAULT_CONFIG
       | None => c_hysteresis DEFAULT_CONFIG
       end)
  end.

(** services/logic.ts: getTargetTemperature(), against the outcome of the
    query: the stored value when there is a truthy one, the configured
    target otherwise. *)
Definition getTargetTemperature (found : FindResult) : M Q :=
  w <- get ;;
  match found with
  | Found dbRecord =>
      if truthy (setting_value dbRecord)
      then ret (setting_value dbRecord)
      else ret (c_targetTemperature (thermostatConfig w))
  | _ => ret (c_targetTemperature (thermostatConfig w))
  end.

(** The block at the end of logic.ts, with the query it makes. *)
Definition loadInitialConfig (found : FindResult) : M unit :=
  let config := getTargetTemperatureAndHysteresis found in
  loadStoredConfig (fst config) (snd config).

(** frontend/src/api/validation.ts: the validators of the forms return an
    error message or null.  The messages are kept as constructors; the
    tests of the type and of NaN have no counterpart on [Q]. *)
Inductive FormError : Type :=
| TemperatureOutOfRange   (* "La temperatura debe estar entre 5°C y 30°C" *)
| HysteresisOutOfRange.   (* "La histéresis debe estar entre 0.1 y 5" *)

(** validateTemperatureValue(temp) of the front end *)
Definition formValidateTemperatureValue (temp : Q) : option FormError :=
  if Qltb temp 5 || Qltb 30 temp then Some TemperatureOutOfRange else None.

(** validateHysteresisValue(h) of the front end *)
Definition formValidateHysteresisValue (h : Q) : option FormError :=
  if Qltb h (1 # 10) || Qltb 5 h then Some HysteresisOutOfRange else None.

(** The relay writes of a trace, failed ones included. *)
Fixpoint relayWrites (tr : list (Z * Event)) : list (Z * Event) :=
  match tr with
  | [] => []
  | (t, RelayWrite on ok) :: rest => (t, RelayWrite on ok) :: relayWrites rest
  | _ :: rest => relayWrites rest
  end.

(** The heating loop after a setpoint change and a tick during both of
    which the sensor could not be read: the error counter is 3. *)
Definition threeErrorsWorld : World :=
  exec tick (envSensorDown 37000)
       (exec (setTargetTemperature 22) (envSensorDown 34000) heatingWorld).

(** The clients that mqtt.connect has created and that were not ended,
    counted on the trace: each of them goes on with its connection
    attempts. *)
Fixpoint liveClients (tr : list (Z * Event)) : Z :=
  match tr with
  | [] => 0
  | (_, ClientConnecting) :: rest => liveClients rest + 1
  | (_, ClientEnded) :: rest => liveClients rest - 1
  | _ :: rest => liveClients rest
  end.

(** The variables of the bridge and its clients are the same in two
    states. *)
Definition sameBridge (w w' : World) : Prop :=
  serviceState w' = serviceState w /\
  mqttClient w' = mqttClient w /\
  publishInterval w' = publishInterval w /\
  liveClients (trace w') = liveClients (trace w).

(** What the bridge keeps: the limit of 10 attempts, a counter below it,
    and a client whenever it is enabled. *)
Definition bridgeInv (w : World) : Prop :=
  maxReconnectAttempts (serviceState w) = 10 /\
  0 <= reconnectAttempts (serviceState w) < 10 /\
  (isEnabled (serviceState w) = true -> mqttClient w = true).






(** initializeMqtt() is called twice, so that the first client is
    replaced without being ended; stopMqtt() ends the second one; the first
    one then connects to the broker. *)
Definition replacedClientOps : list (Op * Env) :=
  [ (OpInitializeMqtt, envReading 19 100);
    (OpInitializeMqtt, envReading 19 200);
    (OpStopMqtt, envReading 19 300);
    (OpClientEvent EvConnect, envReading 19 400) ].

(** The bridge is initialised, connects, loses the connection and makes
    ten reconnection attempts, while the loop is started. *)
Definition bridgeOps : list (Op * Env) :=
  [ (OpInitializeMqtt, envReading 19 100);
    (OpClientEvent EvConnect, envReading 19 200);
    (OpStart noConfig, envReading 19 1000);
    (OpPublishTick, envReading 19 10200);
    (OpClientEvent EvClose, envReading 19 11000) ]
  ++ repeat (OpClientEvent EvReconnect, envReading 19 16000) 10.

(** ** hardware/sensor.ts *)

(** A call into the file system: a value, or a thrown Error with its
    message. *)
Inductive FsResult (A : Type) : Type :=
| FsOk (a : A)
| FsThrows (m : string).
Arguments FsOk {A} a.
Arguments FsThrows {A} m.

(** What the file system answers to the sensor module. *)
Record SensorFs : Type := mkSensorFs {
  existsW1 : bool;                          (* existsSync(W1_PATH) *)
  readdirW1 : FsResult (list string);       (* readdirSync(W1_PATH) *)
  readFile : string -> FsResult string      (* readFileSync(path, 'utf-8') *)
}.

Definition W1_PATH : string := "/sys/bus/w1/devices".
Definition SENSOR_PREFIX : string := "28-".

(** join(W1_PATH, sensorFolder, 'w1_slave'), for a plain directory name. *)
Definition joinPath (dir folder file : string) : string :=
  (dir ++ "/" ++ folder ++ "/" ++ file)%string.

(** getSensorPath() *)
Definition getSensorPath (fs : SensorFs) : FsResult string :=
  if negb (existsW1 fs) then FsThrows "1-Wire no disponible"
  else
    match readdirW1 fs with
    | FsThrows m => FsThrows m
    | FsOk devices =>
        match find (fun name => String.prefix SENSOR_PREFIX name) devices with
        | None => FsThrows "Sensor DS18B20 no encontrado"
        | Some sensorFolder => FsOk (joinPath W1_PATH sensorFolder "w1_slave")
        end
    end.

(** The class [\d]. *)
Definition isDigit (c : ascii) : bool :=
  (48 <=? nat_of_ascii c)%nat && (nat_of_ascii c <=? 57)%nat.

(** The longest run of digits at the start of a text: what [\d+] takes. *)
Fixpoint takeDigits (s : string) : string :=
  match s with
  | EmptyString => EmptyString
  | String c rest => if isDigit c then String c (takeDigits rest) else EmptyString
  end.

(** [/t=(\d+)/] tried at the start of a text: the first group. *)
Definition matchHere (s : string) : option string :=
  match s with
  | String c1 (String c2 rest) =>
      if Ascii.eqb c1 "t" && Ascii.eqb c2 "=" then
        match takeDigits rest with
        | EmptyString => None
        | digits => Some digits
        end
      else None
  | _ => None
  end.

(** data.match(/t=(\d+)/): the first group of the leftmost match. *)
Fixpoint matchTemperature (data : string) : option string :=
  match data with
  | EmptyString => None
  | String c rest =>
      match matchHere data with
      | Some digits => Some digits
      | None => matchTemperature rest
      end
  end.

(** The integer that a run of digits writes in base 10. *)
Fixpoint parseDigits (acc : Z) (digits : string) : Z :=
  match digits with
  | EmptyString => acc
  | String c rest => parseDigits (10 * acc + Z.of_nat (nat_of_ascii c - 48)) rest
  end.

(** parseInt(digits, 10) on a run of digits: the double nearest to that
    integer. *)
Definition parseInt (digits : string) : Q := double (inject_Z (parseDigits 0 digits)).

(** getTemperature() *)
Definition getTemperature (fs : SensorFs) : SensorResult :=
  match getSensorPath fs with
  | FsThrows m => SensorError m
  | FsOk sensorPath =>
      match readFile fs sensorPath with
      | FsThrows m => SensorError m
      | FsOk data =>
          match matchTemperature data with
          | Some digits => Reading (fdiv (parseInt digits) 1000)
          | None => SensorError "Formato de datos del sensor inválido"
          end
      end
  end.

(** A text without the letter t. *)
Fixpoint withoutT (s : string) : bool :=
  match s with
  | EmptyString => true
  | String c rest => negb (Ascii.eqb c "t") && withoutT rest
  end.

(** A text made of digits only. *)
Fixpoint allDigits (s : string) : bool :=
  match s with
  | EmptyString => true
  | String c rest => isDigit c && allDigits rest
  end.

(** A text that does not start with a digit. *)
Definition noLeadingDigit (s : string) : bool :=
  match s with
  | EmptyString => true
  | String c _ => negb (isDigit c)
  end.

(** A file system with one DS18B20 whose file holds [data]. *)
Definition oneSensorFs (data : string) : SensorFs :=
  {| existsW1 := true;
     readdirW1 := FsOk ["w1_bus_master1"; "28-0316a2795bff"]%string;
     readFile := fun path =>
       if String.eqb path "/sys/bus/w1/devices/28-0316a2795bff/w1_slave"
       then FsOk data else FsThrows "ENOENT" |}.

(** What precedes the temperature in the two lines of a w1_slave file. *)
Definition w1Prefix : string :=
  ("72 01 4b 46 7f ff 0e 10 57 : crc=57 YES"
   ++ String (ascii_of_nat 10) "72 01 4b 46 7f ff 0e 10 57 ")%string.

(** * Properties *)

(** ** Comparisons *)

Lemma Qltb_lt (x y : Q) : Qltb x y = true <-> (x < y)%Q.
Proof.
  unfold Qltb. rewrite negb_true_iff. split; intro H.
  - apply Qnot_le_lt. intro L. apply Qle_bool_iff in L. congruence.
  - destruct (Qle_bool y x) eqn:E; trivial.
    apply Qle_bool_iff in E. apply Qle_not_lt in E. contradiction.
Qed.

Lemma Qltb_ge (x y : Q) : Qltb x y = false <-> (y <= x)%Q.
Proof.
  unfold Qltb. rewrite negb_false_iff. apply Qle_bool_iff.
Qed.

Lemma Qgeb_ge (x y : Q) : Qgeb x y = true <-> (y <= x)%Q.
Proof. unfold Qgeb. apply Qle_bool_iff. Qed.

Lemma Qgeb_lt (x y : Q) : Qgeb x y = false <-> (x < y)%Q.
Proof.
  unfold Qgeb. split; intro H.
  - apply Qnot_le_lt. intro L. apply Qle_bool_iff in L. congruence.
  - destruct (Qle_bool y x) eqn:E; trivial.
    apply Qle_bool_iff in E. apply Qle_not_lt in E. contradiction.
Qed.

Lemma validateTemperatureValue_spec (t : Q) :
  validateTemperatureValue t = true <-> (5 <= t /\ t <= 30)%Q.
Proof.
  unfold validateTemperatureValue. rewrite andb_true_iff, Qgeb_ge, Qle_bool_iff.
  tauto.
Qed.

(** ** Rounding to a double *)

Lemma roundHalfEven_le (n d k : Z) : 0 < d -> n <= k * d -> roundHalfEven n d <= k.
Proof.
  intros D H. unfold roundHalfEven. cbv zeta.
  pose proof (Z.div_mod n d ltac:(lia)) as E.
  pose proof (Z.mod_pos_bound n d D) as B.
  destruct (2 * (n mod d) ?= d) eqn:C;
    [ apply Z.compare_eq in C | rewrite Z.compare_lt_iff in C | rewrite Z.compare_gt_iff in C ];
    try destruct (Z.even (n / d)); nia.
Qed.

Lemma roundHalfEven_ge (n d k : Z) : 0 < d -> k * d <= n -> k <= roundHalfEven n d.
Proof.
  intros D H. unfold roundHalfEven. cbv zeta.
  pose proof (Z.div_mod n d ltac:(lia)) as E.
  pose proof (Z.mod_pos_bound n d D) as B.
  destruct (2 * (n mod d) ?= d) eqn:C;
    try destruct (Z.even (n / d)); nia.
Qed.

Lemma roundQ_le (y : Q) (k : Z) : (y <= inject_Z k)%Q -> roundQ y <= k.
Proof.
  intro H. apply roundHalfEven_le; [ reflexivity | ].
  unfold Qle in H. cbn in H. lia.
Qed.

Lemma roundQ_ge (y : Q) (k : Z) : (inject_Z k <= y)%Q -> k <= roundQ y.
Proof.
  intro H. apply roundHalfEven_ge; [ reflexivity | ].
  unfold Qle in H. cbn in H. lia.
Qed.

Lemma pow2_pos (e : Z) : (0 < 2 ^ e)%Q.
Proof. apply Qpower_0_lt. reflexivity. Qed.

Lemma two_neq_0 : ~ (2 == 0)%Q.
Proof. discriminate. Qed.

Lemma Qabs_num_den (x : Q) :
  (Qabs x * inject_Z (Zpos (Qden x)) == inject_Z (Z.abs (Qnum x)))%Q.
Proof.
  destruct x as [n d]. unfold Qabs, Qeq, Qmult, inject_Z. cbn. lia.
Qed.

Lemma Qmult_le_nonneg_l (a b c : Q) : (0 <= a -> b <= c -> a * b <= a * c)%Q.
Proof.
  intros A H. rewrite (Qmult_comm a b), (Qmult_comm a c).
  apply Qmult_le_compat_r; assumption.
Qed.

Lemma binade_spec (x : Q) :
  Qnum x <> 0 ->
  (2 ^ binade x <= Qabs x /\ Qabs x < 2 ^ (binade x + 1))%Q.
Proof.
  intro N. unfold binade.
  set (n := Z.abs (Qnum x)). set (d := Zpos (Qden x)).
  assert (Hn : 0 < n) by (unfold n; lia).
  assert (Hd : 0 < d) by reflexivity.
  destruct (Z.log2_spec n Hn) as [Ln Un].
  destruct (Z.log2_spec d Hd) as [Ld Ud].
  pose proof (Z.log2_nonneg n) as Pn. pose proof (Z.log2_nonneg d) as Pd.
  set (ln := Z.log2 n) in *. set (ld := Z.log2 d) in *.
  pose proof (Qabs_num_den x) as E. fold n d in E.
  assert (Qd : (0 < inject_Z d)%Q) by reflexivity.
  (* bounds in Q *)
  assert (Ln' : (2 ^ ln <= inject_Z n)%Q).
  { rewrite <- (Zpower_Qpower 2 ln Pn). rewrite <- Zle_Qle. exact Ln. }
  assert (Un' : (inject_Z n < 2 ^ (ln + 1))%Q).
  { rewrite <- (Zpower_Qpower 2 (ln + 1)) by lia. rewrite <- Zlt_Qlt.
    unfold Z.succ in Un. exact Un. }
  assert (Ld' : (2 ^ ld <= inject_Z d)%Q).
  { rewrite <- (Zpower_Qpower 2 ld Pd). rewrite <- Zle_Qle. exact Ld. }
  assert (Ud' : (inject_Z d < 2 ^ (ld + 1))%Q).
  { rewrite <- (Zpower_Qpower 2 (ld + 1)) by lia. rewrite <- Zlt_Qlt.
    unfold Z.succ in Ud. exact Ud. }
  assert (A : (0 <= Qabs x)%Q) by apply Qabs_nonneg.
  (* 2^(k-1) < |x| < 2^(k+1) *)
  assert (Lo : (2 ^ (ln - ld - 1) <= Qabs x)%Q).
  { apply Qmult_le_r with (z := (2 ^ (ld + 1))%Q); [ apply pow2_pos | ].
    rewrite <- Qpower_plus by apply two_neq_0.
    replace (ln - ld - 1 + (ld + 1)) with ln by lia.
    apply Qle_trans with (inject_Z n); [ exact Ln' | ].
    rewrite <- E. apply Qmult_le_nonneg_l; [ exact A | apply Qlt_le_weak, Ud' ]. }
  assert (Hi : (Qabs x < 2 ^ (ln - ld + 1))%Q).
  { apply Qmult_lt_r with (z := (2 ^ ld)%Q); [ apply pow2_pos | ].
    rewrite <- Qpower_plus by apply two_neq_0.
    replace (ln - ld + 1 + ld) with (ln + 1) by lia.
    apply Qle_lt_trans with (inject_Z n); [ | exact Un' ].
    rewrite <- E. apply Qmult_le_nonneg_l; [ exact A | exact Ld' ]. }
  destruct (Qle_bool (2 ^ (ln - ld)) (Qabs x)) eqn:T.
  - apply Qle_bool_iff in T. split; assumption.
  - split; [ exact Lo | ].
    replace (ln - ld - 1 + 1) with (ln - ld) by lia.
    apply Qnot_le_lt. intro L. apply Qle_bool_iff in L. congruence.
Qed.

Lemma double_eq (x : Q) :
  Qnum x <> 0 ->
  (double x == inject_Z (roundQ (x / 2 ^ ulp x)) * 2 ^ ulp x)%Q.
Proof.
  intro N. unfold double. apply Z.eqb_neq in N. rewrite N. apply Qred_correct.
Qed.

Lemma Qnum_0 (x : Q) : Qnum x = 0 -> (x == 0)%Q.
Proof. intro H. unfold Qeq. rewrite H. reflexivity. Qed.

Lemma double_le_grid (x : Q) (k : Z) :
  Qnum x <> 0 ->
  (x <= inject_Z k * 2 ^ ulp x)%Q ->
  (double x <= inject_Z k * 2 ^ ulp x)%Q.
Proof.
  intros N H. rewrite (double_eq x N).
  apply Qmult_le_compat_r; [ | apply Qlt_le_weak, pow2_pos ].
  rewrite <- Zle_Qle. apply roundQ_le.
  apply Qle_shift_div_r; [ apply pow2_pos | exact H ].
Qed.

Lemma double_on_grid (t : Q) (e : Z) :
  isDouble t -> Qnum t <> 0 -> e <= ulp t ->
  exists k, (t == inject_Z k * 2 ^ e)%Q.
Proof.
  intros D N L. exists (roundQ (t / 2 ^ ulp t) * 2 ^ (ulp t - e)).
  unfold isDouble in D. rewrite <- D at 1. rewrite (double_eq t N).
  rewrite inject_Z_mult, (Zpower_Qpower 2 (ulp t - e)) by lia.
  rewrite <- Qmult_assoc, <- Qpower_plus by apply two_neq_0.
  replace (ulp t - e + e) with (ulp t) by lia. reflexivity.
Qed.

Lemma binade_le (x t : Q) :
  Qnum x <> 0 -> Qnum t <> 0 -> (Qabs x <= Qabs t)%Q -> binade x <= binade t.
Proof.
  intros Nx Nt H.
  destruct (binade_spec x Nx) as [Lx _]. destruct (binade_spec t Nt) as [_ Ut].
  assert (P : (2 ^ binade x < 2 ^ (binade t + 1))%Q).
  { eapply Qle_lt_trans; [ exact Lx | ]. eapply Qle_lt_trans; [ exact H | exact Ut ]. }
  apply Qpower_lt_compat_l_inv in P; [ lia | reflexivity ].
Qed.

(** Rounding does not cross a double: what is at most a double is rounded
    to at most that double. *)
Lemma double_le (x t : Q) : isDouble t -> (x <= t)%Q -> (double x <= t)%Q.
Proof.
  intros D H.
  destruct (Z.eq_dec (Qnum x) 0) as [Zx | Nx].
  { unfold double. rewrite Zx. cbn [Z.eqb]. rewrite <- (Qnum_0 x Zx). exact H. }
  destruct (Z.eq_dec (Qnum t) 0) as [Zt | Nt].
  { assert (T : (t == inject_Z 0 * 2 ^ ulp x)%Q).
    { rewrite (Qnum_0 t Zt). rewrite Qmult_0_l. reflexivity. }
    rewrite T. apply double_le_grid; [ exact Nx | rewrite <- T; exact H ]. }
  destruct (Z_le_gt_dec (ulp x) (ulp t)) as [L | G].
  { destruct (double_on_grid t (ulp x) D Nt L) as [k K].
    rewrite K. apply double_le_grid; [ exact Nx | rewrite <- K; exact H ]. }
  assert (B : binade t + 1 <= binade x /\ ulp x = binade x - 52)
    by (unfold ulp in *; lia).
  destruct B as [B U].
  assert (A : (Qabs t < Qabs x)%Q).
  { apply Qnot_le_lt. intro A. pose proof (binade_le x t Nx Nt A). lia. }
  assert (Neg : (x <= 0)%Q).
  { apply Qnot_lt_le. intro P. apply (Qlt_irrefl (Qabs x)).
    eapply Qle_lt_trans; [ | exact A ].
    rewrite (Qabs_pos x) by (apply Qlt_le_weak, P).
    eapply Qle_trans; [ exact H | apply Qle_Qabs ]. }
  destruct (binade_spec x Nx) as [Lx _]. destruct (binade_spec t Nt) as [_ Ut].
  rewrite (Qabs_neg x Neg) in Lx.
  assert (E : (inject_Z (- 2 ^ 52) * 2 ^ ulp x == - 2 ^ binade x)%Q).
  { rewrite U. rewrite inject_Z_opp, (Zpower_Qpower 2 52) by lia.
    setoid_replace (- inject_Z 2 ^ 52 * 2 ^ (binade x - 52))%Q
      with (- (2 ^ 52 * 2 ^ (binade x - 52)))%Q by ring.
    rewrite <- Qpower_plus by apply two_neq_0.
    replace (52 + (binade x - 52)) with (binade x) by lia. reflexivity. }
  apply Qle_trans with (- 2 ^ binade x)%Q.
  - rewrite <- E. apply double_le_grid; [ exact Nx | ].
    rewrite E. apply Qopp_le_compat in Lx. rewrite Qopp_involutive in Lx. exact Lx.
  - apply Qle_trans with (- 2 ^ (binade t + 1))%Q.
    + apply Qopp_le_compat. apply Qpower_le_compat_l; [ exact B | discriminate ].
    + apply Qlt_le_weak. apply Qabs_Qlt_condition in Ut. apply Ut.
Qed.

Lemma Qred_inject_Z (n : Z) : Qred (inject_Z n) = inject_Z n.
Proof.
  unfold Qred, inject_Z.
  pose proof (Z.ggcd_gcd n 1) as G. pose proof (Z.ggcd_correct_divisors n 1) as D.
  destruct (Z.ggcd n 1) as [g [aa bb]]. cbn [fst snd] in *.
  rewrite Z.gcd_1_r in G. subst g. destruct D as [D1 D2].
  rewrite Z.mul_1_l in D1, D2. subst aa bb. reflexivity.
Qed.

Lemma roundQ_integer (y : Q) (k : Z) : (y == inject_Z k)%Q -> roundQ y = k.
Proof.
  intro E. apply Z.le_antisymm.
  - apply roundQ_le. rewrite E. apply Qle_refl.
  - apply roundQ_ge. rewrite E. apply Qle_refl.
Qed.

(** The integers below 2^53 are doubles. *)
Lemma double_inject_Z (n : Z) : 0 <= n < 2 ^ 53 -> double (inject_Z n) = inject_Z n.
Proof.
  intros [N0 N1]. destruct (Z.eq_dec n 0) as [-> | Nz]; [ reflexivity | ].
  set (x := inject_Z n).
  assert (Nx : Qnum x <> 0) by exact Nz.
  assert (U : ulp x <= 0).
  { destruct (binade_spec x Nx) as [Lx _].
    assert (P : (2 ^ binade x < 2 ^ 53)%Q).
    { eapply Qle_lt_trans; [ exact Lx | ].
      assert (A : (Qabs x == x)%Q).
      { apply Qabs.Qabs_pos. change 0%Q with (inject_Z 0). unfold x.
        rewrite <- Zle_Qle. exact N0. }
      rewrite A.
      rewrite <- (Zpower_Qpower 2 53) by lia. unfold x. rewrite <- Zlt_Qlt. exact N1. }
    apply Qpower_lt_compat_l_inv in P; [ | reflexivity ].
    unfold ulp. lia. }
  assert (Y : (x / 2 ^ ulp x == inject_Z (n * 2 ^ (- ulp x)))%Q).
  { unfold Qdiv. rewrite <- Qpower_opp, inject_Z_mult.
    rewrite (Zpower_Qpower 2 (- ulp x)) by lia. reflexivity. }
  unfold double. apply Z.eqb_neq in Nx. rewrite Nx.
  transitivity (Qred x); [ apply Qred_complete | apply Qred_inject_Z ].
  rewrite (roundQ_integer _ _ Y), inject_Z_mult.
  rewrite (Zpower_Qpower 2 (- ulp x)) by lia.
  rewrite <- Qmult_assoc, <- Qpower_plus by apply two_neq_0.
  replace (- ulp x + ulp x) with 0 by lia.
  rewrite Qpower_0_r, Qmult_1_r. reflexivity.
Qed.

Lemma double_nonneg (x : Q) : (0 <= x)%Q -> (0 <= double x)%Q.
Proof.
  intro H. destruct (Z.eq_dec (Qnum x) 0) as [Zx | Nx].
  { unfold double. rewrite Zx. apply Qle_refl. }
  rewrite (double_eq x Nx).
  apply Qmult_le_0_compat; [ | apply Qlt_le_weak, pow2_pos ].
  change 0%Q with (inject_Z 0). rewrite <- Zle_Qle. apply roundQ_ge.
  apply Qle_shift_div_l; [ apply pow2_pos | ]. rewrite Qmult_0_l. exact H.
Qed.

(** ** Unfolding of the monadic code *)

Ltac mrun :=
  cbv [exec eval bind ret ask get modify log
       turnOnRelay turnOffRelay getRelayState
       publishMessage publishThermostatStatus publishSetpointUpdate publishModeUpdate
       resetErrorCounter incrConsecutiveErrors notifyCriticalError
       clearThermostatInterval handleSensorError updateCurrentState
       controlHeating stopThermostat tickBody tick startThermostat
       setTargetTemperature setHysteresis resetThermostat].

Ltac msimpl := cbn [fst snd negb andb orb].

Lemma emitted_prefix {A} (m : M A) (e : Env) (w : World) (evs : list (Z * Event)) :
  trace (exec m e w) = evs ++ trace w -> emitted m e w = evs.
Proof.
  intro H. unfold emitted. cbv zeta. rewrite H, length_app.
  replace (List.length evs + List.length (trace w) - List.length (trace w))%nat
    with (List.length evs) by lia.
  rewrite firstn_app, Nat.sub_diag, firstn_all. cbn [firstn]. apply app_nil_r.
Qed.

(** ** The hysteresis decision *)

(** The possible outcomes of controlHeating(): nothing happens, or one
    relay write, under the conditions of the source. *)
Lemma controlHeating_cases (e : Env) (w : World) :
  let s := thermostatState w in
  let c := thermostatConfig w in
  exec controlHeating e w = w
  \/ (isRunning s = true /\ minActionInterval <= now e - lastControlAction w /\
      isHeating s = true /\ (c_targetTemperature c <= currentTemperature s)%Q /\
      emitted controlHeating e w = [(now e, RelayWrite false (gpioOk e))])
  \/ (isRunning s = true /\ minActionInterval <= now e - lastControlAction w /\
      isHeating s = false /\
      (currentTemperature s < fsub (c_targetTemperature c) (c_hysteresis c))%Q /\
      emitted controlHeating e w = [(now e, RelayWrite true (gpioOk e))]).
Proof.
  cbv zeta.
  destruct (isRunning (thermostatState w)) eqn:R.
  2: { left. mrun. rewrite R. reflexivity. }
  destruct (now e - lastControlAction w <? minActionInterval) eqn:G.
  1: { left. mrun. rewrite R. msimpl. rewrite G. reflexivity. }
  assert (G' := G). apply Z.ltb_ge in G'.
  destruct (isHeating (thermostatState w)) eqn:H.
  - destruct (Qgeb (currentTemperature (thermostatState w))
                   (c_targetTemperature (thermostatConfig w))) eqn:C.
    + right; left. assert (C' := C). apply Qgeb_ge in C'. repeat (split; trivial).
      apply emitted_prefix with (evs := [(now e, RelayWrite false (gpioOk e))]).
      mrun. rewrite R. msimpl. rewrite G, H, C.
      destruct (gpioOk e); reflexivity.
    + left. mrun. rewrite R. msimpl. rewrite G, H, C. reflexivity.
  - destruct (Qltb (currentTemperature (thermostatState w))
                   (fsub (c_targetTemperature (thermostatConfig w))
                         (c_hysteresis (thermostatConfig w)))) eqn:C.
    + right; right. assert (C' := C). apply Qltb_lt in C'. repeat (split; trivial).
      apply emitted_prefix with (evs := [(now e, RelayWrite true (gpioOk e))]).
      mrun. rewrite R. msimpl. rewrite G, H, C.
      destruct (gpioOk e); reflexivity.
    + left. mrun. rewrite R. msimpl. rewrite G, H, C. reflexivity.
Qed.

Lemma emitted_unchanged {A} (m : M A) (e : Env) (w : World) :
  exec m e w = w -> emitted m e w = [].
Proof.
  intro H. unfold emitted. cbv zeta. rewrite H, Nat.sub_diag. reflexivity.
Qed.

(** C4.  For a target in [5,30] and a hysteresis in (0,5], the control
    decision writes "on" to the relay only when the loop is not heating and
    the current temperature is below target - hysteresis, writes "off" only
    when it is heating and the current temperature has reached the target,
    and does nothing at all when the current temperature lies in the
    deadband [target - hysteresis, target).  The difference is the exact
    one: the source compares the current temperature, a double, with the
    double nearest to the difference, and rounding does not cross a double
    ([double_le]). *)
Theorem C4_hysteresis_decision (e : Env) (w : World) :
  let s := thermostatState w in
  let target := c_targetTemperature (thermostatConfig w) in
  let hyst := c_hysteresis (thermostatConfig w) in
  (5 <= target /\ target <= 30)%Q ->
  (0 < hyst /\ hyst <= 5)%Q ->
  isDouble (currentTemperature s) ->
  (forall t ok, In (t, RelayWrite true ok) (emitted controlHeating e w) ->
     isHeating s = false /\
     (currentTemperature s < fsub target hyst)%Q /\
     (currentTemperature s < target - hyst)%Q) /\
  (forall t ok, In (t, RelayWrite false ok) (emitted controlHeating e w) ->
     isHeating s = true /\ (target <= currentTemperature s)%Q) /\
  ((target - hyst <= currentTemperature s)%Q -> (currentTemperature s < target)%Q ->
     emitted controlHeating e w = [] /\ exec controlHeating e w = w).
Proof.
  cbv zeta. intros _ _ D.
  assert (Below : forall x, (x <= currentTemperature (thermostatState w))%Q ->
                            ~ (currentTemperature (thermostatState w) < double x)%Q).
  { intros x Le Lt. apply (Qle_not_lt _ _ (double_le x _ D Le)). exact Lt. }
  destruct (controlHeating_cases e w) as [Same | [Off | On]]; cbv zeta in *.
  - rewrite (emitted_unchanged _ _ _ Same).
    split; [ | split ].
    + intros t ok [].
    + intros t ok [].
    + intros _ _. split; trivial.
  - destruct Off as (_ & _ & H & C & E). rewrite E.
    split; [ | split ].
    + intros t ok [Hin | []]. discriminate Hin.
    + intros t ok _. split; trivial.
    + intros _ Lt. exfalso. apply (Qle_not_lt _ _ C). trivial.
  - destruct On as (_ & _ & H & C & E). rewrite E.
    split; [ | split ].
    + intros t ok _. split; [ trivial | split; [ exact C | ] ].
      apply Qnot_le_lt. intro Le. exact (Below _ Le C).
    + intros t ok [Hin | []]. discriminate Hin.
    + intros Le _. exfalso. exact (Below _ Le C).
Qed.

(** Witness of C4: the default configuration (target 22, hysteresis 1.5)
    and a reading of 21 degrees, inside the deadband. *)
Lemma C4_hysteresis_decision_witness :
  let e := envReading 21 61000 in
  let w := exec updateCurrentState e heatingWorld in
  ((5 <= c_targetTemperature (thermostatConfig w) /\
    c_targetTemperature (thermostatConfig w) <= 30) /\
   (0 < c_hysteresis (thermostatConfig w) /\ c_hysteresis (thermostatConfig w) <= 5) /\
   c_targetTemperature (thermostatConfig w) - c_hysteresis (thermostatConfig w)
     <= currentTemperature (thermostatState w) /\
   currentTemperature (thermostatState w) < c_targetTemperature (thermostatConfig w))%Q /\
  isDouble (currentTemperature (thermostatState w)) /\
  emitted controlHeating e w = [] /\ exec controlHeating e w = w.
Proof.
  cbv zeta.
  assert (T : (5 <= c_targetTemperature (thermostatConfig
                 (exec updateCurrentState (envReading 21 61000) heatingWorld)) /\
               c_targetTemperature (thermostatConfig
                 (exec updateCurrentState (envReading 21 61000) heatingWorld)) <= 30)%Q)
    by (split; vm_compute; discriminate).
  assert (H : (0 < c_hysteresis (thermostatConfig
                 (exec updateCurrentState (envReading 21 61000) heatingWorld)) /\
               c_hysteresis (thermostatConfig
                 (exec updateCurrentState (envReading 21 61000) heatingWorld)) <= 5)%Q)
    by (split; vm_compute; [reflexivity | discriminate]).
  assert (D : isDouble (currentTemperature (thermostatState
                 (exec updateCurrentState (envReading 21 61000) heatingWorld))))
    by (vm_compute; reflexivity).
  split; [ split; [exact T | split; [exact H | split ] ] | split; [ exact D | ] ].
  - vm_compute; discriminate.
  - vm_compute; reflexivity.
  - apply (C4_hysteresis_decision (envReading 21 61000)
             (exec updateCurrentState (envReading 21 61000) heatingWorld) T H D).
    + vm_compute; discriminate.
    + vm_compute; reflexivity.
Defined.

(** The scenario of the specification: target 22, hysteresis 1.5; at 19
    degrees the relay is switched on, at 22.1 degrees it is switched off. *)
Example scenario_on_at_19 :
  emitted tick (envReading 19 31000) idleWorld = [(31000, RelayWrite true true)]
  /\ isHeating (thermostatState heatingWorld) = true.
Proof. split; vm_compute; reflexivity. Qed.

Example scenario_off_at_22_1 :
  emitted tick (envReading (double (221 # 10)) 61000) heatingWorld
  = [(61000, RelayWrite false true)]
  /\ isHeating (thermostatState (exec tick (envReading (double (221 # 10)) 61000) heatingWorld))
     = false.
Proof. split; vm_compute; reflexivity. Qed.

(** The lower threshold is the rounded difference.  With the doubles
    nearest to 18.1 and 0.2 it is 17.900000000000002, above the double
    nearest to 17.9: that reading switches the relay on.  With 22 and the
    double nearest to 0.1 it is the double nearest to 21.9: that reading,
    which is below the exact difference, does not switch the relay on. *)
Example lower_threshold_is_rounded :
  (double (179 # 10) < fsub (double (181 # 10)) (double (2 # 10)))%Q /\
  fsub 22 (double (1 # 10)) = double (219 # 10) /\
  (double (219 # 10) < 22 - double (1 # 10))%Q.
Proof. split; [ | split ]; vm_compute; reflexivity. Qed.

(** ** Critical-error notification *)

Ltac wsimpl :=
  cbn [thermostatState thermostatConfig thermostatInterval lastControlAction
       errorHandlers relayState serviceState mqttClient publishInterval trace
       set_state set_config set_thermostatInterval set_lastControlAction
       set_errorHandlers set_relayState set_service set_mqttClient
       set_publishInterval set_trace
       currentTemperature targetTemperature hysteresis isHeating lastUpdated
       isRunning lastError consecutiveErrors
       with_currentTemperature with_targetTemperature with_hysteresis with_isHeating
       with_lastUpdated with_isRunning with_lastError with_consecutiveErrors
       c_targetTemperature c_hysteresis checkIntervalMs maxConsecutiveErrors
       with_c_targetTemperature with_c_hysteresis
       isConnected isEnabled lastPublishTime mqtt_lastError reconnectAttempts
       maxReconnectAttempts
       with_isConnected with_isEnabled with_lastPublishTime with_mqtt_lastError
       with_reconnectAttempts
       sensor gpioOk now dbError connectError
       fst snd negb andb orb] in *.

Lemma callHandlers_run (hs : list nat) (msg : CritMsg) (e : Env) (w : World) :
  callHandlers hs msg e w
  = (tt, set_trace (handlerEvents hs msg (now e) ++ trace w) w).
Proof.
  revert w. induction hs as [| h hs IH]; intro w.
  - destruct w; reflexivity.
  - cbn [callHandlers]. cbv [bind log]. rewrite IH.
    unfold handlerEvents. cbn [map rev]. rewrite <- app_assoc.
    destruct w; reflexivity.
Qed.

Lemma toggleTimes_app (a b : list (Z * Event)) :
  toggleTimes (a ++ b) = toggleTimes a ++ toggleTimes b.
Proof.
  induction a as [| [t ev] a IH]; cbn [app toggleTimes]; trivial.
  destruct ev as [on [|] | | | | | | | | | | | ]; cbn [app]; rewrite IH; trivial.
Qed.

Lemma toggleTimes_handlerEvents (hs : list nat) (msg : CritMsg) (t : Z) (tr : list (Z * Event)) :
  toggleTimes (handlerEvents hs msg t ++ tr) = toggleTimes tr.
Proof.
  rewrite toggleTimes_app.
  assert (E : toggleTimes (handlerEvents hs msg t) = []).
  { unfold handlerEvents.
    induction hs as [| h hs IH]; cbn [map rev]; trivial.
    rewrite toggleTimes_app, IH. reflexivity. }
  rewrite E. reflexivity.
Qed.

(** ** The minimum-action interval *)

Ltac zb :=
  repeat match goal with
         | H : (_ <=? _) = true |- _ => apply Z.leb_le in H
         | H : (_ <=? _) = false |- _ => apply Z.leb_gt in H
         | H : (_ <? _) = true |- _ => apply Z.ltb_lt in H
         | H : (_ <? _) = false |- _ => apply Z.ltb_ge in H
         end.

(** Case analysis on every test met along the code, in order. *)
Ltac branches :=
  repeat match goal with
         | |- context [callHandlers ?a ?b ?c ?d] =>
             rewrite (callHandlers_run a b c d); wsimpl
         | |- context [sensor ?e] => is_var e; destruct (sensor e) eqn:?; wsimpl
         | |- context [if ?c then _ else _] => destruct c eqn:?; wsimpl
         end.













(** ** Safety shutdown *)

(** A conjunction of closed facts, each settled by evaluation. *)
Ltac conj_compute :=
  repeat match goal with |- _ /\ _ => split end; vm_compute; reflexivity.

(** A failed read is counted twice by a tick: once by handleSensorError,
    once by the timer callback. *)
Lemma failed_tick_counts_twice (e : Env) (w : World) (p : Z) (m : string) :
  thermostatInterval w = Some p ->
  sensor e = SensorError m ->
  consecutiveErrors (thermostatState w) + 2 < maxConsecutiveErrors (thermostatConfig w) ->
  exec tick e w
  = set_state (fun s => with_consecutiveErrors (consecutiveErrors s + 1) s)
      (set_state (with_lastError (Some (SensorMsg m)))
         (set_state (fun s => with_consecutiveErrors (consecutiveErrors s + 1) s) w)).
Proof.
  intros Armed S Below. mrun. rewrite Armed, S. wsimpl.
  destruct (maxConsecutiveErrors (thermostatConfig w)
            <=? consecutiveErrors (thermostatState w) + 1) eqn:T1; zb; [ lia | ].
  wsimpl.
  destruct (maxConsecutiveErrors (thermostatConfig w)
            <=? consecutiveErrors (thermostatState w) + 1 + 1) eqn:T2; zb; [ lia | ].
  reflexivity.
Qed.

(** When the count of handleSensorError reaches the limit, the loop is
    stopped there; the stopThermostat() of the callback then finds the loop
    stopped and returns at once: the relay is not written. *)
Lemma failed_tick_stops_without_relay (e : Env) (w : World) (p : Z) (m : string) :
  thermostatInterval w = Some p ->
  sensor e = SensorError m ->
  maxConsecutiveErrors (thermostatConfig w) <= consecutiveErrors (thermostatState w) + 1 ->
  let w' := exec tick e w in
  isRunning (thermostatState w') = false /\
  thermostatInterval w' = None /\
  consecutiveErrors (thermostatState w') = consecutiveErrors (thermostatState w) + 2 /\
  relayState w' = relayState w /\
  isHeating (thermostatState w') = isHeating (thermostatState w) /\
  toggleTimes (trace w') = toggleTimes (trace w).
Proof.
  intros Armed S Reached. cbv zeta. mrun. rewrite Armed, S. wsimpl.
  destruct (maxConsecutiveErrors (thermostatConfig w)
            <=? consecutiveErrors (thermostatState w) + 1) eqn:T1; zb; [ | lia ].
  wsimpl. rewrite Armed. wsimpl. rewrite callHandlers_run. wsimpl.
  destruct (maxConsecutiveErrors (thermostatConfig w)
            <=? consecutiveErrors (thermostatState w) + 1 + 1) eqn:T2; zb; [ | lia ].
  wsimpl. rewrite callHandlers_run. wsimpl.
  rewrite ?toggleTimes_handlerEvents. cbn [toggleTimes].
  rewrite ?toggleTimes_handlerEvents.
  repeat match goal with |- _ /\ _ => split end; trivial. lia.
Qed.

(** From a running loop with a counter of 0 and the default limit of 5:
    two failed reads leave the loop running, the third one stops it, and
    the relay is left as it was. *)
Lemma three_failed_reads (w : World) (e1 e2 e3 : Env) (p : Z) (m1 m2 m3 : string) :
  isRunning (thermostatState w) = true ->
  thermostatInterval w = Some p ->
  consecutiveErrors (thermostatState w) = 0 ->
  maxConsecutiveErrors (thermostatConfig w) = 5 ->
  sensor e1 = SensorError m1 -> sensor e2 = SensorError m2 -> sensor e3 = SensorError m3 ->
  let w2 := runTicks [e1; e2] w in
  let w3 := runTicks [e1; e2; e3] w in
  isRunning (thermostatState w2) = true /\
  thermostatInterval w2 = Some p /\
  isRunning (thermostatState w3) = false /\
  thermostatInterval w3 = None /\
  consecutiveErrors (thermostatState w3) = 6 /\
  relayState w3 = relayState w /\
  isHeating (thermostatState w3) = isHeating (thermostatState w) /\
  toggleTimes (trace w3) = toggleTimes (trace w).
Proof.
  intros Run Armed Cnt Max S1 S2 S3. cbv zeta. cbn [runTicks].
  rewrite (failed_tick_counts_twice e1 w p m1 Armed S1) by lia.
  set (w1 := set_state _ (set_state _ (set_state _ w))).
  assert (Armed1 : thermostatInterval w1 = Some p) by exact Armed.
  assert (Cnt1 : consecutiveErrors (thermostatState w1) = 2)
    by (subst w1; wsimpl; lia).
  assert (Max1 : maxConsecutiveErrors (thermostatConfig w1) = 5) by exact Max.
  rewrite (failed_tick_counts_twice e2 w1 p m2 Armed1 S2) by lia.
  set (w2 := set_state _ (set_state _ (set_state _ w1))).
  assert (Armed2 : thermostatInterval w2 = Some p) by exact Armed.
  assert (Cnt2 : consecutiveErrors (thermostatState w2) = 4)
    by (subst w2; wsimpl; lia).
  assert (Max2 : maxConsecutiveErrors (thermostatConfig w2) = 5) by exact Max.
  assert (Reached : maxConsecutiveErrors (thermostatConfig w2)
                    <= consecutiveErrors (thermostatState w2) + 1) by lia.
  destruct (failed_tick_stops_without_relay e3 w2 p m3 Armed2 S3 Reached)
    as (R & T & C & Rl & H & Tg).
  repeat match goal with |- _ /\ _ => split end; trivial.
  - rewrite C, Cnt2. reflexivity.
Qed.

(** C1.  The code at the failing input: the loop is running and heating
    with an error counter of 0; after two failed reads it still runs; the
    third failed read (not the fifth) stops it, cancels the timer and
    notifies the handler (twice), but no "off" is written to the relay,
    which stays on.  After that a tick does nothing, and resetThermostat()
    leaves the loop stopped and the relay on. *)
Theorem C1_shutdown_after_three_failed_reads_relay_left_on :
  isRunning (thermostatState heatingWorld) = true /\
  consecutiveErrors (thermostatState heatingWorld) = 0 /\
  relayState heatingWorld = true /\
  isRunning (thermostatState (runTicks (firstn 2 threeFailedReads) heatingWorld)) = true /\
  isRunning (thermostatState faultedWorld) = false /\
  thermostatInterval faultedWorld = None /\
  relayState faultedWorld = true /\
  isHeating (thermostatState faultedWorld) = true /\
  trace faultedWorld
  = [ (40000, CriticalError 1%nat (TooManyErrors 6));
      (40000, CriticalError 1%nat SensorPaused);
      (40000, TimerCleared) ] ++ trace heatingWorld /\
  exec tick (envReading 19 43000) faultedWorld = faultedWorld /\
  isRunning (thermostatState (exec resetThermostat (envReading 19 50000) faultedWorld)) = false /\
  relayState (exec resetThermostat (envReading 19 50000) faultedWorld) = true.
Proof. conj_compute. Qed.

(** C2.  A state reached by public operations in which [isHeating] holds
    while [isRunning] does not, and the relay is on: start, one tick that
    switches the relay on, three ticks with a failing sensor. *)
Theorem C2_heating_while_stopped_is_reachable :
  reachable (run faultOps (initialWorld 0)) /\
  isHeating (thermostatState (run faultOps (initialWorld 0))) = true /\
  isRunning (thermostatState (run faultOps (initialWorld 0))) = false /\
  relayState (run faultOps (initialWorld 0)) = true.
Proof.
  split; [ exists 0, faultOps; reflexivity | ].
  conj_compute.
Qed.

(** ** stopThermostat *)

Lemma isMode_off : isMode "off" = true.
Proof. reflexivity. Qed.

Lemma isMode_heat : isMode "heat" = true.
Proof. reflexivity. Qed.

(** From the idle state (running, relay off) stopThermostat() writes nothing
    to the relay: the write is guarded by [isHeating]. *)
Lemma C3_stop_from_idle_writes_nothing :
  ~ stopAlwaysWritesOff (envReading 19 2000) idleWorld.
Proof.
  assert (E : emitted stopThermostat (envReading 19 2000) idleWorld
              = [(2000, TimerCleared)]) by (vm_compute; reflexivity).
  intros (_ & [ok Hin] & _).
  rewrite E in Hin. destruct Hin as [Hin | []]. discriminate Hin.
Qed.

(** stopThermostat() on a running loop with its timer armed. *)
Lemma stopThermostat_running (e : Env) (w : World) :
  isRunning (thermostatState w) = true ->
  thermostatInterval w <> None ->
  let w' := exec stopThermostat e w in
  thermostatInterval w' = None /\
  isRunning (thermostatState w') = false /\
  isHeating (thermostatState w') = false /\
  emitted stopThermostat e w
  = (if isConnected (serviceState w) && mqttClient w
     then [(now e, Published T_mode (PStr "off"))] else [])
    ++ (if isHeating (thermostatState w)
        then [(now e, RelayWrite false (gpioOk e))] else [])
    ++ [(now e, TimerCleared)] /\
  eval stopThermostat e w = (if isHeating (thermostatState w) then gpioOk e else true) /\
  relayState w'
  = (if isHeating (thermostatState w) && gpioOk e then false else relayState w).
Proof.
  intros Run Armed. cbv zeta.
  destruct (thermostatInterval w) as [p |] eqn:T; [ clear Armed | congruence ].
  destruct (isHeating (thermostatState w)) eqn:H;
    destruct (gpioOk e) eqn:G;
    destruct (isConnected (serviceState w)) eqn:C;
    destruct (mqttClient w) eqn:K;
    (repeat match goal with |- _ /\ _ => split end;
     try (eapply emitted_prefix);
     mrun; rewrite ?Run, ?T; wsimpl; rewrite ?H, ?G; wsimpl;
     rewrite ?C, ?isMode_off; wsimpl; rewrite ?K, ?C; wsimpl;
     rewrite ?H, ?G; reflexivity).
Qed.

(** stopThermostat() on a loop that is not running. *)
Lemma stopThermostat_not_running (e : Env) (w : World) :
  isRunning (thermostatState w) = false ->
  exec stopThermostat e w = w /\ eval stopThermostat e w = true.
Proof.
  intro Stopped. mrun. rewrite Stopped. split; reflexivity.
Qed.

(** C3 (amended).  From a running loop (Idle or Heating), stopThermostat()
    cancels the timer and leaves [isRunning] and [isHeating] false; it writes
    "off" to the relay exactly when [isHeating] was true, returns the outcome
    of that write, and the relay is off on return when the write succeeded or
    the relay was off before.  When the loop is not running it does nothing
    and returns true. *)
Theorem C3_stopThermostat (e : Env) (w : World) :
  (isRunning (thermostatState w) = true ->
   thermostatInterval w <> None ->
   let w' := exec stopThermostat e w in
   thermostatInterval w' = None /\
   isRunning (thermostatState w') = false /\
   isHeating (thermostatState w') = false /\
   emitted stopThermostat e w
   = (if isConnected (serviceState w) && mqttClient w
      then [(now e, Published T_mode (PStr "off"))] else [])
     ++ (if isHeating (thermostatState w)
         then [(now e, RelayWrite false (gpioOk e))] else [])
     ++ [(now e, TimerCleared)] /\
   eval stopThermostat e w = (if isHeating (thermostatState w) then gpioOk e else true) /\
   relayState w'
   = (if isHeating (thermostatState w) && gpioOk e then false else relayState w))
  /\
  (isRunning (thermostatState w) = false ->
   exec stopThermostat e w = w /\ eval stopThermostat e w = true).
Proof.
  split.
  - exact (stopThermostat_running e w).
  - exact (stopThermostat_not_running e w).
Qed.

(** Witness of C3: stopping the heating loop switches the relay off;
    stopping the faulted loop does nothing. *)
Lemma C3_stopThermostat_witness :
  (isRunning (thermostatState heatingWorld) = true /\
   thermostatInterval heatingWorld <> None /\
   relayState (exec stopThermostat (envReading 19 32000) heatingWorld) = false) /\
  (isRunning (thermostatState faultedWorld) = false /\
   exec stopThermostat (envReading 19 41000) faultedWorld = faultedWorld).
Proof.
  assert (Run : isRunning (thermostatState heatingWorld) = true)
    by (vm_compute; reflexivity).
  assert (Armed : thermostatInterval heatingWorld <> None)
    by (vm_compute; discriminate).
  assert (Stopped : isRunning (thermostatState faultedWorld) = false)
    by (vm_compute; reflexivity).
  assert (On : isHeating (thermostatState heatingWorld) && gpioOk (envReading 19 32000) = true)
    by (vm_compute; reflexivity).
  split; [ split; [ exact Run | split; [ exact Armed | ] ] | split; [ exact Stopped | ] ].
  - destruct (proj1 (C3_stopThermostat (envReading 19 32000) heatingWorld) Run Armed)
      as (_ & _ & _ & _ & _ & Relay).
    rewrite Relay, On. reflexivity.
  - exact (proj1 (proj2 (C3_stopThermostat (envReading 19 41000) faultedWorld) Stopped)).
Defined.

(** ** startThermostat on a running loop *)

(** On a running loop whose setpoint was changed to 25, startThermostat()
    puts the configured target back to the default 22. *)
Lemma C7_start_resets_configuration :
  ~ startIsNoOp noConfig (envReading 21 3000) retargetedWorld.
Proof.
  assert (Before : c_targetTemperature (thermostatConfig retargetedWorld) = 25%Q)
    by (vm_compute; reflexivity).
  assert (After : c_targetTemperature (thermostatConfig
                    (exec (startThermostat noConfig) (envReading 21 3000) retargetedWorld))
                  = 22%Q)
    by (vm_compute; reflexivity).
  intros [_ Same]. rewrite Same, Before in After. discriminate After.
Qed.

(** C7 (amended).  On a running loop startThermostat(config) returns true
    and leaves the thermostat state (error counters included), the timer,
    the relay and the trace unchanged; the configuration, however, is
    replaced by the defaults overridden by the fields of [config]. *)
Theorem C7_start_when_running (config : PartialConfig) (e : Env) (w : World) :
  isRunning (thermostatState w) = true ->
  eval (startThermostat config) e w = true /\
  exec (startThermostat config) e w
  = set_config (fun _ => mergeConfig DEFAULT_CONFIG config) w.
Proof.
  intro Run. mrun. wsimpl. rewrite Run. split; reflexivity.
Qed.

Lemma C7_start_when_running_witness :
  isRunning (thermostatState retargetedWorld) = true /\
  c_targetTemperature (thermostatConfig retargetedWorld) = 25%Q /\
  eval (startThermostat noConfig) (envReading 21 3000) retargetedWorld = true /\
  exec (startThermostat noConfig) (envReading 21 3000) retargetedWorld
  = set_config (fun _ => mergeConfig DEFAULT_CONFIG noConfig) retargetedWorld.
Proof.
  assert (Run : isRunning (thermostatState retargetedWorld) = true)
    by (vm_compute; reflexivity).
  split; [ exact Run | ].
  split; [ vm_compute; reflexivity | ].
  exact (C7_start_when_running noConfig (envReading 21 3000) retargetedWorld Run).
Defined.

(** ** setTargetTemperature *)

(** The prefix that a goal [exists l, x1 :: ... :: trace w = l ++ trace w]
    asks for. *)
Ltac trace_prefix :=
  match goal with
  | |- exists l, ?lhs = l ++ trace ?w =>
      let rec go t :=
        match t with
        | trace w => constr:(@nil (Z * Event))
        | ?x :: ?r => let r' := go r in constr:(x :: r')
        | ?a ++ ?r => let r' := go r in constr:(a ++ r')
        end in
      let l := go lhs in
      exists l; rewrite <- ?app_assoc; reflexivity
  end.

(** Neither the sensor update, nor the control decision, nor the
    publication touch the target, and they only add to the trace. *)
Lemma updateCurrentState_frame (e : Env) (w : World) :
  let w' := exec updateCurrentState e w in
  targetTemperature (thermostatState w') = targetTemperature (thermostatState w) /\
  thermostatConfig w' = thermostatConfig w /\
  exists later, trace w' = later ++ trace w.
Proof.
  cbv zeta. mrun. destruct (sensor e); wsimpl; branches;
    (split; [ reflexivity | split; [ reflexivity | trace_prefix ] ]).
Qed.

Lemma controlHeating_frame (e : Env) (w : World) :
  let w' := exec controlHeating e w in
  targetTemperature (thermostatState w') = targetTemperature (thermostatState w) /\
  thermostatConfig w' = thermostatConfig w /\
  exists later, trace w' = later ++ trace w.
Proof.
  cbv zeta. mrun. branches;
    (split; [ reflexivity | split; [ reflexivity | trace_prefix ] ]).
Qed.

Lemma publishSetpointUpdate_frame (v : Q) (e : Env) (w : World) :
  let w' := exec (publishSetpointUpdate v) e w in
  thermostatState w' = thermostatState w /\
  thermostatConfig w' = thermostatConfig w /\
  exists later, trace w' = later ++ trace w.
Proof.
  cbv zeta. mrun. branches;
    (split; [ reflexivity | split; [ reflexivity | trace_prefix ] ]).
Qed.

(** The three steps that follow a successful database write. *)
Lemma setTargetTemperature_stored (v : Q) (e : Env) (w : World) :
  validateTemperatureValue v = true ->
  dbError e = None ->
  eval (setTargetTemperature v) e w = true /\
  exec (setTargetTemperature v) e w
  = exec (publishSetpointUpdate v) e
      (if isRunning (thermostatState w)
       then exec controlHeating e (exec updateCurrentState e (targetStored v e w))
       else targetStored v e w).
Proof.
  intros V D. unfold exec, eval, setTargetTemperature, targetStored.
  rewrite V. cbn [negb]. cbv [bind ask modify log ret get]. rewrite D. wsimpl.
  destruct (isRunning (thermostatState w)).
  - destruct (updateCurrentState e _) as [a w1]. wsimpl.
    destruct (controlHeating e w1) as [u w2]. wsimpl.
    destruct (publishSetpointUpdate v e w2) as [u' w3]. split; reflexivity.
  - destruct (publishSetpointUpdate v e _) as [u' w3]. split; reflexivity.
Qed.

(** C6.  setTargetTemperature(v) with v outside [5,30] returns false,
    records the range error in [lastError] and changes nothing else: the
    target is unchanged in the state and in the configuration, nothing is
    written to the store.  With v in [5,30] (and a store that accepts the
    write) it returns true, the target is v in the state and in the
    configuration, the write to the store is its first effect, and, if the
    loop is running, the sensor is read and the control decision runs
    within the same call. *)
Theorem C6_setTargetTemperature (v : Q) (e : Env) (w : World) :
  (~ (5 <= v /\ v <= 30)%Q ->
   let w' := exec (setTargetTemperature v) e w in
   eval (setTargetTemperature v) e w = false /\
   w' = set_state (with_lastError (Some (TargetOutOfRange v))) w /\
   targetTemperature (thermostatState w') = targetTemperature (thermostatState w) /\
   c_targetTemperature (thermostatConfig w') = c_targetTemperature (thermostatConfig w) /\
   emitted (setTargetTemperature v) e w = [])
  /\
  ((5 <= v /\ v <= 30)%Q ->
   dbError e = None ->
   let w' := exec (setTargetTemperature v) e w in
   eval (setTargetTemperature v) e w = true /\
   targetTemperature (thermostatState w') = v /\
   c_targetTemperature (thermostatConfig w') = v /\
   (exists later, emitted (setTargetTemperature v) e w = later ++ [(now e, Persisted v)]) /\
   w' = exec (publishSetpointUpdate v) e
          (if isRunning (thermostatState w)
           then exec controlHeating e (exec updateCurrentState e (targetStored v e w))
           else targetStored v e w)).
Proof.
  split.
  - intros Out. cbv zeta.
    assert (V : validateTemperatureValue v = false).
    { destruct (validateTemperatureValue v) eqn:V; trivial.
      apply validateTemperatureValue_spec in V. contradiction. }
    assert (E : exec (setTargetTemperature v) e w
                = set_state (with_lastError (Some (TargetOutOfRange v))) w).
    { mrun. rewrite V. reflexivity. }
    split; [ mrun; rewrite V; reflexivity | ].
    split; [ exact E | ].
    rewrite E. wsimpl.
    split; [ reflexivity | split; [ reflexivity | ] ].
    apply emitted_prefix with (evs := []). rewrite E. reflexivity.
  - intros In D. cbv zeta.
    apply validateTemperatureValue_spec in In.
    destruct (setTargetTemperature_stored v e w In D) as [Ret E].
    split; [ exact Ret | ].
    set (w0 := targetStored v e w) in *.
    set (w2 := if isRunning (thermostatState w)
               then exec controlHeating e (exec updateCurrentState e w0) else w0) in *.
    assert (F : targetTemperature (thermostatState w2) = v /\
                c_targetTemperature (thermostatConfig w2) = v /\
                exists later, trace w2 = later ++ (now e, Persisted v) :: trace w).
    { subst w2. destruct (isRunning (thermostatState w)).
      - destruct (updateCurrentState_frame e w0) as (T1 & C1 & [l1 L1]).
        destruct (controlHeating_frame e (exec updateCurrentState e w0)) as (T2 & C2 & [l2 L2]).
        rewrite T2, T1, C2, C1, L2, L1. subst w0. unfold targetStored. wsimpl.
        split; [ reflexivity | split; [ reflexivity | ] ].
        exists (l2 ++ l1). rewrite app_assoc. reflexivity.
      - subst w0. unfold targetStored. wsimpl.
        split; [ reflexivity | split; [ reflexivity | ] ].
        exists []. reflexivity. }
    destruct F as (T & C & [l L]).
    destruct (publishSetpointUpdate_frame v e w2) as (S3 & C3 & [l3 L3]).
    rewrite E, S3, C3.
    split; [ exact T | split; [ exact C | split; [ | reflexivity ] ] ].
    exists (l3 ++ l). apply emitted_prefix. rewrite E, L3, L.
    rewrite <- !app_assoc. reflexivity.
Qed.

(** Witness of C6: 3 and 31 are refused and leave the target at 22; 18 is
    accepted. *)
Lemma C6_setTargetTemperature_witness :
  (~ (5 <= 3 /\ 3 <= 30)%Q /\
   eval (setTargetTemperature 3) (envReading 19 2000) idleWorld = false /\
   targetTemperature (thermostatState (exec (setTargetTemperature 3) (envReading 19 2000) idleWorld))
   = targetTemperature (thermostatState idleWorld)) /\
  (~ (5 <= 31 /\ 31 <= 30)%Q /\
   eval (setTargetTemperature 31) (envReading 19 2000) idleWorld = false /\
   targetTemperature (thermostatState (exec (setTargetTemperature 31) (envReading 19 2000) idleWorld))
   = targetTemperature (thermostatState idleWorld)) /\
  ((5 <= 18 /\ 18 <= 30)%Q /\
   dbError (envReading 19 61000) = None /\
   targetTemperature (thermostatState (exec (setTargetTemperature 18) (envReading 19 61000) heatingWorld))
   = 18%Q).
Proof.
  assert (Low : ~ (5 <= 3 /\ 3 <= 30)%Q).
  { intros [L _]. vm_compute in L. apply L. reflexivity. }
  assert (High : ~ (5 <= 31 /\ 31 <= 30)%Q).
  { intros [_ U]. vm_compute in U. apply U. reflexivity. }
  assert (Mid : (5 <= 18 /\ 18 <= 30)%Q) by (split; vm_compute; discriminate).
  split; [ | split ].
  - destruct (proj1 (C6_setTargetTemperature 3 (envReading 19 2000) idleWorld) Low)
      as (R & _ & T & _).
    split; [ exact Low | split; [ exact R | exact T ] ].
  - destruct (proj1 (C6_setTargetTemperature 31 (envReading 19 2000) idleWorld) High)
      as (R & _ & T & _).
    split; [ exact High | split; [ exact R | exact T ] ].
  - destruct (proj2 (C6_setTargetTemperature 18 (envReading 19 61000) heatingWorld)
                    Mid eq_refl) as (_ & T & _).
    split; [ exact Mid | split; [ reflexivity | exact T ] ].
Defined.

(** The decision is re-evaluated within the call: the loop is heating at
    19 degrees; lowering the setpoint to 18 switches the relay off at once. *)
Example setpoint_below_current_switches_off :
  emitted (setTargetTemperature 18) (envReading 19 61000) heatingWorld
  = [(61000, RelayWrite false true); (61000, Persisted 18)]
  /\ relayState (exec (setTargetTemperature 18) (envReading 19 61000) heatingWorld) = false.
Proof. split; vm_compute; reflexivity. Qed.

(** ** The published mode *)

Lemma stopThermostat_bridge_frame (e : Env) (w : World) :
  serviceState (exec stopThermostat e w) = serviceState w /\
  mqttClient (exec stopThermostat e w) = mqttClient w.
Proof.
  mrun. rewrite isMode_off. branches; split; reflexivity.
Qed.

Lemma publishThermostatStatus_emits (e : Env) (w : World) :
  isConnected (serviceState w) = true ->
  mqttClient w = true ->
  emitted publishThermostatStatus e w
  = [ (now e, Published T_mode
                (PStr (if isRunning (thermostatState w) then "heat" else "off")));
      (now e, Published T_setpoint (PNum (targetTemperature (thermostatState w))));
      (now e, Published T_relay (PBool (relayState w)));
      (now e, Published T_temperature (PNum (currentTemperature (thermostatState w)))) ].
Proof.
  intros C K. apply emitted_prefix. mrun. unfold modeOf.
  repeat (progress (rewrite ?K, ?C; wsimpl)).
  reflexivity.
Qed.

(** C8.  While the bridge is connected, every publication of the state
    emits exactly one mode value, "heat" when [isRunning] holds and "off"
    when it does not; the periodic publication is such a publication; the
    value does not depend on [isHeating]; a running loop that is not heating
    publishes "heat", and after stopThermostat() the mode is "off". *)
Theorem C8_mode_follows_isRunning (e : Env) (w : World) :
  isConnected (serviceState w) = true ->
  mqttClient w = true ->
  emitted publishThermostatStatus e w
  = [ (now e, Published T_mode
                (PStr (if isRunning (thermostatState w) then "heat" else "off")));
      (now e, Published T_setpoint (PNum (targetTemperature (thermostatState w))));
      (now e, Published T_relay (PBool (relayState w)));
      (now e, Published T_temperature (PNum (currentTemperature (thermostatState w)))) ] /\
  (publishInterval w = true ->
   emitted publishTick e w = emitted publishThermostatStatus e w) /\
  (forall heating,
     hd_error (emitted publishThermostatStatus e (set_state (with_isHeating heating) w))
     = hd_error (emitted publishThermostatStatus e w)) /\
  (isRunning (thermostatState w) = true -> isHeating (thermostatState w) = false ->
   hd_error (emitted publishThermostatStatus e w)
   = Some (now e, Published T_mode (PStr "heat"))) /\
  (forall e0, isRunning (thermostatState w) = true -> thermostatInterval w <> None ->
   hd_error (emitted publishThermostatStatus e (exec stopThermostat e0 w))
   = Some (now e, Published T_mode (PStr "off"))).
Proof.
  intros C K.
  split; [ exact (publishThermostatStatus_emits e w C K) | ].
  split; [ | split; [ | split ] ].
  - intro Armed. unfold emitted, exec, publishTick. cbv [bind get].
    rewrite Armed. reflexivity.
  - intro heating.
    rewrite (publishThermostatStatus_emits e w C K).
    rewrite (publishThermostatStatus_emits e (set_state (with_isHeating heating) w) C K).
    reflexivity.
  - intros Run _. rewrite (publishThermostatStatus_emits e w C K), Run. reflexivity.
  - intros e0 Run Armed.
    destruct (stopThermostat_bridge_frame e0 w) as [S M].
    destruct (stopThermostat_running e0 w Run Armed) as (_ & Stopped & _).
    rewrite publishThermostatStatus_emits by congruence.
    rewrite Stopped. reflexivity.
Qed.

(** Witness of C8: the loop is running and not heating, the bridge is
    connected: the mode published is "heat". *)
Lemma C8_mode_follows_isRunning_witness :
  isConnected (serviceState connectedWorld) = true /\
  mqttClient connectedWorld = true /\
  isRunning (thermostatState connectedWorld) = true /\
  isHeating (thermostatState connectedWorld) = false /\
  hd_error (emitted publishThermostatStatus (envReading 21 11500) connectedWorld)
  = Some (11500, Published T_mode (PStr "heat")).
Proof.
  assert (C : isConnected (serviceState connectedWorld) = true) by (vm_compute; reflexivity).
  assert (K : mqttClient connectedWorld = true) by (vm_compute; reflexivity).
  assert (R : isRunning (thermostatState connectedWorld) = true) by (vm_compute; reflexivity).
  assert (H : isHeating (thermostatState connectedWorld) = false) by (vm_compute; reflexivity).
  split; [ exact C | split; [ exact K | split; [ exact R | split; [ exact H | ] ] ] ].
  destruct (C8_mode_follows_isRunning (envReading 21 11500) connectedWorld C K)
    as (_ & _ & _ & Idle & _).
  exact (Idle R H).
Defined.

(** ** Unfolding of the code of the bridge *)

Ltac mrun_bridge :=
  cbv [clientEvent handleClientEvent onConnect onReconnect stopMqtt
       setupSubscriptions publishTick initializeMqtt
       restartMqtt restartTimeout onCompletion];
  mrun.

(** ** The relay command *)

(** C10.  A relay command whose payload has a boolean [value] writes that
    value to the relay and then publishes it on the relay state topic (the
    publication is dropped when the bridge is not connected); this happens
    whether or not the loop is running and whatever the time since the last
    toggle; the thermostat state, the configuration, the timer and
    [lastControlAction] are left as they were.  When the write succeeds the
    relay has the commanded value. *)
Theorem C10_relay_command (e : Env) (w : World) (fields : list (string * Json)) (value : bool) :
  lookupField "value" fields = Some (JBool value) ->
  let w' := exec (handleRelayCommand (Some (JObj fields))) e w in
  thermostatState w' = thermostatState w /\
  thermostatConfig w' = thermostatConfig w /\
  thermostatInterval w' = thermostatInterval w /\
  lastControlAction w' = lastControlAction w /\
  emitted (handleRelayCommand (Some (JObj fields))) e w
  = (if mqttClient w && isConnected (serviceState w)
     then [(now e, Published T_relay (PBool value))] else [])
    ++ [(now e, RelayWrite value (gpioOk e))] /\
  relayState w' = (if gpioOk e then value else relayState w).
Proof.
  intro V. cbv zeta.
  assert (E : handleRelayCommand (Some (JObj fields))
              = ((if value then turnOnRelay else turnOffRelay) ;;
                 publishMessage T_relay (PBool value))).
  { unfold handleRelayCommand, parseJsonPayload, checkFields, inOperator.
    rewrite V. unfold valueOf. rewrite V. reflexivity. }
  rewrite E.
  destruct value, (gpioOk e) eqn:G, (mqttClient w) eqn:K,
    (isConnected (serviceState w)) eqn:C;
    (repeat match goal with |- _ /\ _ => split end;
     try (eapply emitted_prefix);
     mrun; rewrite ?G; wsimpl; rewrite ?K, ?C; wsimpl; reflexivity).
Qed.

Lemma C10_relay_command_witness :
  lookupField "value" [("value"%string, JBool true)] = Some (JBool true) /\
  isRunning (thermostatState faultedWorld) = false /\
  thermostatState (exec (handleRelayCommand relayOnMessage) (envReading 19 41000) faultedWorld)
  = thermostatState faultedWorld /\
  emitted (handleRelayCommand relayOnMessage) (envReading 19 41000) faultedWorld
  = [(41000, RelayWrite true true)].
Proof.
  assert (V : lookupField "value" [("value"%string, JBool true)] = Some (JBool true))
    by reflexivity.
  assert (Off : mqttClient faultedWorld && isConnected (serviceState faultedWorld) = false)
    by (vm_compute; reflexivity).
  destruct (C10_relay_command (envReading 19 41000) faultedWorld
              [("value"%string, JBool true)] true V) as (S & _ & _ & _ & Ev & _).
  split; [ exact V | split; [ vm_compute; reflexivity | split; [ exact S | ] ] ].
  unfold relayOnMessage. rewrite Ev, Off. reflexivity.
Defined.

(** ** The running flag and the timer

    In every reachable state [isRunning] holds exactly while the interval
    timer is armed: the three states with [isRunning] set (Idle, Heating)
    or cleared (Stopped, Faulted) are the only ones, and modelling a tick as
    "the callback runs while the timer is armed" loses nothing. *)

Ltac jsolve :=
  unfold runningIffArmed, armed in *; wsimpl; branches;
  unfold runningIffArmed, armed in *; wsimpl;
  try match goal with
      | H : context [thermostatInterval ?w] |- _ =>
          is_var w; destruct (thermostatInterval w); wsimpl
      end;
  branches; try reflexivity; try congruence;
  try (rewrite ?negb_true_iff, ?negb_false_iff in *; congruence).

Lemma exec_bind {A B} (m : M A) (k : A -> M B) (e : Env) (w : World) :
  exec (bind m k) e w = exec (k (eval m e w)) e (exec m e w).
Proof. unfold exec, eval, bind. destruct (m e w). reflexivity. Qed.

Lemma exec_ret {A} (a : A) (e : Env) (w : World) : exec (ret a) e w = w.
Proof. reflexivity. Qed.

Lemma armed_updateCurrentState (e : Env) (w : World) :
  runningIffArmed w -> runningIffArmed (exec updateCurrentState e w).
Proof. intro H. mrun. destruct (sensor e); jsolve. Qed.

Lemma armed_controlHeating (e : Env) (w : World) :
  runningIffArmed w -> runningIffArmed (exec controlHeating e w).
Proof. intro H. mrun. jsolve. Qed.

Lemma armed_stopThermostat (e : Env) (w : World) :
  runningIffArmed w -> runningIffArmed (exec stopThermostat e w).
Proof. intro H. mrun. rewrite isMode_off. jsolve. Qed.

Lemma armed_startThermostat (config : PartialConfig) (e : Env) (w : World) :
  runningIffArmed w -> runningIffArmed (exec (startThermostat config) e w).
Proof. intro H. mrun. rewrite isMode_heat. destruct (sensor e); jsolve. Qed.

Lemma armed_tick (e : Env) (w : World) :
  runningIffArmed w -> runningIffArmed (exec tick e w).
Proof.
  intro H. mrun. rewrite ?isMode_off.
  destruct (thermostatInterval w) eqn:T; [ | exact H ].
  destruct (sensor e); jsolve.
Qed.

Lemma armed_publishMessage (t : Topic) (v : PayloadValue) (e : Env) (w : World) :
  runningIffArmed w -> runningIffArmed (exec (publishMessage t v) e w).
Proof. intro H. mrun. jsolve. Qed.

Lemma armed_setTargetTemperature (t : Q) (e : Env) (w : World) :
  runningIffArmed w -> runningIffArmed (exec (setTargetTemperature t) e w).
Proof.
  intro H.
  destruct (validateTemperatureValue t) eqn:V.
  - destruct (dbError e) eqn:D.
    + mrun. rewrite V. wsimpl. rewrite D. exact H.
    + destruct (setTargetTemperature_stored t e w V D) as [_ E]. rewrite E.
      assert (H0 : runningIffArmed (targetStored t e w)) by exact H.
      unfold publishSetpointUpdate. rewrite exec_bind.
      change (exec get e ?x) with x.
      destruct (isRunning (thermostatState w)).
      * apply (armed_updateCurrentState e), (armed_controlHeating e) in H0.
        destruct (isConnected _); [ apply armed_publishMessage | ]; exact H0.
      * destruct (isConnected _); [ apply armed_publishMessage | ]; exact H0.
  - mrun. rewrite V. exact H.
Qed.

Lemma armed_resetThermostat (e : Env) (w : World) :
  runningIffArmed w -> runningIffArmed (exec resetThermostat e w).
Proof.
  intro H. unfold resetThermostat. rewrite exec_bind.
  change (exec get e w) with w. change (eval get e w) with w. cbv beta zeta.
  rewrite exec_bind.
  pose proof (armed_stopThermostat e w H) as H1.
  destruct (eval stopThermostat e w); cbn [negb]; [ | exact H1 ].
  rewrite !exec_bind.
  set (w2 := exec (modify _) e (exec resetErrorCounter e (exec stopThermostat e w))).
  assert (H2 : runningIffArmed w2) by exact H1.
  destruct (isRunning (thermostatState w)); [ apply armed_startThermostat | ]; exact H2.
Qed.

(** The bridge does not touch the loop. *)
Lemma clientEvent_frame (ev : ClientEvent) (e : Env) (w : World) :
  thermostatState (exec (clientEvent ev) e w) = thermostatState w /\
  thermostatInterval (exec (clientEvent ev) e w) = thermostatInterval w.
Proof.
  destruct ev.
  - destruct w as [st cfg ti lca hs rs [conn en lpt le ra mx] cl pi tr].
    destruct cl, pi; vm_compute; split; reflexivity.
  - mrun_bridge. split; reflexivity.
  - mrun_bridge. split; reflexivity.
  - mrun_bridge. branches; split; reflexivity.
  - mrun_bridge. split; reflexivity.
Qed.

Lemma bridge_frame (e : Env) (w : World) :
  (thermostatState (exec publishTick e w) = thermostatState w /\
   thermostatInterval (exec publishTick e w) = thermostatInterval w) /\
  (thermostatState (exec initializeMqtt e w) = thermostatState w /\
   thermostatInterval (exec initializeMqtt e w) = thermostatInterval w) /\
  (thermostatState (exec stopMqtt e w) = thermostatState w /\
   thermostatInterval (exec stopMqtt e w) = thermostatInterval w) /\
  (thermostatState (exec restartMqtt e w) = thermostatState w /\
   thermostatInterval (exec restartMqtt e w) = thermostatInterval w) /\
  (forall error,
   thermostatState (exec (onCompletion error) e w) = thermostatState w /\
   thermostatInterval (exec (onCompletion error) e w) = thermostatInterval w).
Proof.
  split; [ | split; [ | split; [ | split ] ] ]; mrun_bridge.
  - branches; split; reflexivity.
  - destruct (connectError e); split; reflexivity.
  - branches; split; reflexivity.
  - branches; split; reflexivity.
  - intros [m |]; split; reflexivity.
Qed.

Lemma armed_onMessage (topic : Topic) (message : option Json) (e : Env) (w : World) :
  runningIffArmed w -> runningIffArmed (exec (onMessage topic message) e w).
Proof.
  intro H.
  destruct topic; try exact H;
    cbv [onMessage handleSetpointCommand handleRelayCommand handleModeCommand];
    destruct (parseJsonPayload message _) as [payload |]; try exact H;
    destruct (valueOf payload) as [[ | b | q | s | l | l ] |]; try exact H.
  - rewrite exec_bind.
    pose proof (armed_setTargetTemperature q e w H) as H1.
    destruct (eval (setTargetTemperature q) e w);
      [ apply armed_publishMessage | ]; exact H1.
  - rewrite exec_bind. apply armed_publishMessage.
    destruct b; mrun; jsolve.
  - destruct (isMode s); cbn [negb]; try exact H.
    rewrite exec_bind. apply armed_publishMessage.
    destruct (String.eqb s "heat").
    + rewrite exec_bind. apply armed_startThermostat, H.
    + destruct (String.eqb s "off"); [ | exact H ].
      rewrite exec_bind. apply armed_stopThermostat, H.
Qed.

Lemma armed_step (op : Op) (e : Env) (w : World) :
  runningIffArmed w -> runningIffArmed (exec (step op) e w).
Proof.
  intro H. destruct op; cbn [step]; rewrite ?exec_bind, ?exec_ret.
  - exact H.
  - exact H.
  - apply armed_startThermostat, H.
  - apply armed_stopThermostat, H.
  - apply armed_setTargetTemperature, H.
  - mrun. branches; exact H.
  - apply armed_resetThermostat, H.
  - apply armed_tick, H.
  - unfold runningIffArmed, armed.
    destruct (bridge_frame e w) as (_ & [S T] & _). rewrite S, T. exact H.
  - unfold runningIffArmed, armed.
    destruct (bridge_frame e w) as (_ & _ & [S T] & _). rewrite S, T. exact H.
  - unfold runningIffArmed, armed.
    destruct (clientEvent_frame ev e w) as [S T]. rewrite S, T. exact H.
  - unfold runningIffArmed, armed.
    destruct (bridge_frame e w) as ([S T] & _). rewrite S, T. exact H.
  - apply armed_onMessage, H.
  - unfold runningIffArmed, armed.
    destruct (bridge_frame e w) as (_ & _ & _ & [S T] & _). rewrite S, T. exact H.
  - unfold runningIffArmed, armed.
    destruct (bridge_frame e w) as (_ & _ & _ & _ & F).
    destruct (F error) as [S T]. rewrite S, T. exact H.
Qed.

(** In every reachable state the loop runs exactly while its timer is
    armed. *)
Theorem reachable_runningIffArmed (w : World) :
  reachable w -> runningIffArmed w.
Proof.
  intros (t0 & ops & ->).
  assert (G : forall w0, runningIffArmed w0 -> runningIffArmed (run ops w0)).
  { induction ops as [| [op e] ops IH]; intros w0 H0; cbn [run]; trivial.
    apply IH, armed_step, H0. }
  apply G. reflexivity.
Qed.

(** * Further properties of the control loop *)

Lemma validateHysteresisValue_spec (h : Q) :
  validateHysteresisValue h = true <-> (0 < h /\ h <= 5)%Q.
Proof.
  unfold validateHysteresisValue. rewrite andb_true_iff, Qltb_lt, Qle_bool_iff.
  tauto.
Qed.

(** setHysteresis(h) accepts exactly 0 < h <= 5.  An accepted value goes to
    the configuration only, where getHysteresis() and the control decision
    read it: the [hysteresis] field of the state, which the snapshot
    reports, keeps its value, and nothing else changes.  A refused value
    only sets [lastError]. *)
Theorem X1_setHysteresis (h : Q) (e : Env) (w : World) :
  ((0 < h /\ h <= 5)%Q ->
   eval (setHysteresis h) e w = true /\
   exec (setHysteresis h) e w = set_config (with_c_hysteresis h) w /\
   eval getHysteresis e (exec (setHysteresis h) e w) = h /\
   hysteresis (eval getThermostatState e (exec (setHysteresis h) e w))
   = hysteresis (thermostatState w))
  /\
  (~ (0 < h /\ h <= 5)%Q ->
   eval (setHysteresis h) e w = false /\
   exec (setHysteresis h) e w
   = set_state (with_lastError (Some (HysteresisInvalid h))) w /\
   eval getHysteresis e (exec (setHysteresis h) e w) = c_hysteresis (thermostatConfig w)).
Proof.
  split.
  - intro In. apply validateHysteresisValue_spec in In.
    cbv [getHysteresis getThermostatState]. mrun. rewrite In. wsimpl.
    repeat match goal with |- _ /\ _ => split end; reflexivity.
  - intro Out.
    assert (V : validateHysteresisValue h = false).
    { destruct (validateHysteresisValue h) eqn:V; trivial.
      apply validateHysteresisValue_spec in V. contradiction. }
    cbv [getHysteresis]. mrun. rewrite V. wsimpl.
    repeat match goal with |- _ /\ _ => split end; reflexivity.
Qed.

Lemma X1_setHysteresis_witness :
  ((0 < 1 # 2 /\ 1 # 2 <= 5)%Q /\
   eval getHysteresis (envReading 19 2000)
        (exec (setHysteresis (1 # 2)) (envReading 19 2000) idleWorld) = (1 # 2)%Q /\
   hysteresis (eval getThermostatState (envReading 19 2000)
                    (exec (setHysteresis (1 # 2)) (envReading 19 2000) idleWorld))
   = hysteresis (thermostatState idleWorld)) /\
  (~ (0 < 0 /\ 0 <= 5)%Q /\
   eval (setHysteresis 0) (envReading 19 2000) idleWorld = false).
Proof.
  assert (In : (0 < 1 # 2 /\ 1 # 2 <= 5)%Q)
    by (split; vm_compute; [ reflexivity | discriminate ]).
  assert (Out : ~ (0 < 0 /\ 0 <= 5)%Q).
  { intros [L _]. vm_compute in L. discriminate L. }
  destruct (X1_setHysteresis (1 # 2) (envReading 19 2000) idleWorld) as [Ok _].
  destruct (Ok In) as (_ & _ & G & S).
  destruct (X1_setHysteresis 0 (envReading 19 2000) idleWorld) as [_ Ko].
  destruct (Ko Out) as (R & _).
  split; [ split; [ exact In | split; [ exact G | exact S ] ] | split; [ exact Out | exact R ] ].
Defined.

(** ** startThermostat on a stopped loop *)

Lemma relayWrites_app (a b : list (Z * Event)) :
  relayWrites (a ++ b) = relayWrites a ++ relayWrites b.
Proof.
  induction a as [| [t ev] a IH]; cbn [app relayWrites]; trivial.
  destruct ev; cbn [app]; rewrite IH; trivial.
Qed.

Lemma relayWrites_handlerEvents (hs : list nat) (msg : CritMsg) (t : Z) :
  relayWrites (handlerEvents hs msg t) = [].
Proof.
  unfold handlerEvents.
  induction hs as [| h hs IH]; cbn [map rev]; trivial.
  rewrite relayWrites_app, IH. reflexivity.
Qed.

(** The prefix that a goal [exists l, x1 :: ... :: trace w = l ++ trace w /\ P l]
    asks for; the goal [P l] is left. *)
Ltac trace_prefix_and :=
  match goal with
  | |- exists l, ?lhs = l ++ trace ?w /\ _ =>
      let rec go t :=
        match t with
        | trace w => constr:(@nil (Z * Event))
        | ?x :: ?r => let r' := go r in constr:(x :: r')
        | ?a ++ ?r => let r' := go r in constr:(a ++ r')
        end in
      let l := go lhs in
      exists l; split; [ cbn [app]; rewrite <- ?app_assoc; reflexivity | ]
  end.

(** startThermostat(config) on a stopped loop. *)
Lemma startThermostat_stopped (config : PartialConfig) (e : Env) (w : World) :
  isRunning (thermostatState w) = false ->
  let w' := exec (startThermostat config) e w in
  eval (startThermostat config) e w = true /\
  isRunning (thermostatState w') = true /\
  thermostatInterval w' = Some (checkIntervalMs (mergeConfig DEFAULT_CONFIG config)) /\
  thermostatConfig w' = mergeConfig DEFAULT_CONFIG config /\
  relayState w' = relayState w /\
  relayWrites (emitted (startThermostat config) e w) = [] /\
  targetTemperature (thermostatState w') = targetTemperature (thermostatState w) /\
  match sensor e with
  | Reading t =>
      currentTemperature (thermostatState w') = t /\
      isHeating (thermostatState w') = relayState w /\
      consecutiveErrors (thermostatState w') = 0 /\
      lastError (thermostatState w') = None
  | SensorError m =>
      currentTemperature (thermostatState w') = currentTemperature (thermostatState w) /\
      isHeating (thermostatState w') = isHeating (thermostatState w) /\
      consecutiveErrors (thermostatState w') = 1 /\
      lastError (thermostatState w') = Some (SensorMsg m)
  end.
Proof.
  intro Stopped. cbv zeta.
  assert (Ev : exists l, trace (exec (startThermostat config) e w) = l ++ trace w
                         /\ relayWrites l = []).
  { mrun. wsimpl. rewrite Stopped, isMode_heat. wsimpl.
    destruct (sensor e); wsimpl; branches; trace_prefix_and;
      cbn [relayWrites app];
      rewrite ?relayWrites_app, ?relayWrites_handlerEvents; reflexivity. }
  destruct Ev as (l & L & NoWrite).
  rewrite (emitted_prefix _ e w l L). clear L.
  mrun. wsimpl. rewrite Stopped, isMode_heat. wsimpl.
  destruct (sensor e); wsimpl; branches;
    repeat match goal with |- _ /\ _ => split end;
    try reflexivity; try exact NoWrite.
Qed.

(** startThermostat(config) on a stopped loop always succeeds and leaves
    the loop running with its timer armed at the configured period and the
    configuration set to the defaults overridden by [config]; it never
    writes the relay.  A first read that succeeds gives the current
    temperature, copies the relay state into [isHeating] and leaves the
    error counter at 0 with no error; a first read that fails is tolerated:
    it is counted once and its message is kept in [lastError]. *)
Theorem X2_start_from_stopped (config : PartialConfig) (e : Env) (w : World) :
  isRunning (thermostatState w) = false ->
  let w' := exec (startThermostat config) e w in
  eval (startThermostat config) e w = true /\
  isRunning (thermostatState w') = true /\
  thermostatInterval w' = Some (checkIntervalMs (mergeConfig DEFAULT_CONFIG config)) /\
  thermostatConfig w' = mergeConfig DEFAULT_CONFIG config /\
  relayState w' = relayState w /\
  relayWrites (emitted (startThermostat config) e w) = [] /\
  targetTemperature (thermostatState w') = targetTemperature (thermostatState w) /\
  match sensor e with
  | Reading t =>
      currentTemperature (thermostatState w') = t /\
      isHeating (thermostatState w') = relayState w /\
      consecutiveErrors (thermostatState w') = 0 /\
      lastError (thermostatState w') = None
  | SensorError m =>
      currentTemperature (thermostatState w') = currentTemperature (thermostatState w) /\
      isHeating (thermostatState w') = isHeating (thermostatState w) /\
      consecutiveErrors (thermostatState w') = 1 /\
      lastError (thermostatState w') = Some (SensorMsg m)
  end.
Proof. exact (startThermostat_stopped config e w). Qed.

(** Witness of X2: the loop stopped by the safety shutdown is started
    again by startThermostat(). *)
Lemma X2_start_from_stopped_witness :
  isRunning (thermostatState faultedWorld) = false /\
  isRunning (thermostatState (exec (startThermostat noConfig) (envReading 19 50000) faultedWorld))
  = true /\
  relayWrites (emitted (startThermostat noConfig) (envReading 19 50000) faultedWorld) = [].
Proof.
  assert (Stopped : isRunning (thermostatState faultedWorld) = false)
    by (vm_compute; reflexivity).
  destruct (X2_start_from_stopped noConfig (envReading 19 50000) faultedWorld Stopped)
    as (_ & Run & _ & _ & _ & NoWrite & _).
  split; [ exact Stopped | split; [ exact Run | exact NoWrite ] ].
Defined.

(** ** resetThermostat *)

(** resetThermostat() as the composition the source writes. *)
Lemma resetThermostat_steps (e : Env) (w : World) :
  let cleared :=
    set_state (with_lastError None)
      (set_state (with_consecutiveErrors 0) (exec stopThermostat e w)) in
  let previous :=
    mkPartial (Some (c_targetTemperature (thermostatConfig w)))
              (Some (c_hysteresis (thermostatConfig w))) None None in
  exec resetThermostat e w
  = (if eval stopThermostat e w
     then if isRunning (thermostatState w)
          then exec (startThermostat previous) e cleared
          else cleared
     else exec stopThermostat e w) /\
  eval resetThermostat e w
  = (if eval stopThermostat e w
     then if isRunning (thermostatState w)
          then eval (startThermostat previous) e cleared
          else true
     else false).
Proof.
  cbv zeta. unfold exec, eval, resetThermostat.
  cbv [bind get modify ret resetErrorCounter].
  destruct (stopThermostat e w) as [[|] w1]; cbn [negb fst snd].
  - destruct (isRunning (thermostatState w)); split; reflexivity.
  - split; reflexivity.
Qed.

(** resetThermostat() on a loop that is not running (stopped or faulted)
    only clears the error counter and [lastError]: the loop is not started,
    the relay is not written. *)
Theorem X3_reset_when_not_running (e : Env) (w : World) :
  isRunning (thermostatState w) = false ->
  eval resetThermostat e w = true /\
  exec resetThermostat e w
  = set_state (with_lastError None) (set_state (with_consecutiveErrors 0) w).
Proof.
  intro Stopped.
  destruct (resetThermostat_steps e w) as [E R]. cbv zeta in E, R.
  destruct (stopThermostat_not_running e w Stopped) as [S T].
  rewrite E, R, T, S, Stopped. split; reflexivity.
Qed.

Lemma X3_reset_when_not_running_witness :
  isRunning (thermostatState faultedWorld) = false /\
  isRunning (thermostatState (exec resetThermostat (envReading 19 50000) faultedWorld)) = false /\
  relayState (exec resetThermostat (envReading 19 50000) faultedWorld) = relayState faultedWorld.
Proof.
  assert (Stopped : isRunning (thermostatState faultedWorld) = false)
    by (vm_compute; reflexivity).
  destruct (X3_reset_when_not_running (envReading 19 50000) faultedWorld Stopped) as [_ E].
  rewrite E.
  split; [ exact Stopped | split; vm_compute; reflexivity ].
Defined.

(** resetThermostat() on a running loop.  If the relay has to be switched
    off and the write fails, it returns false and leaves the loop stopped
    (timer cancelled, [isHeating] false) with the relay as it was.
    Otherwise it returns true and the loop runs again with the target and
    the hysteresis it had, the check period and the error limit back at
    their defaults, and the relay off if the loop was heating. *)
Theorem X4_reset_when_running (e : Env) (w : World) :
  isRunning (thermostatState w) = true ->
  thermostatInterval w <> None ->
  let w' := exec resetThermostat e w in
  (isHeating (thermostatState w) = true -> gpioOk e = false ->
   eval resetThermostat e w = false /\
   isRunning (thermostatState w') = false /\
   thermostatInterval w' = None /\
   isHeating (thermostatState w') = false /\
   relayState w' = relayState w) /\
  (isHeating (thermostatState w) = false \/ gpioOk e = true ->
   eval resetThermostat e w = true /\
   isRunning (thermostatState w') = true /\
   thermostatInterval w' = Some 3000 /\
   thermostatConfig w'
   = mkConfig (c_targetTemperature (thermostatConfig w))
              (c_hysteresis (thermostatConfig w)) 3000 5 /\
   relayState w' = (if isHeating (thermostatState w) then false else relayState w)).
Proof.
  intros Run Armed. cbv zeta.
  destruct (resetThermostat_steps e w) as [E R]. cbv zeta in E, R.
  destruct (stopThermostat_running e w Run Armed) as (T & S & H & _ & Ret & Rl).
  rewrite E, R, Ret, Run. clear E R.
  split.
  - intros Heat Fail. rewrite Heat, Fail in *. cbn [andb] in Rl.
    repeat match goal with |- _ /\ _ => split end; trivial.
  - intros Ok.
    assert (Good : (if isHeating (thermostatState w) then gpioOk e else true) = true)
      by (destruct Ok as [Ok | Ok]; rewrite Ok;
          [ reflexivity | destruct (isHeating (thermostatState w)); reflexivity ]).
    rewrite Good.
    set (cleared := set_state (with_lastError None)
                      (set_state (with_consecutiveErrors 0) (exec stopThermostat e w))).
    assert (Stopped : isRunning (thermostatState cleared) = false) by exact S.
    destruct (startThermostat_stopped
                (mkPartial (Some (c_targetTemperature (thermostatConfig w)))
                           (Some (c_hysteresis (thermostatConfig w))) None None)
                e cleared Stopped) as (Ret' & Run' & T' & C' & Rl' & _).
    rewrite Ret', Run', T', C', Rl'.
    repeat match goal with |- _ /\ _ => split end; try reflexivity.
    change (relayState cleared) with (relayState (exec stopThermostat e w)).
    rewrite Rl.
    destruct (isHeating (thermostatState w)); [ | reflexivity ].
    destruct Ok as [Ok | Ok]; [ discriminate Ok | rewrite Ok; reflexivity ].
Qed.

(** Witness of X4 on the heating loop: with a relay that cannot be written
    the reset fails and leaves the loop stopped; with a working relay the
    loop runs again, relay off. *)
Lemma X4_reset_when_running_witness :
  isRunning (thermostatState heatingWorld) = true /\
  thermostatInterval heatingWorld <> None /\
  isHeating (thermostatState heatingWorld) = true /\
  (eval resetThermostat (mkEnv (Reading 19) false 32000 None None) heatingWorld = false /\
   isRunning (thermostatState
                (exec resetThermostat (mkEnv (Reading 19) false 32000 None None) heatingWorld))
   = false) /\
  (eval resetThermostat (envReading 19 32000) heatingWorld = true /\
   isRunning (thermostatState (exec resetThermostat (envReading 19 32000) heatingWorld)) = true).
Proof.
  assert (Run : isRunning (thermostatState heatingWorld) = true)
    by (vm_compute; reflexivity).
  assert (Armed : thermostatInterval heatingWorld <> None)
    by (vm_compute; discriminate).
  assert (Heat : isHeating (thermostatState heatingWorld) = true)
    by (vm_compute; reflexivity).
  destruct (X4_reset_when_running (mkEnv (Reading 19) false 32000 None None)
              heatingWorld Run Armed) as [Fail _].
  destruct (Fail Heat eq_refl) as (R1 & S1 & _).
  destruct (X4_reset_when_running (envReading 19 32000) heatingWorld Run Armed) as [_ Ok].
  destruct (Ok (or_intror eq_refl)) as (R2 & S2 & _).
  split; [ exact Run | split; [ exact Armed | split; [ exact Heat | ] ] ].
  split; [ split; [ exact R1 | exact S1 ] | split; [ exact R2 | exact S2 ] ].
Defined.

(** ** Ticks *)

(** A tick whose read succeeds leaves the error counter at 0, the reading
    in [currentTemperature] and [isHeating] equal to the state of the
    relay, whatever the relay was commanded from elsewhere and whether or
    not the control decision wrote it. *)
Theorem X5_tick_resynchronises (e : Env) (w : World) (t : Q) :
  thermostatInterval w <> None ->
  sensor e = Reading t ->
  let w' := exec tick e w in
  consecutiveErrors (thermostatState w') = 0 /\
  currentTemperature (thermostatState w') = t /\
  isHeating (thermostatState w') = relayState w'.
Proof.
  intros Armed S. cbv zeta. mrun.
  destruct (thermostatInterval w) as [p |]; [ | congruence ].
  rewrite S. wsimpl. branches;
    repeat match goal with |- _ /\ _ => split end;
    try reflexivity; congruence.
Qed.

(** The hysteresis decision acts when it may: on a running loop, 30 s or
    more after the last action, a tick that reads a temperature below the
    lower limit with the relay off writes "on", and a tick that reads a
    temperature at or above the target with the relay on writes "off".  The
    lower limit is the difference target - hysteresis as the source
    computes it, the double nearest to the exact difference: a reading
    between the two does not switch the relay on (see
    [lower_threshold_is_rounded]).  When the write succeeds the relay and [isHeating] follow and
    [lastControlAction] becomes the clock reading; when it fails they are
    unchanged, [lastError] tells which write failed, and [lastControlAction]
    is kept, so that the next tick tries again. *)
Theorem X6_tick_switches_relay (e : Env) (w : World) (t : Q) (on : bool) :
  thermostatInterval w <> None ->
  isRunning (thermostatState w) = true ->
  sensor e = Reading t ->
  minActionInterval <= now e - lastControlAction w ->
  relayState w = negb on ->
  (if on
   then t < fsub (c_targetTemperature (thermostatConfig w)) (c_hysteresis (thermostatConfig w))
   else c_targetTemperature (thermostatConfig w) <= t)%Q ->
  let w' := exec tick e w in
  emitted tick e w = [(now e, RelayWrite on (gpioOk e))] /\
  (gpioOk e = true ->
   relayState w' = on /\ isHeating (thermostatState w') = on /\
   lastControlAction w' = now e /\
   lastError (thermostatState w') = lastError (thermostatState w)) /\
  (gpioOk e = false ->
   relayState w' = negb on /\ isHeating (thermostatState w') = negb on /\
   lastControlAction w' = lastControlAction w /\
   lastError (thermostatState w') = Some (if on then TurnOnFailed else TurnOffFailed)).
Proof.
  intros Armed Run S G Rl Cond. cbv zeta.
  apply Z.ltb_ge in G.
  destruct (thermostatInterval w) as [p |] eqn:T; [ clear Armed | congruence ].
  destruct on; cbn [negb] in Rl;
    [ apply Qltb_lt in Cond | apply Qgeb_ge in Cond ];
    destruct (gpioOk e) eqn:K;
    (split; [ apply emitted_prefix with (evs := [(now e, RelayWrite _ _)]) | split; intro; try discriminate ];
     mrun; rewrite T, S; wsimpl; rewrite Run; wsimpl; rewrite G, Rl; wsimpl;
     rewrite Cond; wsimpl; rewrite K; wsimpl;
     repeat match goal with |- _ /\ _ => split end;
     try reflexivity; exact Rl).
Qed.

(** The safety shutdown through the timer callback.  When the counter
    before a failed read is exactly two below the limit, handleSensorError
    leaves the loop running and the callback's own count reaches the limit:
    the handlers are notified once and stopThermostat() runs, so the timer
    is cancelled, the loop stopped, and the relay written off if the loop
    was heating. *)
Theorem X7_failed_tick_stops_through_callback (e : Env) (w : World) (m : string) :
  thermostatInterval w <> None ->
  isRunning (thermostatState w) = true ->
  sensor e = SensorError m ->
  maxConsecutiveErrors (thermostatConfig w) = consecutiveErrors (thermostatState w) + 2 ->
  let w' := exec tick e w in
  isRunning (thermostatState w') = false /\
  thermostatInterval w' = None /\
  isHeating (thermostatState w') = false /\
  consecutiveErrors (thermostatState w') = maxConsecutiveErrors (thermostatConfig w) /\
  relayWrites (emitted tick e w)
  = (if isHeating (thermostatState w) then [(now e, RelayWrite false (gpioOk e))] else []) /\
  relayState w'
  = (if isHeating (thermostatState w) && gpioOk e then false else relayState w).
Proof.
  intros Armed Run S Max. cbv zeta.
  destruct (thermostatInterval w) as [p |] eqn:T; [ clear Armed | congruence ].
  assert (T1 : (maxConsecutiveErrors (thermostatConfig w)
                <=? consecutiveErrors (thermostatState w) + 1) = false)
    by (apply Z.leb_gt; lia).
  assert (T2 : (maxConsecutiveErrors (thermostatConfig w)
                <=? consecutiveErrors (thermostatState w) + 1 + 1) = true)
    by (apply Z.leb_le; lia).
  assert (Ev : exists l, trace (exec tick e w) = l ++ trace w /\
                         relayWrites l
                         = (if isHeating (thermostatState w)
                            then [(now e, RelayWrite false (gpioOk e))] else [])).
  { mrun. rewrite T, S. wsimpl. rewrite T1. wsimpl. rewrite T2. wsimpl.
    rewrite callHandlers_run. wsimpl. rewrite Run, T, isMode_off. wsimpl.
    destruct (isHeating (thermostatState w)) eqn:H, (gpioOk e) eqn:K; wsimpl;
      branches; trace_prefix_and; cbn [relayWrites app];
      rewrite ?relayWrites_app, ?relayWrites_handlerEvents; reflexivity. }
  destruct Ev as (l & L & W).
  rewrite (emitted_prefix _ e w l L). clear L.
  mrun. rewrite T, S. wsimpl. rewrite T1. wsimpl. rewrite T2. wsimpl.
  rewrite callHandlers_run. wsimpl. rewrite Run, T, isMode_off. wsimpl.
  destruct (isHeating (thermostatState w)) eqn:H, (gpioOk e) eqn:K; wsimpl;
    branches; repeat match goal with |- _ /\ _ => split end;
    try reflexivity; try exact W; try exact H; lia.
Qed.

Lemma X5_tick_resynchronises_witness :
  thermostatInterval heatingWorld <> None /\
  sensor (envReading 21 34000) = Reading 21 /\
  isHeating (thermostatState (exec tick (envReading 21 34000) heatingWorld))
  = relayState (exec tick (envReading 21 34000) heatingWorld).
Proof.
  assert (Armed : thermostatInterval heatingWorld <> None)
    by (vm_compute; discriminate).
  destruct (X5_tick_resynchronises (envReading 21 34000) heatingWorld 21 Armed eq_refl)
    as (_ & _ & Sync).
  split; [ exact Armed | split; [ reflexivity | exact Sync ] ].
Defined.

(** Witness of X6: the first tick of the started loop, at 19 degrees. *)
Lemma X6_tick_switches_relay_witness :
  thermostatInterval idleWorld <> None /\
  isRunning (thermostatState idleWorld) = true /\
  minActionInterval <= now (envReading 19 31000) - lastControlAction idleWorld /\
  relayState idleWorld = negb true /\
  (19 < fsub (c_targetTemperature (thermostatConfig idleWorld))
             (c_hysteresis (thermostatConfig idleWorld)))%Q /\
  emitted tick (envReading 19 31000) idleWorld = [(31000, RelayWrite true true)].
Proof.
  assert (Armed : thermostatInterval idleWorld <> None) by (vm_compute; discriminate).
  assert (Run : isRunning (thermostatState idleWorld) = true) by (vm_compute; reflexivity).
  assert (G : minActionInterval <= now (envReading 19 31000) - lastControlAction idleWorld)
    by (vm_compute; discriminate).
  assert (Rl : relayState idleWorld = negb true) by (vm_compute; reflexivity).
  assert (Cond : (19 < fsub (c_targetTemperature (thermostatConfig idleWorld))
                            (c_hysteresis (thermostatConfig idleWorld)))%Q)
    by (vm_compute; reflexivity).
  destruct (X6_tick_switches_relay (envReading 19 31000) idleWorld 19 true
              Armed Run eq_refl G Rl Cond) as (Ev & _).
  repeat match goal with |- _ /\ _ => split end; assumption.
Defined.

(** Witness of X7: with an error counter of 3 and the limit of 5, the next
    failed read stops the loop and switches the relay off. *)
Lemma X7_failed_tick_stops_through_callback_witness :
  thermostatInterval threeErrorsWorld <> None /\
  isRunning (thermostatState threeErrorsWorld) = true /\
  consecutiveErrors (thermostatState threeErrorsWorld) = 3 /\
  maxConsecutiveErrors (thermostatConfig threeErrorsWorld) = 5 /\
  relayState threeErrorsWorld = true /\
  isRunning (thermostatState (exec tick (envSensorDown 40000) threeErrorsWorld)) = false /\
  relayState (exec tick (envSensorDown 40000) threeErrorsWorld) = false.
Proof.
  assert (Armed : thermostatInterval threeErrorsWorld <> None)
    by (vm_compute; discriminate).
  assert (Run : isRunning (thermostatState threeErrorsWorld) = true)
    by (vm_compute; reflexivity).
  assert (Cnt : consecutiveErrors (thermostatState threeErrorsWorld) = 3)
    by (vm_compute; reflexivity).
  assert (Max : maxConsecutiveErrors (thermostatConfig threeErrorsWorld) = 5)
    by (vm_compute; reflexivity).
  assert (Heat : isHeating (thermostatState threeErrorsWorld)
                 && gpioOk (envSensorDown 40000) = true)
    by (vm_compute; reflexivity).
  assert (Max' : maxConsecutiveErrors (thermostatConfig threeErrorsWorld)
                 = consecutiveErrors (thermostatState threeErrorsWorld) + 2)
    by (rewrite Max, Cnt; reflexivity).
  destruct (X7_failed_tick_stops_through_callback (envSensorDown 40000) threeErrorsWorld _
              Armed Run eq_refl Max') as (Stopped & _ & _ & _ & _ & Rl).
  rewrite Heat in Rl.
  assert (On : relayState threeErrorsWorld = true) by (vm_compute; reflexivity).
  repeat match goal with |- _ /\ _ => split end; assumption.
Defined.

(** * Invariants of the reachable states *)

(** In every reachable state the loop is running exactly when its interval
    timer is armed: no timer is left behind by a stop or a safety shutdown,
    and a running loop always has one. *)
Theorem X8_running_iff_timer_armed (w : World) :
  reachable w ->
  (isRunning (thermostatState w) = true <-> thermostatInterval w <> None).
Proof.
  intro R. pose proof (reachable_runningIffArmed w R) as H.
  unfold runningIffArmed, armed in H. rewrite H.
  destruct (thermostatInterval w); split; congruence.
Qed.

Lemma X8_running_iff_timer_armed_witness :
  reachable (run faultOps (initialWorld 0)) /\
  (isRunning (thermostatState (run faultOps (initialWorld 0))) = true
   <-> thermostatInterval (run faultOps (initialWorld 0)) <> None).
Proof.
  assert (R : reachable (run faultOps (initialWorld 0)))
    by (exists 0, faultOps; reflexivity).
  split; [ exact R | exact (X8_running_iff_timer_armed _ R) ].
Defined.

(** ** The bridge *)

Lemma liveClients_app (a b : list (Z * Event)) :
  liveClients (a ++ b) = liveClients a + liveClients b.
Proof.
  induction a as [| [t ev] a IH]; cbn [app liveClients]; trivial.
  destruct ev; rewrite IH; lia.
Qed.

Lemma liveClients_handlerEvents (hs : list nat) (msg : CritMsg) (t : Z) (tr : list (Z * Event)) :
  liveClients (handlerEvents hs msg t ++ tr) = liveClients tr.
Proof.
  rewrite liveClients_app.
  assert (E : liveClients (handlerEvents hs msg t) = 0).
  { unfold handlerEvents.
    induction hs as [| h hs IH]; cbn [map rev]; trivial.
    rewrite liveClients_app, IH. reflexivity. }
  rewrite E. reflexivity.
Qed.

Lemma sameBridge_refl (w : World) : sameBridge w w.
Proof. repeat split. Qed.

Lemma sameBridge_trans (w1 w2 w3 : World) :
  sameBridge w1 w2 -> sameBridge w2 w3 -> sameBridge w1 w3.
Proof.
  intros (A & B & C & D) (A' & B' & C' & D'). repeat split; congruence.
Qed.

Ltac bsolve :=
  unfold sameBridge; wsimpl; branches;
  repeat match goal with |- _ /\ _ => split end;
  cbn [liveClients]; rewrite ?liveClients_handlerEvents;
  cbn [liveClients]; rewrite ?liveClients_handlerEvents;
  reflexivity.

Lemma sameBridge_updateCurrentState (e : Env) (w : World) :
  sameBridge w (exec updateCurrentState e w).
Proof. mrun. bsolve. Qed.

Lemma sameBridge_controlHeating (e : Env) (w : World) :
  sameBridge w (exec controlHeating e w).
Proof. mrun. bsolve. Qed.

Lemma sameBridge_stopThermostat (e : Env) (w : World) :
  sameBridge w (exec stopThermostat e w).
Proof. mrun. rewrite isMode_off. bsolve. Qed.

Lemma sameBridge_startThermostat (config : PartialConfig) (e : Env) (w : World) :
  sameBridge w (exec (startThermostat config) e w).
Proof. mrun. rewrite isMode_heat. bsolve. Qed.

Lemma sameBridge_tick (e : Env) (w : World) :
  sameBridge w (exec tick e w).
Proof. mrun. rewrite ?isMode_off. bsolve. Qed.

Lemma sameBridge_publishMessage (t : Topic) (v : PayloadValue) (e : Env) (w : World) :
  sameBridge w (exec (publishMessage t v) e w).
Proof. mrun. bsolve. Qed.

Lemma sameBridge_setTargetTemperature (t : Q) (e : Env) (w : World) :
  sameBridge w (exec (setTargetTemperature t) e w).
Proof.
  destruct (validateTemperatureValue t) eqn:V.
  - destruct (dbError e) eqn:D.
    + mrun. rewrite V. wsimpl. rewrite D. bsolve.
    + destruct (setTargetTemperature_stored t e w V D) as [_ E]. rewrite E.
      assert (H0 : sameBridge w (targetStored t e w)) by (repeat split).
      assert (H1 : sameBridge w
                     (if isRunning (thermostatState w)
                      then exec controlHeating e (exec updateCurrentState e (targetStored t e w))
                      else targetStored t e w)).
      { destruct (isRunning (thermostatState w)); trivial.
        eapply sameBridge_trans; [ exact H0 | ].
        eapply sameBridge_trans;
          [ apply sameBridge_updateCurrentState | apply sameBridge_controlHeating ]. }
      eapply sameBridge_trans; [ exact H1 | ].
      unfold publishSetpointUpdate. rewrite exec_bind.
      change (exec get e ?x) with x. cbv beta.
      match goal with |- context [eval get e ?x] => change (eval get e x) with x end.
      destruct (isConnected _);
        [ apply sameBridge_publishMessage | apply sameBridge_refl ].
  - mrun. rewrite V. bsolve.
Qed.

Lemma sameBridge_resetThermostat (e : Env) (w : World) :
  sameBridge w (exec resetThermostat e w).
Proof.
  destruct (resetThermostat_steps e w) as [E _]. cbv zeta in E. rewrite E.
  pose proof (sameBridge_stopThermostat e w) as S.
  destruct (eval stopThermostat e w); trivial.
  set (cleared := set_state _ (set_state _ (exec stopThermostat e w))).
  assert (C : sameBridge w cleared) by exact S.
  destruct (isRunning (thermostatState w)); trivial.
  eapply sameBridge_trans; [ exact C | apply sameBridge_startThermostat ].
Qed.

Lemma sameBridge_onMessage (topic : Topic) (message : option Json) (e : Env) (w : World) :
  sameBridge w (exec (onMessage topic message) e w).
Proof.
  destruct topic; try apply sameBridge_refl;
    cbv [onMessage handleSetpointCommand handleRelayCommand handleModeCommand];
    destruct (parseJsonPayload message _) as [payload |]; try apply sameBridge_refl;
    destruct (valueOf payload) as [[ | b | q | s | l | l ] |]; try apply sameBridge_refl.
  - rewrite exec_bind.
    pose proof (sameBridge_setTargetTemperature q e w) as H1.
    destruct (eval (setTargetTemperature q) e w); trivial.
    eapply sameBridge_trans; [ exact H1 | apply sameBridge_publishMessage ].
  - rewrite exec_bind.
    eapply sameBridge_trans; [ | apply sameBridge_publishMessage ].
    destruct b; mrun; bsolve.
  - destruct (isMode s); cbn [negb]; try apply sameBridge_refl.
    rewrite exec_bind.
    eapply sameBridge_trans; [ | apply sameBridge_publishMessage ].
    destruct (String.eqb s "heat").
    + rewrite exec_bind. apply sameBridge_startThermostat.
    + destruct (String.eqb s "off"); [ | apply sameBridge_refl ].
      rewrite exec_bind. apply sameBridge_stopThermostat.
Qed.

Lemma bridgeInv_sameBridge (w w' : World) :
  sameBridge w w' -> bridgeInv w -> bridgeInv w'.
Proof.
  intros (S & K & _). unfold bridgeInv. rewrite S, K. trivial.
Qed.

(** What a 'connect' event leaves in the variables of the bridge. *)
Lemma onConnect_bridge (e : Env) (w : World) :
  let w' := exec (clientEvent EvConnect) e w in
  reconnectAttempts (serviceState w') = 0 /\
  maxReconnectAttempts (serviceState w') = maxReconnectAttempts (serviceState w) /\
  isEnabled (serviceState w') = isEnabled (serviceState w) /\
  isConnected (serviceState w') = true /\
  mqtt_lastError (serviceState w') = None /\
  lastPublishTime (serviceState w') = Some (now e) /\
  mqttClient w' = mqttClient w /\
  publishInterval w' = true /\
  liveClients (trace w') = liveClients (trace w).
Proof.
  destruct w as [st cfg ti lca hs rs [conn en lpt le ra mx] cl pi tr].
  destruct e as [sn g n d c].
  destruct cl, pi; vm_compute; repeat split; reflexivity.
Qed.

(** What stopMqtt() leaves in the variables of the bridge, and what it
    does to the outside world. *)
Lemma stopMqtt_bridge (e : Env) (w : World) :
  let w' := exec stopMqtt e w in
  isEnabled (serviceState w') = false /\
  publishInterval w' = false /\
  mqttClient w' = false /\
  isConnected (serviceState w') = false /\
  lastPublishTime (serviceState w') = None /\
  reconnectAttempts (serviceState w') = 0 /\
  maxReconnectAttempts (serviceState w') = maxReconnectAttempts (serviceState w) /\
  mqtt_lastError (serviceState w') = mqtt_lastError (serviceState w) /\
  trace w'
  = (if mqttClient w
     then [(now e, ClientEnded)]
          ++ (if isConnected (serviceState w)
              then [(now e, Published T_online (PBool false))] else [])
     else [])
    ++ (if publishInterval w then [(now e, PublishTimerCleared)] else [])
    ++ trace w.
Proof.
  destruct w as [st cfg ti lca hs rs [conn en lpt le ra mx] cl pi tr].
  destruct e as [sn g n d c].
  destruct cl, pi, conn; vm_compute; repeat split; reflexivity.
Qed.

Ltac binv :=
  unfold bridgeInv;
  repeat match goal with |- _ /\ _ => split end;
  trivial; try lia; try discriminate; try congruence; auto.

Lemma bridgeInv_clientEvent (ev : ClientEvent) (e : Env) (w : World) :
  bridgeInv w -> bridgeInv (exec (clientEvent ev) e w).
Proof.
  intros (Mx & Cnt & En).
  destruct ev.
  - destruct (onConnect_bridge e w) as (A & M & En' & _ & _ & _ & K' & _).
    unfold bridgeInv. rewrite A, M, En', K'. binv.
  - unfold bridgeInv. mrun_bridge. wsimpl. binv.
  - unfold bridgeInv. mrun_bridge. wsimpl. binv.
  - change (exec (clientEvent EvReconnect) e w) with (exec onReconnect e w).
    unfold onReconnect. rewrite exec_bind.
    set (w1 := exec (modify _) e w).
    assert (M1 : maxReconnectAttempts (serviceState w1) = 10) by exact Mx.
    assert (A1 : reconnectAttempts (serviceState w1) = reconnectAttempts (serviceState w) + 1)
      by reflexivity.
    assert (E1 : isEnabled (serviceState w1) = true -> mqttClient w1 = true) by exact En.
    rewrite exec_bind. change (exec get e w1) with w1. change (eval get e w1) with w1.
    cbv beta. rewrite M1, A1.
    destruct (10 <=? reconnectAttempts (serviceState w) + 1) eqn:T; zb.
    + destruct (stopMqtt_bridge e w1) as (En' & _ & K' & _ & _ & A' & M' & _).
      unfold bridgeInv. rewrite En', K', A', M', M1. binv.
    + unfold bridgeInv. rewrite exec_ret, M1, A1. binv.
  - unfold bridgeInv. mrun_bridge. wsimpl. binv.
Qed.

Lemma bridgeInv_bridge_ops (e : Env) (w : World) :
  bridgeInv w ->
  bridgeInv (exec publishTick e w) /\
  bridgeInv (exec initializeMqtt e w) /\
  bridgeInv (exec stopMqtt e w) /\
  bridgeInv (exec restartMqtt e w) /\
  (forall error, bridgeInv (exec (onCompletion error) e w)).
Proof.
  intros (Mx & Cnt & En).
  assert (Stop : bridgeInv (exec stopMqtt e w)).
  { destruct (stopMqtt_bridge e w) as (En' & _ & K' & _ & _ & A' & M' & _).
    unfold bridgeInv. rewrite En', K', A', M', Mx. binv. }
  split; [ | split; [ | split; [ | split ] ] ].
  - unfold bridgeInv. mrun_bridge. branches; binv.
  - unfold bridgeInv. mrun_bridge. destruct (connectError e); wsimpl; binv.
  - exact Stop.
  - unfold restartMqtt. rewrite exec_bind. exact Stop.
  - intros [m |]; unfold bridgeInv; mrun_bridge; wsimpl; binv.
Qed.

Lemma bridgeInv_step (op : Op) (e : Env) (w : World) :
  bridgeInv w -> bridgeInv (exec (step op) e w).
Proof.
  intro H. destruct op; cbn [step]; rewrite ?exec_bind, ?exec_ret.
  - exact H.
  - exact H.
  - exact (bridgeInv_sameBridge _ _ (sameBridge_startThermostat config e w) H).
  - exact (bridgeInv_sameBridge _ _ (sameBridge_stopThermostat e w) H).
  - exact (bridgeInv_sameBridge _ _ (sameBridge_setTargetTemperature temperature e w) H).
  - mrun. branches; exact H.
  - exact (bridgeInv_sameBridge _ _ (sameBridge_resetThermostat e w) H).
  - exact (bridgeInv_sameBridge _ _ (sameBridge_tick e w) H).
  - apply (bridgeInv_bridge_ops e w H).
  - apply (bridgeInv_bridge_ops e w H).
  - apply bridgeInv_clientEvent, H.
  - apply (bridgeInv_bridge_ops e w H).
  - exact (bridgeInv_sameBridge _ _ (sameBridge_onMessage topic message e w) H).
  - apply (bridgeInv_bridge_ops e w H).
  - apply (bridgeInv_bridge_ops e w H).
Qed.

(** In every reachable state, whichever events the clients have emitted,
    the reconnection counter is below the limit of 10 (reaching it stops the
    bridge and resets the counter) and an enabled bridge holds a client.
    The connection flag and the publish timer do not depend on the client in
    that way: after initializeMqtt() was called twice, stopMqtt() ends the
    second client only, and a 'connect' event of the first one leaves the
    bridge connected, with its publish timer armed, while [mqttClient] is
    null. *)
Theorem X9_bridge_invariant :
  (forall w, reachable w ->
     maxReconnectAttempts (serviceState w) = 10 /\
     0 <= reconnectAttempts (serviceState w) < 10 /\
     (isEnabled (serviceState w) = true -> mqttClient w = true)) /\
  (exists w, reachable w /\
     mqttClient w = false /\
     isConnected (serviceState w) = true /\
     publishInterval w = true).
Proof.
  split.
  - intros w (t0 & ops & ->).
    assert (G : forall w0, bridgeInv w0 -> bridgeInv (run ops w0)).
    { induction ops as [| [op e] ops IH]; intros w0 H0; cbn [run]; trivial.
      apply IH, bridgeInv_step, H0. }
    apply G. unfold bridgeInv. cbn. repeat split; try lia; discriminate.
  - exists (run replacedClientOps (initialWorld 0)).
    split; [ exists 0, replacedClientOps; reflexivity | ].
    repeat split; vm_compute; reflexivity.
Qed.

(** Witness of X9: after ten reconnection attempts the bridge has stopped
    itself and the counter is back at 0. *)
Lemma X9_bridge_invariant_witness :
  reachable (run bridgeOps (initialWorld 0)) /\
  reconnectAttempts (serviceState (run bridgeOps (initialWorld 0))) = 0 /\
  isEnabled (serviceState (run bridgeOps (initialWorld 0))) = false /\
  0 <= reconnectAttempts (serviceState (run bridgeOps (initialWorld 0))) < 10.
Proof.
  assert (R : reachable (run bridgeOps (initialWorld 0)))
    by (exists 0, bridgeOps; reflexivity).
  destruct (proj1 X9_bridge_invariant _ R) as (_ & Cnt & _).
  split; [ exact R | ].
  split; [ vm_compute; reflexivity | ].
  split; [ vm_compute; reflexivity | exact Cnt ].
Defined.

(** ** The limit of the reconnection attempts *)






(** * Further properties of the command handlers *)

(** A message is dropped without any effect unless it is a JSON object
    whose [value] has the type its topic asks for: a number on the setpoint
    topic, a boolean on the relay topic, "heat" or "off" on the mode topic.
    A text that cannot be parsed, a JSON value that is not an object, an
    object without [value], a [value] of another type and a message on any
    other topic all leave every variable as it was. *)
Theorem X10_malformed_message_dropped
    (topic : Topic) (message : option Json) (e : Env) (w : World) :
  (forall fields, message = Some (JObj fields) ->
     match topic, lookupField "value" fields with
     | T_setpointSet, Some (JNum _) => False
     | T_relaySet, Some (JBool _) => False
     | T_modeSet, Some (JStr s) => isMode s = false
     | _, _ => True
     end) ->
  exec (onMessage topic message) e w = w.
Proof.
  intro Bad.
  destruct topic; try reflexivity;
    cbv [onMessage handleSetpointCommand handleRelayCommand handleModeCommand];
    (destruct message as [[ | b | q | s | l | fields ] |];
     [ reflexivity | reflexivity | reflexivity | reflexivity | reflexivity
     | specialize (Bad fields eq_refl); cbn beta iota in Bad | reflexivity ]);
    unfold parseJsonPayload, checkFields, inOperator;
    (destruct (lookupField "value" fields) as [v |] eqn:V; [ | reflexivity ]);
    unfold valueOf; rewrite V;
    destruct v; try reflexivity; try contradiction.
  rewrite Bad. reflexivity.
Qed.

Lemma X10_malformed_message_dropped_witness :
  (forall fields, Some (JObj [("value"%string, JStr "25")]) = Some (JObj fields) ->
     match T_setpointSet, lookupField "value" fields with
     | T_setpointSet, Some (JNum _) => False
     | T_relaySet, Some (JBool _) => False
     | T_modeSet, Some (JStr s) => isMode s = false
     | _, _ => True
     end) /\
  exec (onMessage T_setpointSet (Some (JObj [("value"%string, JStr "25")])))
       (envReading 19 2000) idleWorld = idleWorld.
Proof.
  assert (Bad : forall fields,
             Some (JObj [("value"%string, JStr "25")]) = Some (JObj fields) ->
             match T_setpointSet, lookupField "value" fields with
             | T_setpointSet, Some (JNum _) => False
             | T_relaySet, Some (JBool _) => False
             | T_modeSet, Some (JStr s) => isMode s = false
             | _, _ => True
             end).
  { intros fields E. injection E as <-. exact I. }
  split; [ exact Bad | ].
  exact (X10_malformed_message_dropped T_setpointSet _ (envReading 19 2000) idleWorld Bad).
Defined.

(** handleSetpointCommand with a numeric [value] is setTargetTemperature
    followed, on success, by one more publication of the value. *)
Lemma handleSetpointCommand_number
    (fields : list (string * Json)) (v : Q) (e : Env) (w : World) :
  lookupField "value" fields = Some (JNum v) ->
  exec (handleSetpointCommand (Some (JObj fields))) e w
  = (if eval (setTargetTemperature v) e w
     then exec (publishMessage T_setpoint (PNum v)) e (exec (setTargetTemperature v) e w)
     else exec (setTargetTemperature v) e w).
Proof.
  intro V.
  unfold handleSetpointCommand, parseJsonPayload, checkFields, inOperator.
  rewrite V. unfold valueOf. rewrite V. rewrite exec_bind.
  destruct (eval (setTargetTemperature v) e w); reflexivity.
Qed.

(** A setpoint command [{value: v}] with v in [5,30] (and a store that
    accepts the write) sets the target to v in the state and in the
    configuration and, when the bridge is connected, ends with a
    publication of v on the setpoint topic, at once and outside the
    periodic publication.  With v outside [5,30] the target is unchanged,
    only [lastError] is set and nothing is published. *)
Theorem X11_setpoint_command
    (fields : list (string * Json)) (v : Q) (e : Env) (w : World) :
  lookupField "value" fields = Some (JNum v) ->
  let w' := exec (handleSetpointCommand (Some (JObj fields))) e w in
  ((5 <= v /\ v <= 30)%Q -> dbError e = None ->
   targetTemperature (thermostatState w') = v /\
   c_targetTemperature (thermostatConfig w') = v /\
   (mqttClient w = true -> isConnected (serviceState w) = true ->
    hd_error (trace w') = Some (now e, Published T_setpoint (PNum v)))) /\
  (~ (5 <= v /\ v <= 30)%Q ->
   w' = set_state (with_lastError (Some (TargetOutOfRange v))) w).
Proof.
  intro V. cbv zeta. rewrite (handleSetpointCommand_number fields v e w V).
  split.
  - intros In D. apply validateTemperatureValue_spec in In.
    destruct (setTargetTemperature_stored v e w In D) as [Ret E].
    rewrite Ret.
    set (w0 := targetStored v e w) in *.
    set (w2 := if isRunning (thermostatState w)
               then exec controlHeating e (exec updateCurrentState e w0) else w0) in *.
    assert (F : targetTemperature (thermostatState w2) = v /\
                c_targetTemperature (thermostatConfig w2) = v).
    { subst w2. destruct (isRunning (thermostatState w)).
      - destruct (updateCurrentState_frame e w0) as (T1 & C1 & _).
        destruct (controlHeating_frame e (exec updateCurrentState e w0)) as (T2 & C2 & _).
        rewrite T2, T1, C2, C1. split; reflexivity.
      - split; reflexivity. }
    destruct F as [T C].
    destruct (publishSetpointUpdate_frame v e w2) as (S3 & C3 & _).
    pose proof (sameBridge_setTargetTemperature v e w) as (Sv & K & _).
    assert (Frame : forall w1 : World,
               thermostatState (exec (publishMessage T_setpoint (PNum v)) e w1)
               = thermostatState w1 /\
               thermostatConfig (exec (publishMessage T_setpoint (PNum v)) e w1)
               = thermostatConfig w1).
    { intro w1. mrun. branches; split; reflexivity. }
    destruct (Frame (exec (setTargetTemperature v) e w)) as [Fs Fc].
    rewrite Fs, Fc, E, S3, C3.
    split; [ exact T | split; [ exact C | ] ].
    intros Kw Cw. rewrite <- E. rewrite <- K in Kw. rewrite <- Sv in Cw.
    generalize dependent (exec (setTargetTemperature v) e w). intros w1 _ _ _ _ _ Kw Cw.
    mrun. rewrite Kw, Cw. reflexivity.
  - intro Out.
    assert (Vf : validateTemperatureValue v = false).
    { destruct (validateTemperatureValue v) eqn:Vv; trivial.
      apply validateTemperatureValue_spec in Vv. contradiction. }
    mrun. rewrite Vf. reflexivity.
Qed.

(** Witness of X11, the scenario of the specification: [{value: 24}] on
    the connected bridge. *)
Lemma X11_setpoint_command_witness :
  lookupField "value" [("value"%string, JNum 24)] = Some (JNum 24) /\
  (5 <= 24 /\ 24 <= 30)%Q /\
  mqttClient connectedWorld = true /\
  isConnected (serviceState connectedWorld) = true /\
  targetTemperature
    (thermostatState
       (exec (handleSetpointCommand (Some (JObj [("value"%string, JNum 24)])))
             (envReading 21 5000) connectedWorld)) = 24%Q /\
  hd_error
    (trace (exec (handleSetpointCommand (Some (JObj [("value"%string, JNum 24)])))
                 (envReading 21 5000) connectedWorld))
  = Some (5000, Published T_setpoint (PNum 24)).
Proof.
  assert (V : lookupField "value" [("value"%string, JNum 24)] = Some (JNum 24))
    by reflexivity.
  assert (In : (5 <= 24 /\ 24 <= 30)%Q) by (split; vm_compute; discriminate).
  assert (K : mqttClient connectedWorld = true) by (vm_compute; reflexivity).
  assert (C : isConnected (serviceState connectedWorld) = true) by (vm_compute; reflexivity).
  destruct (X11_setpoint_command _ 24 (envReading 21 5000) connectedWorld V) as [Ok _].
  destruct (Ok In eq_refl) as (T & _ & P).
  repeat match goal with |- _ /\ _ => split end; try assumption; try apply In.
  exact (P K C).
Defined.

(** handleModeCommand with "heat" and with "off". *)
Lemma handleModeCommand_steps (fields : list (string * Json)) (e : Env) (w : World) :
  (lookupField "value" fields = Some (JStr "heat") ->
   exec (handleModeCommand (Some (JObj fields))) e w
   = exec (publishMessage T_mode (PStr "heat")) e (exec (startThermostat noConfig) e w)) /\
  (lookupField "value" fields = Some (JStr "off") ->
   exec (handleModeCommand (Some (JObj fields))) e w
   = exec (publishMessage T_mode (PStr "off")) e (exec stopThermostat e w)).
Proof.
  split; intro V;
    unfold handleModeCommand, parseJsonPayload, checkFields, inOperator;
    rewrite V; unfold valueOf; rewrite V; cbn [isMode String.eqb Ascii.eqb Bool.eqb orb negb];
    rewrite !exec_bind; reflexivity.
Qed.

Lemma publishMessage_loop_frame (t : Topic) (v : PayloadValue) (e : Env) (w : World) :
  thermostatState (exec (publishMessage t v) e w) = thermostatState w /\
  thermostatConfig (exec (publishMessage t v) e w) = thermostatConfig w /\
  thermostatInterval (exec (publishMessage t v) e w) = thermostatInterval w /\
  relayState (exec (publishMessage t v) e w) = relayState w.
Proof. mrun. branches; repeat split; reflexivity. Qed.

(** A mode command "heat" always leaves the loop running, and always
    leaves the configuration that the control decision reads at the defaults
    (target 22, hysteresis 1.5), whatever setpoint had been set before; the
    target of the state, which is the one published, is not changed.  A
    mode command "off" leaves the loop stopped and not heating (in a state
    where the loop runs exactly when its timer is armed, as every reachable
    state is). *)
Theorem X12_mode_command (fields : list (string * Json)) (e : Env) (w : World) :
  (lookupField "value" fields = Some (JStr "heat") ->
   let w' := exec (handleModeCommand (Some (JObj fields))) e w in
   isRunning (thermostatState w') = true /\
   thermostatConfig w' = DEFAULT_CONFIG /\
   targetTemperature (thermostatState w') = targetTemperature (thermostatState w)) /\
  (lookupField "value" fields = Some (JStr "off") ->
   runningIffArmed w ->
   let w' := exec (handleModeCommand (Some (JObj fields))) e w in
   isRunning (thermostatState w') = false /\
   thermostatInterval w' = None /\
   (isRunning (thermostatState w) = true -> isHeating (thermostatState w') = false)).
Proof.
  destruct (handleModeCommand_steps fields e w) as [Heat Off]. split.
  - intro V. cbv zeta. rewrite (Heat V).
    destruct (publishMessage_loop_frame T_mode (PStr "heat") e
                (exec (startThermostat noConfig) e w)) as (S & C & _).
    rewrite S, C.
    destruct (isRunning (thermostatState w)) eqn:Run.
    + mrun. wsimpl. rewrite Run. repeat split; trivial.
    + destruct (startThermostat_stopped noConfig e w Run)
        as (_ & R & _ & Cf & _ & _ & T & _).
      rewrite R, Cf, T. repeat split.
  - intros V J. cbv zeta. rewrite (Off V).
    destruct (publishMessage_loop_frame T_mode (PStr "off") e (exec stopThermostat e w))
      as (S & _ & T & _).
    rewrite S, T.
    destruct (isRunning (thermostatState w)) eqn:Run.
    + assert (Armed : thermostatInterval w <> None).
      { unfold runningIffArmed, armed in J. rewrite Run in J.
        destruct (thermostatInterval w); congruence. }
      destruct (stopThermostat_running e w Run Armed) as (T' & R' & H' & _).
      rewrite T', R', H'. repeat split.
    + destruct (stopThermostat_not_running e w Run) as [E _]. rewrite E.
      unfold runningIffArmed, armed in J. rewrite Run in J.
      destruct (thermostatInterval w); [ discriminate J | ].
      split; [ exact Run | split; [ reflexivity | discriminate ] ].
Qed.

(** Witness of X12: after the setpoint was raised to 25 on the running
    loop, a mode command "heat" puts the configured target back to 22 while
    the state still shows 25. *)
Lemma X12_mode_command_witness :
  lookupField "value" [("value"%string, JStr "heat")] = Some (JStr "heat") /\
  c_targetTemperature (thermostatConfig retargetedWorld) = 25%Q /\
  targetTemperature (thermostatState retargetedWorld) = 25%Q /\
  c_targetTemperature
    (thermostatConfig
       (exec (handleModeCommand (Some (JObj [("value"%string, JStr "heat")])))
             (envReading 21 3000) retargetedWorld)) = 22%Q /\
  targetTemperature
    (thermostatState
       (exec (handleModeCommand (Some (JObj [("value"%string, JStr "heat")])))
             (envReading 21 3000) retargetedWorld)) = 25%Q.
Proof.
  assert (V : lookupField "value" [("value"%string, JStr "heat")] = Some (JStr "heat"))
    by reflexivity.
  assert (C0 : c_targetTemperature (thermostatConfig retargetedWorld) = 25%Q)
    by (vm_compute; reflexivity).
  assert (T0 : targetTemperature (thermostatState retargetedWorld) = 25%Q)
    by (vm_compute; reflexivity).
  destruct (X12_mode_command [("value"%string, JStr "heat")]
              (envReading 21 3000) retargetedWorld) as [Heat _].
  destruct (Heat V) as (_ & C & T).
  rewrite C, T.
  split; [ exact V | split; [ exact C0 | split; [ exact T0 | split; [ reflexivity | exact T0 ] ] ] ].
Defined.

(** ** Stopping twice, toggling twice *)

(** stopThermostat() and stopMqtt() are idempotent: a second call right
    after a first one changes nothing (no relay write, no timer operation,
    no publication) and, for stopThermostat(), returns true. *)
Theorem X13_stop_is_idempotent (e1 e2 : Env) (w : World) :
  exec stopThermostat e2 (exec stopThermostat e1 w) = exec stopThermostat e1 w /\
  eval stopThermostat e2 (exec stopThermostat e1 w) = true /\
  exec stopMqtt e2 (exec stopMqtt e1 w) = exec stopMqtt e1 w.
Proof.
  split; [ | split ].
  - destruct (isRunning (thermostatState w)) eqn:Run.
    + destruct (thermostatInterval w) as [p |] eqn:T.
      * assert (Armed : thermostatInterval w <> None) by congruence.
        destruct (stopThermostat_running e1 w Run Armed) as (_ & R & _).
        exact (proj1 (stopThermostat_not_running e2 _ R)).
      * assert (E : exec stopThermostat e1 w = w) by (mrun; rewrite Run, T; reflexivity).
        rewrite E. mrun. rewrite Run, T. reflexivity.
    + destruct (stopThermostat_not_running e1 w Run) as [E _]. rewrite E.
      exact (proj1 (stopThermostat_not_running e2 w Run)).
  - destruct (isRunning (thermostatState w)) eqn:Run.
    + destruct (thermostatInterval w) as [p |] eqn:T.
      * assert (Armed : thermostatInterval w <> None) by congruence.
        destruct (stopThermostat_running e1 w Run Armed) as (_ & R & _).
        exact (proj2 (stopThermostat_not_running e2 _ R)).
      * assert (E : exec stopThermostat e1 w = w) by (mrun; rewrite Run, T; reflexivity).
        rewrite E. mrun. rewrite Run, T. reflexivity.
    + destruct (stopThermostat_not_running e1 w Run) as [E _]. rewrite E.
      exact (proj2 (stopThermostat_not_running e2 w Run)).
  - destruct w as [st cfg ti lca hs rs [conn en lpt le ra mx] cl pi tr].
    destruct cl, pi, conn; vm_compute; reflexivity.
Qed.

(** toggleRelay() inverts the relay when the write succeeds and leaves it
    when the write fails; two successful toggles give back the state the
    relay had. *)
Theorem X14_toggleRelay (e1 e2 : Env) (w : World) :
  (gpioOk e1 = true ->
   eval toggleRelay e1 w = true /\
   relayState (exec toggleRelay e1 w) = negb (relayState w)) /\
  (gpioOk e1 = false ->
   eval toggleRelay e1 w = false /\
   relayState (exec toggleRelay e1 w) = relayState w) /\
  (gpioOk e1 = true -> gpioOk e2 = true ->
   relayState (exec toggleRelay e2 (exec toggleRelay e1 w)) = relayState w).
Proof.
  cbv [toggleRelay]. mrun.
  split; [ | split ]; intros;
    destruct (relayState w) eqn:R; wsimpl;
    repeat match goal with H : gpioOk _ = _ |- _ => rewrite H; wsimpl end;
    rewrite ?R; wsimpl;
    repeat match goal with H : gpioOk _ = _ |- _ => rewrite H; wsimpl end;
    try split; reflexivity.
Qed.

Lemma X14_toggleRelay_witness :
  gpioOk (envReading 19 2000) = true /\
  gpioOk (mkEnv (Reading 19) false 2000 None None) = false /\
  relayState (exec toggleRelay (envReading 19 2000) idleWorld) = negb (relayState idleWorld) /\
  relayState (exec toggleRelay (mkEnv (Reading 19) false 2000 None None) idleWorld)
  = relayState idleWorld /\
  relayState (exec toggleRelay (envReading 19 3000)
                   (exec toggleRelay (envReading 19 2000) idleWorld))
  = relayState idleWorld.
Proof.
  destruct (X14_toggleRelay (envReading 19 2000) (envReading 19 3000) idleWorld)
    as (Ok & _ & Twice).
  destruct (X14_toggleRelay (mkEnv (Reading 19) false 2000 None None)
              (envReading 19 3000) idleWorld) as (_ & Ko & _).
  split; [ reflexivity | split; [ reflexivity | ] ].
  split; [ exact (proj2 (Ok eq_refl)) | ].
  split; [ exact (proj2 (Ko eq_refl)) | exact (Twice eq_refl eq_refl) ].
Defined.

(** * The sensor file *)

Lemma matchHere_other (c : ascii) (s : string) :
  Ascii.eqb c "t" = false -> matchHere (String c s) = None.
Proof.
  intro C. destruct s as [| c2 s]; cbn [matchHere]; trivial.
  rewrite C. reflexivity.
Qed.

Lemma matchTemperature_skip (pre rest : string) :
  withoutT pre = true ->
  matchTemperature (pre ++ rest) = matchTemperature rest.
Proof.
  induction pre as [| c pre IH]; cbn [withoutT append]; trivial.
  intro H. apply andb_true_iff in H. destruct H as [C W].
  apply negb_true_iff in C.
  change (matchTemperature (String c (pre ++ rest)))
    with (match matchHere (String c (pre ++ rest)) with
          | Some d => Some d
          | None => matchTemperature (pre ++ rest)
          end).
  rewrite (matchHere_other c _ C). exact (IH W).
Qed.

Lemma matchTemperature_withoutT (s : string) :
  withoutT s = true -> matchTemperature s = None.
Proof.
  induction s as [| c s IH]; cbn [withoutT]; trivial.
  intro H. apply andb_true_iff in H. destruct H as [C W].
  apply negb_true_iff in C.
  change (matchTemperature (String c s))
    with (match matchHere (String c s) with
          | Some d => Some d
          | None => matchTemperature s
          end).
  rewrite (matchHere_other c _ C). exact (IH W).
Qed.

Lemma takeDigits_run (digits post : string) :
  allDigits digits = true ->
  noLeadingDigit post = true ->
  takeDigits (digits ++ post) = digits.
Proof.
  intros D P. induction digits as [| c digits IH]; cbn [append].
  - destruct post as [| c post]; trivial.
    cbn [noLeadingDigit] in P. apply negb_true_iff in P.
    cbn [takeDigits]. rewrite P. reflexivity.
  - cbn [allDigits] in D. apply andb_true_iff in D. destruct D as [C D].
    cbn [takeDigits]. rewrite C, (IH D). reflexivity.
Qed.

Lemma parseDigits_nonneg (digits : string) (acc : Z) :
  0 <= acc -> 0 <= parseDigits acc digits.
Proof.
  revert acc. induction digits as [| c digits IH]; intros acc A; cbn [parseDigits]; trivial.
  apply IH. lia.
Qed.

Lemma parseDigits_bound (digits : string) (acc : Z) :
  allDigits digits = true -> 0 <= acc ->
  parseDigits acc digits < (acc + 1) * 10 ^ Z.of_nat (String.length digits).
Proof.
  revert acc. induction digits as [| c digits IH]; intros acc D A;
    cbn [parseDigits String.length].
  - cbn. lia.
  - cbn [allDigits] in D. apply andb_true_iff in D. destruct D as [C D].
    unfold isDigit in C. apply andb_true_iff in C. destruct C as [C1 C2].
    apply Nat.leb_le in C1, C2.
    eapply Z.lt_le_trans; [ apply IH; [ exact D | lia ] | ].
    rewrite Nat2Z.inj_succ, Z.pow_succ_r by lia.
    pose proof (Z.pow_pos_nonneg 10 (Z.of_nat (String.length digits))
                  ltac:(lia) ltac:(lia)) as P.
    nia.
Qed.

(** getTemperature() on the file of a sensor that is found and read.  If
    the text is some text without the letter t, then "t=", a run of at most
    15 digits and a rest that does not go on with a digit, the reading is
    the double nearest to the thousandth of the number that the digits
    write (a number of 15 digits is below 2^53: parseInt returns it
    exactly).  If what follows "t=" is a minus sign, as for a temperature
    below zero, and no other "t" occurs, the call throws the error of an
    invalid format.  Whatever the file system answers, a temperature that is
    returned is never negative. *)
Theorem X15_getTemperature (fs : SensorFs) (path pre digits post : string) :
  getSensorPath fs = FsOk path ->
  withoutT pre = true ->
  (readFile fs path = FsOk (pre ++ "t=" ++ digits ++ post)%string ->
   allDigits digits = true -> digits <> EmptyString -> noLeadingDigit post = true ->
   (String.length digits <= 15)%nat ->
   getTemperature fs = Reading (double (inject_Z (parseDigits 0 digits) / 1000))) /\
  (readFile fs path = FsOk (pre ++ "t=-" ++ post)%string ->
   withoutT post = true ->
   getTemperature fs = SensorError "Formato de datos del sensor inválido") /\
  (forall t, getTemperature fs = Reading t -> (0 <= t)%Q).
Proof.
  intros P W. split; [ | split ].
  - intros R D N L Len. unfold getTemperature. rewrite P, R.
    rewrite (matchTemperature_skip _ _ W).
    cbn [append matchTemperature matchHere Ascii.eqb Bool.eqb andb].
    rewrite (takeDigits_run digits post D L).
    assert (E : parseInt digits = inject_Z (parseDigits 0 digits)).
    { apply double_inject_Z. split; [ apply parseDigits_nonneg; lia | ].
      eapply Z.lt_le_trans; [ apply parseDigits_bound; [ exact D | lia ] | ].
      apply Z.le_trans with (10 ^ 15); [ | vm_compute; discriminate ].
      rewrite Z.mul_1_l. apply Z.pow_le_mono_r; lia. }
    destruct digits; [ congruence | ]. rewrite E. reflexivity.
  - intros R Wp. unfold getTemperature. rewrite P, R.
    rewrite (matchTemperature_skip _ _ W).
    assert (E : matchTemperature ("t=-" ++ post) = matchTemperature post).
    { change ("t=-" ++ post)%string with (String "t" (String "=" (String "-" post))).
      change (matchTemperature (String "t" (String "=" (String "-" post))))
        with (match matchHere (String "t" (String "=" (String "-" post))) with
              | Some d => Some d
              | None =>
                  match matchHere (String "=" (String "-" post)) with
                  | Some d => Some d
                  | None =>
                      match matchHere (String "-" post) with
                      | Some d => Some d
                      | None => matchTemperature post
                      end
                  end
              end).
      rewrite (matchHere_other "-" post eq_refl).
      rewrite (matchHere_other "=" _ eq_refl).
      reflexivity. }
    rewrite E, (matchTemperature_withoutT post Wp). reflexivity.
  - intros t G. unfold getTemperature in G.
    destruct (getSensorPath fs); [ | discriminate G ].
    destruct (readFile fs a); [ | discriminate G ].
    destruct (matchTemperature a0) as [d |]; [ | discriminate G ].
    injection G as <-.
    pose proof (parseDigits_nonneg d 0 (Z.le_refl 0)) as N.
    unfold fdiv, parseInt. apply double_nonneg.
    apply Qle_shift_div_l; [ reflexivity | ]. rewrite Qmult_0_l.
    apply double_nonneg. change 0%Q with (inject_Z 0). rewrite <- Zle_Qle. exact N.
Qed.

(** Witness of X15: a file that ends with t=23125 reads 23.125 degrees; one
    that ends with t=21900 reads the double nearest to 21.9; a file that
    ends with t=-1250 (1.25 degrees below zero) is refused. *)
Lemma X15_getTemperature_witness :
  getSensorPath (oneSensorFs (w1Prefix ++ "t=" ++ "23125" ++ ""))
  = FsOk "/sys/bus/w1/devices/28-0316a2795bff/w1_slave"%string /\
  withoutT w1Prefix = true /\
  getTemperature (oneSensorFs (w1Prefix ++ "t=" ++ "23125" ++ "")) = Reading (185 # 8) /\
  getTemperature (oneSensorFs (w1Prefix ++ "t=" ++ "21900" ++ ""))
  = Reading (3082150994981683 # 140737488355328) /\
  getTemperature (oneSensorFs (w1Prefix ++ "t=-" ++ "1250"))
  = SensorError "Formato de datos del sensor inválido".
Proof.
  assert (P1 : getSensorPath (oneSensorFs (w1Prefix ++ "t=" ++ "23125" ++ ""))
               = FsOk "/sys/bus/w1/devices/28-0316a2795bff/w1_slave"%string)
    by (vm_compute; reflexivity).
  assert (P2 : getSensorPath (oneSensorFs (w1Prefix ++ "t=-" ++ "1250"))
               = FsOk "/sys/bus/w1/devices/28-0316a2795bff/w1_slave"%string)
    by (vm_compute; reflexivity).
  assert (P3 : getSensorPath (oneSensorFs (w1Prefix ++ "t=" ++ "21900" ++ ""))
               = FsOk "/sys/bus/w1/devices/28-0316a2795bff/w1_slave"%string)
    by (vm_compute; reflexivity).
  assert (W : withoutT w1Prefix = true) by (vm_compute; reflexivity).
  destruct (X15_getTemperature (oneSensorFs (w1Prefix ++ "t=" ++ "23125" ++ ""))
              _ w1Prefix "23125" "" P1 W) as (Ok & _ & _).
  destruct (X15_getTemperature (oneSensorFs (w1Prefix ++ "t=" ++ "21900" ++ ""))
              _ w1Prefix "21900" "" P3 W) as (Ok' & _ & _).
  destruct (X15_getTemperature (oneSensorFs (w1Prefix ++ "t=-" ++ "1250"))
              _ w1Prefix "" "1250" P2 W) as (_ & Neg & _).
  split; [ exact P1 | split; [ exact W | split; [ | split ] ] ].
  - rewrite Ok; [ vm_compute; reflexivity | vm_compute; reflexivity | reflexivity
                | discriminate | reflexivity | vm_compute; lia ].
  - rewrite Ok'; [ vm_compute; reflexivity | vm_compute; reflexivity | reflexivity
                 | discriminate | reflexivity | vm_compute; lia ].
  - apply Neg; vm_compute; reflexivity.
Defined.

(** * Validators and stored settings *)

(** The validators of the forms and those of the back end.  On the
    temperature they agree: both accept exactly [5,30].  On the hysteresis
    the form asks for 0.1 <= h <= 5 while the back end accepts 0 < h <= 5:
    what the form accepts the back end accepts, and the back end also takes
    the values below 0.1 that the form refuses. *)
Theorem X16_form_and_backend_validators (t h : Q) :
  (formValidateTemperatureValue t = None <-> validateTemperatureValue t = true) /\
  (formValidateHysteresisValue h = None
   <-> validateHysteresisValue h = true /\ (1 # 10 <= h)%Q) /\
  ((0 < h)%Q -> (h < 1 # 10)%Q ->
   validateHysteresisValue h = true /\
   formValidateHysteresisValue h = Some HysteresisOutOfRange).
Proof.
  split; [ | split ].
  - unfold formValidateTemperatureValue.
    rewrite validateTemperatureValue_spec.
    destruct (Qltb t 5) eqn:A; destruct (Qltb 30 t) eqn:B; cbn [orb];
      rewrite ?Qltb_lt, ?Qltb_ge in *; split; intro H;
      try discriminate; try reflexivity; try (split; assumption);
      destruct H as [H1 H2];
      first [ exfalso; apply (Qlt_not_le _ _ A H1)
            | exfalso; apply (Qlt_not_le _ _ B H2) ].
  - unfold formValidateHysteresisValue.
    rewrite validateHysteresisValue_spec.
    destruct (Qltb h (1 # 10)) eqn:A; destruct (Qltb 5 h) eqn:B; cbn [orb];
      rewrite ?Qltb_lt, ?Qltb_ge in *; split; intro H;
      try discriminate; try reflexivity.
    + destruct H as [[_ H2] H1]. exfalso. apply (Qlt_not_le _ _ A H1).
    + destruct H as [[_ H2] H1]. exfalso. apply (Qlt_not_le _ _ A H1).
    + destruct H as [[_ H2] H1]. exfalso. apply (Qlt_not_le _ _ B H2).
    + split; [ split | ]; trivial.
      apply Qlt_le_trans with (y := 1 # 10); [ reflexivity | exact A ].
  - intros Pos Small. split.
    + apply validateHysteresisValue_spec. split; trivial.
      apply Qlt_le_weak. apply Qlt_trans with (y := 1 # 10); trivial. reflexivity.
    + unfold formValidateHysteresisValue.
      apply Qltb_lt in Small. rewrite Small. reflexivity.
Qed.

Lemma X16_form_and_backend_validators_witness :
  (0 < 1 # 20)%Q /\ (1 # 20 < 1 # 10)%Q /\
  validateHysteresisValue (1 # 20) = true /\
  formValidateHysteresisValue (1 # 20) = Some HysteresisOutOfRange.
Proof.
  assert (Pos : (0 < 1 # 20)%Q) by reflexivity.
  assert (Small : (1 # 20 < 1 # 10)%Q) by reflexivity.
  destruct (X16_form_and_backend_validators 22 (1 # 20)) as (_ & _ & Gap).
  destruct (Gap Pos Small) as [B F].
  split; [ exact Pos | split; [ exact Small | split; [ exact B | exact F ] ] ].
Defined.

Lemma truthy_spec (x : Q) : truthy x = true <-> ~ (x == 0)%Q.
Proof.
  unfold truthy. rewrite negb_true_iff.
  destruct (Qeq_bool x 0) eqn:E.
  - apply Qeq_bool_iff in E. split; [ discriminate | contradiction ].
  - split; [ | reflexivity ]. intros _ H. apply Qeq_bool_iff in H. congruence.
Qed.

(** The settings read at start-up.  A stored target that is not 0 is taken
    as it is (it is not checked against [5,30]); a stored 0, a missing
    document and a failing query all give the default 22, and likewise 1.5
    for the hysteresis: neither value is ever 0.  The two values are copied
    into the state, where snapshots and publications read them, and not
    into the configuration: after a start the control decision works with
    the defaults overridden by the argument of startThermostat, whatever was
    stored. *)
Theorem X17_stored_settings (found : FindResult) (config : PartialConfig)
    (e0 e : Env) (w : World) :
  let loaded := getTargetTemperatureAndHysteresis found in
  let w1 := exec (loadInitialConfig found) e0 w in
  (~ (fst loaded == 0)%Q /\ ~ (snd loaded == 0)%Q) /\
  (forall r, found = Found r -> ~ (setting_value r == 0)%Q -> fst loaded = setting_value r) /\
  (forall r, found = Found r -> (setting_value r == 0)%Q -> fst loaded = 22%Q) /\
  (found = FindFails \/ found = NotFound -> loaded = (22%Q, (3 # 2)%Q)) /\
  w1 = set_state (with_hysteresis (snd loaded))
         (set_state (with_targetTemperature (fst loaded)) w) /\
  thermostatConfig w1 = thermostatConfig w /\
  (isRunning (thermostatState w) = false ->
   thermostatConfig (exec (startThermostat config) e w1) = mergeConfig DEFAULT_CONFIG config /\
   targetTemperature (thermostatState (exec (startThermostat config) e w1)) = fst loaded).
Proof.
  cbv zeta.
  assert (D22 : ~ (22 == 0)%Q) by (intro H; discriminate H).
  assert (D15 : ~ (3 # 2 == 0)%Q) by (intro H; discriminate H).
  split; [ | split; [ | split; [ | split; [ | split; [ | split ] ] ] ] ].
  - destruct found as [ | | [v [hy |]]]; cbn [getTargetTemperatureAndHysteresis fst snd
      setting_value setting_hysteresis DEFAULT_CONFIG c_targetTemperature c_hysteresis];
      try (split; assumption).
    + destruct (truthy v) eqn:Tv, (truthy hy) eqn:Th;
        try apply truthy_spec in Tv; try apply truthy_spec in Th; split; assumption.
    + destruct (truthy v) eqn:Tv; try apply truthy_spec in Tv; split; assumption.
  - intros r -> NZ. apply truthy_spec in NZ.
    cbn [getTargetTemperatureAndHysteresis fst]. rewrite NZ. reflexivity.
  - intros r -> Z0.
    assert (F : truthy (setting_value r) = false).
    { destruct (truthy (setting_value r)) eqn:T; trivial.
      apply truthy_spec in T. contradiction. }
    cbn [getTargetTemperatureAndHysteresis fst]. rewrite F. reflexivity.
  - intros [-> | ->]; reflexivity.
  - reflexivity.
  - reflexivity.
  - intro Stopped.
    set (w1 := exec (loadInitialConfig found) e0 w).
    assert (S1 : isRunning (thermostatState w1) = false) by exact Stopped.
    destruct (startThermostat_stopped config e w1 S1) as (_ & _ & _ & C & _ & _ & T & _).
    rewrite C, T. split; reflexivity.
Qed.

(** Witness of X17: a stored setpoint of 25 is shown by the state after a
    start, while the loop is controlled at the default 22. *)
Lemma X17_stored_settings_witness :
  isRunning (thermostatState (initialWorld 0)) = false /\
  targetTemperature
    (thermostatState
       (exec (startThermostat noConfig) (envReading 19 1000)
             (exec (loadInitialConfig (Found (mkSetting 25 None))) (envReading 19 10)
                   (initialWorld 0)))) = 25%Q /\
  c_targetTemperature
    (thermostatConfig
       (exec (startThermostat noConfig) (envReading 19 1000)
             (exec (loadInitialConfig (Found (mkSetting 25 None))) (envReading 19 10)
                   (initialWorld 0)))) = 22%Q.
Proof.
  destruct (X17_stored_settings (Found (mkSetting 25 None)) noConfig
              (envReading 19 10) (envReading 19 1000) (initialWorld 0))
    as (_ & _ & _ & _ & _ & _ & Start).
  destruct (Start eq_refl) as [C T].
  split; [ reflexivity | split ].
  - rewrite T. reflexivity.
  - rewrite C. reflexivity.
Defined.

(** * Health, restart and notifications *)

(** isMqttHealthy() after the events that change it.  On a live client a
    'connect' event makes an enabled service healthy; an 'error' event makes
    it unhealthy (the connection flag is cleared and the message kept); a
    state publication on a connected, enabled service makes it healthy again
    by clearing the error; after stopMqtt() the service is never healthy. *)
Theorem X18_isMqttHealthy (e e' : Env) (w : World) (m : string) :
  (mqttClient w = true -> isEnabled (serviceState w) = true ->
   eval isMqttHealthy e' (exec (clientEvent EvConnect) e w) = true) /\
  (mqttClient w = true ->
   eval isMqttHealthy e' (exec (clientEvent (EvError m)) e w) = false /\
   mqtt_lastError (serviceState (exec (clientEvent (EvError m)) e w)) = Some m) /\
  (isConnected (serviceState w) = true -> isEnabled (serviceState w) = true ->
   eval isMqttHealthy e' (exec publishThermostatStatus e w) = true) /\
  eval isMqttHealthy e' (exec stopMqtt e w) = false.
Proof.
  split; [ | split; [ | split ] ].
  - intros K En.
    destruct (onConnect_bridge e w) as (_ & _ & En' & C & L & _).
    cbv [isMqttHealthy eval bind get ret fst]. rewrite En', C, L, En. reflexivity.
  - intro K. cbv [isMqttHealthy]. mrun_bridge. wsimpl.
    rewrite andb_false_r. split; reflexivity.
  - intros C En.
    destruct w as [st cfg ti lca hs rs [conn en lpt le ra mx] cl pi tr].
    cbn [serviceState isConnected isEnabled] in C, En. subst conn en.
    destruct cl; vm_compute; reflexivity.
  - destruct w as [st cfg ti lca hs rs [conn en lpt le ra mx] cl pi tr].
    destruct cl, pi, conn; vm_compute; reflexivity.
Qed.

Lemma X18_isMqttHealthy_witness :
  mqttClient connectedWorld = true /\
  isEnabled (serviceState connectedWorld) = true /\
  isConnected (serviceState connectedWorld) = true /\
  eval isMqttHealthy (envReading 19 3000)
       (exec (clientEvent (EvError "ECONNRESET")) (envReading 19 2000) connectedWorld) = false /\
  eval isMqttHealthy (envReading 19 3000)
       (exec publishThermostatStatus (envReading 19 2000) connectedWorld) = true.
Proof.
  assert (K : mqttClient connectedWorld = true) by (vm_compute; reflexivity).
  assert (En : isEnabled (serviceState connectedWorld) = true) by (vm_compute; reflexivity).
  assert (C : isConnected (serviceState connectedWorld) = true) by (vm_compute; reflexivity).
  destruct (X18_isMqttHealthy (envReading 19 2000) (envReading 19 3000)
              connectedWorld "ECONNRESET") as (_ & Err & Pub & _).
  split; [ exact K | split; [ exact En | split; [ exact C | split ] ] ].
  - exact (proj1 (Err K)).
  - exact (Pub C En).
Defined.


(** The safety shutdown of handleSensorError notifies twice.  When the
    count made by handleSensorError reaches the limit during a tick, every
    registered handler is called once with the message of
    handleSensorError and once more with the message of the timer callback,
    in the order of registration each time, after the timer was cancelled;
    nothing else is done to the outside world. *)
Theorem X20_shutdown_notifies_twice (e : Env) (w : World) (p : Z) (m : string) :
  thermostatInterval w = Some p ->
  sensor e = SensorError m ->
  maxConsecutiveErrors (thermostatConfig w) <= consecutiveErrors (thermostatState w) + 1 ->
  emitted tick e w
  = rev (map (fun h => (now e, CriticalError h
                                 (TooManyErrors (consecutiveErrors (thermostatState w) + 2))))
             (errorHandlers w))
    ++ rev (map (fun h => (now e, CriticalError h SensorPaused)) (errorHandlers w))
    ++ [(now e, TimerCleared)].
Proof.
  intros Armed S Reached. apply emitted_prefix.
  mrun. rewrite Armed, S. wsimpl.
  destruct (maxConsecutiveErrors (thermostatConfig w)
            <=? consecutiveErrors (thermostatState w) + 1) eqn:T1; zb; [ | lia ].
  wsimpl. rewrite Armed. wsimpl. rewrite callHandlers_run. wsimpl.
  destruct (maxConsecutiveErrors (thermostatConfig w)
            <=? consecutiveErrors (thermostatState w) + 1 + 1) eqn:T2; zb; [ | lia ].
  wsimpl. rewrite callHandlers_run. wsimpl.
  unfold handlerEvents.
  replace (consecutiveErrors (thermostatState w) + 1 + 1)
    with (consecutiveErrors (thermostatState w) + 2) by lia.
  rewrite <- !app_assoc. reflexivity.
Qed.

(** Witness of X20: the third failed read on the heating loop, with its
    one registered handler. *)
Lemma X20_shutdown_notifies_twice_witness :
  thermostatInterval (runTicks (firstn 2 threeFailedReads) heatingWorld) = Some 3000 /\
  maxConsecutiveErrors (thermostatConfig (runTicks (firstn 2 threeFailedReads) heatingWorld))
  <= consecutiveErrors (thermostatState (runTicks (firstn 2 threeFailedReads) heatingWorld)) + 1 /\
  emitted tick (envSensorDown 40000) (runTicks (firstn 2 threeFailedReads) heatingWorld)
  = [ (40000, CriticalError 1%nat (TooManyErrors 6));
      (40000, CriticalError 1%nat SensorPaused);
      (40000, TimerCleared) ].
Proof.
  assert (Armed : thermostatInterval (runTicks (firstn 2 threeFailedReads) heatingWorld)
                  = Some 3000) by (vm_compute; reflexivity).
  assert (Reached :
            maxConsecutiveErrors (thermostatConfig (runTicks (firstn 2 threeFailedReads) heatingWorld))
            <= consecutiveErrors (thermostatState (runTicks (firstn 2 threeFailedReads) heatingWorld)) + 1)
    by (vm_compute; discriminate).
  split; [ exact Armed | split; [ exact Reached | ] ].
  rewrite (X20_shutdown_notifies_twice (envSensorDown 40000) _ 3000 _ Armed eq_refl Reached).
  vm_compute. reflexivity.
Defined.
